(** * The transform stage of the financial ETL pipeline

    A shallow embedding of [src/transform/data_transformer.py]
    (class [DataTransformer]) and of the pandas operations it calls, and of
    the extractors that hand it their frames: [src/extract/stock_api.py],
    [src/extract/crypto_api.py] and [src/extract/news_scraper.py].

    Modelling conventions.

    - A DataFrame is a list of rows in index order; a column is the list of
      one field.  A frame is [empty] when it has no row.
    - A float64 cell is a [Num.num]: a rational, [+inf], [-inf] or [NaN].
      pandas' missing marker of a float column is [NaN].  Arithmetic on finite
      values is exact (binary64 rounding is abstracted away) and the special
      values follow IEEE 754 as numpy applies it (no exception on a division
      by zero).  The two zeros of binary64 are identified; the sign of the
      infinity a division by zero returns is the sign of the numerator.
      Overflow is abstracted away with the rounding: a sum or a product of
      finite values is finite here, where binary64 gives an infinity beyond
      its range.  Equalities of computed values are to be read with this
      abstraction; no property below is the statement that a computed value
      is no infinity.
    - A raw numeric cell is a finite number, a text that [pd.to_numeric]
      cannot read, or a missing cell.  An input cell that holds an infinity
      (the float [inf], or a text such as ['inf'] or ['1e400'], which
      [pd.to_numeric] reads as one) is no cell of a raw frame.  What holds
      of the floats whatever they are, the infinities included, is stated
      on frames of converted rows, whose cells are [Num.num].  A raw date
      cell is an instant, a missing cell or a text that [pd.to_datetime]
      cannot read; the latter raises.
    - Instants are microseconds on the time line; [datetime.now()] is a
      parameter of the operation that reads the clock.
    - Text is an ASCII [string].  A symbol is always present; a news title
      may be missing.
    - A frame is typed: its rows have every column of its domain, so the
      one way an input can fail to read is a date that is no date.
    - What a site answers to a request is a parameter of the extractor that
      asks: the parsed body, or the failure of the request.  An extractor
      catches whatever is raised and returns the empty frame instead.

    The file has the number model, the pandas operations, the datasets,
    the transformer and the extractors first, then the words of the
    specification and sample frames, then the facts: general ones by
    subject, one module per property of the specification, and then the
    further properties of the transformer and of the extractors. *)

From Stdlib Require Import ZArith QArith Qreduction Qfield String Ascii Bool List Lia Lqa.
Import ListNotations.

Set Implicit Arguments.

(* ------------------------------------------------------------------ *)
(** ** Extended rationals: the value of a float64 cell *)

Module Num.

Inductive num : Type :=
| NaN
| PInf
| NInf
| Fin (q : Q).

(** Finite values are kept in lowest terms, so that equal values are
    syntactically equal. *)
Definition fin (q : Q) : num := Fin (Qred q).

Definition zero : num := fin 0.
Definition one : num := fin 1.
Definition hundred : num := fin 100.
Definition of_nat (n : nat) : num := fin (inject_Z (Z.of_nat n)).

(** [pd.isna] on a float. *)
Definition isna (x : num) : bool :=
  match x with NaN => true | _ => false end.

(** [np.isinf]. *)
Definition isinf (x : num) : bool :=
  match x with PInf | NInf => true | _ => false end.

Definition isfinite (x : num) : bool :=
  match x with Fin _ => true | _ => false end.

(** [x == 0] on floats. *)
Definition is_zero (x : num) : bool :=
  match x with Fin q => Qeq_bool q 0 | _ => false end.

Definition neg (x : num) : num :=
  match x with
  | NaN => NaN
  | PInf => NInf
  | NInf => PInf
  | Fin q => fin (- q)
  end.

Definition add (x y : num) : num :=
  match x, y with
  | NaN, _ | _, NaN => NaN
  | PInf, NInf | NInf, PInf => NaN
  | PInf, _ | _, PInf => PInf
  | NInf, _ | _, NInf => NInf
  | Fin a, Fin b => fin (a + b)
  end.

Definition sub (x y : num) : num := add x (neg y).

(** An infinity times or over a finite [q]: [positive] is the sign of the
    infinity, flipped when [q] is negative; [NaN] when [q] is 0. *)
Definition signed_inf (positive : bool) (q : Q) : num :=
  match q ?= 0 with
  | Eq => NaN
  | Gt => if positive then PInf else NInf
  | Lt => if positive then NInf else PInf
  end.

Definition mul (x y : num) : num :=
  match x, y with
  | NaN, _ | _, NaN => NaN
  | PInf, PInf | NInf, NInf => PInf
  | PInf, NInf | NInf, PInf => NInf
  | PInf, Fin b | Fin b, PInf => signed_inf true b
  | NInf, Fin b | Fin b, NInf => signed_inf false b
  | Fin a, Fin b => fin (a * b)
  end.

(** Float division as numpy does it: a division by zero raises nothing, it
    returns an infinity, or [NaN] for [0 / 0]. *)
Definition div (x y : num) : num :=
  match x, y with
  | NaN, _ | _, NaN => NaN
  | (PInf | NInf), (PInf | NInf) => NaN
  | Fin _, (PInf | NInf) => zero
  | PInf, Fin b => match b ?= 0 with Lt => NInf | _ => PInf end
  | NInf, Fin b => match b ?= 0 with Lt => PInf | _ => NInf end
  | Fin a, Fin b =>
      match b ?= 0 with
      | Eq => signed_inf true a
      | _ => fin (a / b)
      end
  end.

(** Comparisons; every comparison with [NaN] is false. *)
Definition ltb (x y : num) : bool :=
  match x, y with
  | NaN, _ | _, NaN => false
  | _, NInf => false
  | NInf, _ => true
  | PInf, _ => false
  | _, PInf => true
  | Fin a, Fin b => match a ?= b with Lt => true | _ => false end
  end.

Definition leb (x y : num) : bool :=
  match x, y with
  | NaN, _ | _, NaN => false
  | NInf, _ => true
  | _, NInf => false
  | _, PInf => true
  | PInf, _ => false
  | Fin a, Fin b => match a ?= b with Gt => false | _ => true end
  end.

Definition gtb (x y : num) : bool := ltb y x.
Definition geb (x y : num) : bool := leb y x.

Definition lt (x y : num) : Prop := ltb x y = true.
Definition le (x y : num) : Prop := leb x y = true.

(** Equality of values: the same special value, or equal rationals. *)
Definition eqv (x y : num) : Prop :=
  match x, y with
  | NaN, NaN | PInf, PInf | NInf, NInf => True
  | Fin a, Fin b => a == b
  | _, _ => False
  end.

Definition sum (l : list num) : num := fold_left add l zero.

Definition sq (x : num) : num := mul x x.

(** The square root of a value, kept symbolic: the root of a rational is in
    general not a rational.  [np.sqrt] maps [NaN] to [NaN], so a root is
    missing exactly when its radicand is. *)
Inductive root : Type := Sqrt (radicand : num).

Definition radicand (r : root) : num := match r with Sqrt v => v end.
Definition root_isna (r : root) : bool := isna (radicand r).
Definition root_is_zero (r : root) : bool := is_zero (radicand r).

End Num.

Declare Scope num_scope.
Delimit Scope num_scope with num.
Bind Scope num_scope with Num.num.
Infix "+" := Num.add : num_scope.
Infix "-" := Num.sub : num_scope.
Infix "*" := Num.mul : num_scope.
Infix "/" := Num.div : num_scope.
Infix "<?" := Num.ltb : num_scope.
Infix "<=?" := Num.leb : num_scope.
Infix ">?" := Num.gtb : num_scope.
Infix ">=?" := Num.geb : num_scope.
Infix "<" := Num.lt : num_scope.
Infix "<=" := Num.le : num_scope.
Infix "=~" := Num.eqv (at level 70, no associativity) : num_scope.

(* ------------------------------------------------------------------ *)
(** ** The pandas operations the transformer calls *)

Module Pandas.

Import Num.

(** *** Failures *)

Inductive error : Type :=
| ValueError.   (* raised by [pd.to_datetime] on a text that is no date *)

Inductive result (A : Type) : Type :=
| Ok (a : A)
| Raise (e : error).

Arguments Ok {A} a.
Arguments Raise {A} e.

Definition bind {A B : Type} (m : result A) (k : A -> result B) : result B :=
  match m with
  | Ok a => k a
  | Raise e => Raise e
  end.

(** What the caller gets when nothing is raised. *)
Definition to_option {A : Type} (m : result A) : option A :=
  match m with
  | Ok a => Some a
  | Raise _ => None
  end.

Fixpoint mapM {A B : Type} (f : A -> result B) (l : list A) : result (list B) :=
  match l with
  | [] => Ok []
  | x :: t =>
      bind (f x) (fun y => bind (mapM f t) (fun ys => Ok (y :: ys)))
  end.

(** *** Raw cells and their coercion

    The numbers of a raw frame are finite; an infinity comes into a frame
    of converted rows only as a value of [Num.num]. *)

Inductive raw : Type :=
| RNum (q : Q)      (* a number, or a text that reads as one *)
| RBad              (* a text that does not read as a number *)
| RNone.            (* None / NaN / empty *)

(** [pd.to_numeric(col, errors='coerce')], cell by cell. *)
Definition to_numeric (c : raw) : num :=
  match c with
  | RNum q => fin q
  | RBad => NaN
  | RNone => NaN
  end.

Inductive raw_date : Type :=
| DVal (t : Z)      (* an instant, or a text that reads as one *)
| DNaT              (* a missing date *)
| DBad.             (* a text that does not read as a date *)

(** [pd.to_datetime(col)], cell by cell: [errors='raise'] is the default. *)
Definition to_datetime (c : raw_date) : result (option Z) :=
  match c with
  | DVal t => Ok (Some t)
  | DNaT => Ok None
  | DBad => Raise ValueError
  end.

(** [df.empty]. *)
Definition empty {A : Type} (df : list A) : bool :=
  match df with [] => true | _ => false end.

(** [df.dropna(subset=[col])]. *)
Definition dropna {A : Type} (col : A -> num) (df : list A) : list A :=
  filter (fun r => negb (isna (col r))) df.

(** [col.fillna(v)], cell by cell. *)
Definition fillna (v : num) (x : num) : num :=
  if isna x then v else x.

(** *** Group-wise transforms

    [df.groupby(key)[col].transform(f)] splits the column by key, keeping the
    frame's order inside each group, applies [f] to each group's series and
    puts the results back at the rows they came from. *)

Section GroupBy.

Variables V B : Type.

(** The series of one group. *)
Definition group_values (k : string) (keys : list string) (vals : list V) : list V :=
  map snd (filter (fun kv => String.eqb k (fst kv)) (combine keys vals)).

(** How many rows of group [k] stand among [keys]. *)
Definition group_count (k : string) (keys : list string) : nat :=
  List.length (filter (String.eqb k) keys).

(** Walks the frame in order; [before] holds the keys already passed, so a
    row's position inside its group is the number of equal keys before it. *)
Fixpoint scatter (res : string -> list B) (d : B)
                 (before : list string) (keys : list string) : list B :=
  match keys with
  | [] => []
  | k :: rest =>
      nth (group_count k before) (res k) d :: scatter res d (k :: before) rest
  end.

Definition groupby_transform (keys : list string) (vals : list V)
                             (f : list V -> list B) (d : B) : list B :=
  scatter (fun k => f (group_values k keys vals)) d [] keys.

End GroupBy.

(** [series.shift(1)]. *)
Definition shift (xs : list num) : list num :=
  match xs with
  | [] => []
  | _ => NaN :: removelast xs
  end.

Fixpoint map2 {A B C : Type} (f : A -> B -> C) (l : list A) (m : list B) : list C :=
  match l, m with
  | x :: l', y :: m' => f x y :: map2 f l' m'
  | _, _ => []
  end.

(** [series.pct_change()]: the series over its shift, minus one. *)
Definition pct_change (xs : list num) : list num :=
  map2 (fun cur prev => (cur / prev - one)%num) xs (shift xs).

(** *** Rolling windows *)

(** The window that ends at position [j]: positions [j-w+1 .. j], cut at the
    start of the series. *)
Definition window (w : nat) (xs : list num) (j : nat) : list num :=
  skipn (S j - w) (firstn (S j) xs).

(** The window routines first turn infinities into [NaN], then skip [NaN]. *)
Definition prep_values (win : list num) : list num :=
  map (fun x => if isinf x then NaN else x) win.

Definition observations (win : list num) : list num :=
  filter (fun x => negb (isna x)) (prep_values win).

Definition roll_mean (min_periods : nat) (win : list num) : num :=
  let obs := observations win in
  let nobs := List.length obs in
  if (min_periods <=? nobs)%nat && (0 <? nobs)%nat
  then (sum obs / of_nat nobs)%num
  else NaN.

(** Sum of squared differences from the mean. *)
Definition ssqdm (obs : list num) : num :=
  let m := (sum obs / of_nat (List.length obs))%num in
  sum (map (fun x => sq (x - m)%num) obs).

Definition roll_var (min_periods ddof : nat) (win : list num) : num :=
  let obs := observations win in
  let nobs := List.length obs in
  if (min_periods <=? nobs)%nat && (ddof <? nobs)%nat
  then (ssqdm obs / of_nat (nobs - ddof))%num
  else NaN.

(** [rolling(...).std()] is the root of the variance with [ddof = 1]. *)
Definition roll_std (min_periods : nat) (win : list num) : root :=
  Sqrt (roll_var min_periods 1 win).

(** [series.rolling(window=w, min_periods=m).agg()]. *)
Definition rolling {B : Type} (w : nat) (agg : list num -> B) (xs : list num) : list B :=
  map (fun j => agg (window w xs j)) (seq 0 (List.length xs)).

(** *** Duplicates

    [df.drop_duplicates(subset=...)] with the default [keep='first']: a row
    goes when an earlier row has the same key. *)

Section DropDuplicates.

Variables A K : Type.
Variable key : A -> K.
Variable key_eqb : K -> K -> bool.

Fixpoint drop_from (seen : list K) (df : list A) : list A :=
  match df with
  | [] => []
  | r :: rest =>
      if existsb (key_eqb (key r)) seen
      then drop_from seen rest
      else r :: drop_from (key r :: seen) rest
  end.

Definition drop_duplicates (df : list A) : list A := drop_from [] df.

End DropDuplicates.

(** *** Binning

    [pd.cut(x, bins, labels)] with the defaults [right=True] and
    [include_lowest=False]: bin [i] is the interval [(bins[i], bins[i+1]]].
    The bin is found with [bins.searchsorted(x, side='left')]; a value at or
    below the first edge, above the last edge, or missing gets no label. *)

Fixpoint searchsorted_left (bins : list num) (x : num) : nat :=
  match bins with
  | [] => 0
  | b :: rest => if (b <? x)%num then S (searchsorted_left rest x) else 0
  end.

Definition cut {L : Type} (bins : list num) (labels : list L) (x : num) : option L :=
  let ids := searchsorted_left bins x in
  if isna x || (ids =? List.length bins)%nat || (ids =? 0)%nat
  then None
  else nth_error labels (ids - 1).

(** *** Text *)

Open Scope string_scope.

(** [str.isspace] on an ASCII character. *)
Definition isspace (c : ascii) : bool :=
  let n := nat_of_ascii c in
  ((9 <=? n) && (n <=? 13) || (28 <=? n) && (n <=? 32))%nat.

(** [str.lower] on an ASCII character. *)
Definition lower_char (c : ascii) : ascii :=
  let n := nat_of_ascii c in
  if ((65 <=? n) && (n <=? 90))%nat then ascii_of_nat (n + 32) else c.

Fixpoint lower (s : string) : string :=
  match s with
  | EmptyString => EmptyString
  | String c r => String (lower_char c) (lower r)
  end.

Fixpoint lstrip (s : string) : string :=
  match s with
  | EmptyString => EmptyString
  | String c r => if isspace c then lstrip r else s
  end.

Fixpoint rstrip (s : string) : string :=
  match s with
  | EmptyString => EmptyString
  | String c r =>
      match rstrip r with
      | EmptyString => if isspace c then EmptyString else String c EmptyString
      | r' => String c r'
      end
  end.

(** [str.strip()]. *)
Definition strip (s : string) : string := rstrip (lstrip s).

Fixpoint startswith (pat s : string) : bool :=
  match pat, s with
  | EmptyString, _ => true
  | String a pat', String b s' => Ascii.eqb a b && startswith pat' s'
  | String _ _, EmptyString => false
  end.

(** [str.contains(pat)] for a pattern of plain letters: the pattern, read
    as a regular expression, matches somewhere iff it occurs as a substring. *)
Fixpoint contains (pat s : string) : bool :=
  startswith pat s ||
  match s with
  | EmptyString => false
  | String _ r => contains pat r
  end.

End Pandas.

(* ------------------------------------------------------------------ *)
(** ** The datasets *)

(** Stock bars. *)
Module Stock.

(** A row as the extractor hands it over. *)
Record raw_row : Type := {
  r_date : Pandas.raw_date;
  r_symbol : string;
  r_open : Pandas.raw;
  r_high : Pandas.raw;
  r_low : Pandas.raw;
  r_close : Pandas.raw;
  r_volume : Pandas.raw;
  r_extraction_timestamp : Z
}.

(** A row after the type conversions. *)
Record bar : Type := {
  date : option Z;
  symbol : string;
  open : Num.num;
  high : Num.num;
  low : Num.num;
  close : Num.num;
  volume : Num.num;
  extraction_timestamp : Z
}.

(** A row of the transformed frame. *)
Record row : Type := {
  base : bar;
  daily_return : Num.num;
  price_range : Num.num;
  price_change : Num.num;
  price_change_pct : Num.num;
  ma_7 : Num.num;
  ma_30 : Num.num;
  volatility_30d : Num.root;
  transformed_at : option Z     (* no value before the metadata step *)
}.

Definition key (r : row) : string * option Z := (symbol (base r), date (base r)).

Definition key_eqb (a b : string * option Z) : bool :=
  String.eqb (fst a) (fst b) &&
  match snd a, snd b with
  | Some x, Some y => Z.eqb x y
  | None, None => true
  | _, _ => false
  end.

End Stock.

(** Crypto ticks. *)
Module Crypto.

Inductive category : Type := low | medium | high | very_high.

Record raw_row : Type := {
  r_timestamp : Pandas.raw_date;
  r_crypto_id : string;
  r_price_usd : Pandas.raw;
  r_market_cap : Pandas.raw;
  r_volume_24h : Pandas.raw;
  r_change_24h : Pandas.raw
}.

(** A row after the type conversions. *)
Record tick : Type := {
  timestamp : option Z;
  crypto_id : string;
  price_usd : Num.num;
  market_cap : Num.num;
  volume_24h : Pandas.raw;      (* not converted *)
  change_24h : Pandas.raw       (* not converted *)
}.

(** A row of the transformed frame. *)
Record row : Type := {
  data : tick;
  price_category : option category;
  transformed_at : Z
}.

End Crypto.

(** News articles. *)
Module News.

Record raw_row : Type := {
  r_symbol : string;
  r_title : option string;
  r_url : string;
  r_source : string;
  r_scraped_at : Z
}.

Record row : Type := {
  symbol : string;
  title : option string;
  url : string;
  source : string;
  scraped_at : Z;
  title_length : option nat;
  has : list (string * bool);   (* the columns has_<keyword>, by name *)
  transformed_at : option Z     (* no value before the metadata step *)
}.

(** The column [name] of a row; [None] when the frame has no such column. *)
Fixpoint lookup (name : string) (cols : list (string * bool)) : option bool :=
  match cols with
  | [] => None
  | (n, b) :: rest => if String.eqb name n then Some b else lookup name rest
  end.

Definition column (name : string) (r : row) : option bool := lookup name (has r).

Definition key (r : row) : option string * string := (title r, symbol r).

Definition key_eqb (a b : option string * string) : bool :=
  match fst a, fst b with
  | Some x, Some y => String.eqb x y
  | None, None => true
  | _, _ => false
  end && String.eqb (snd a) (snd b).

End News.

(** Portfolio holdings. *)
Module Portfolio.

Record raw_row : Type := {
  r_user_id : Z;
  r_symbol : string;
  r_quantity : Pandas.raw;
  r_purchase_price : Pandas.raw;
  r_purchase_date : Pandas.raw_date;
  r_asset_type : string;
  r_created_at : Z
}.

Record row : Type := {
  user_id : Z;
  symbol : string;
  quantity : Num.num;
  purchase_price : Num.num;
  purchase_date : option Z;
  asset_type : string;
  created_at : Z;
  cost_basis : Num.num;
  holding_days : option Z;
  transformed_at : Z
}.

End Portfolio.

(* ------------------------------------------------------------------ *)
(** ** class DataTransformer *)

Module DataTransformer.

Import Num Pandas.

Open Scope string_scope.

(** *** transform_stock_data *)

(** Step 1, one row: the date is parsed, the numeric columns are coerced. *)
Definition convert_stock (r : Stock.raw_row) : result Stock.bar :=
  bind (to_datetime (Stock.r_date r)) (fun d =>
  Ok {| Stock.date := d;
        Stock.symbol := Stock.r_symbol r;
        Stock.open := to_numeric (Stock.r_open r);
        Stock.high := to_numeric (Stock.r_high r);
        Stock.low := to_numeric (Stock.r_low r);
        Stock.close := to_numeric (Stock.r_close r);
        Stock.volume := to_numeric (Stock.r_volume r);
        Stock.extraction_timestamp := Stock.r_extraction_timestamp r |}).

Definition fill_volume (b : Stock.bar) : Stock.bar :=
  {| Stock.date := Stock.date b;
     Stock.symbol := Stock.symbol b;
     Stock.open := Stock.open b;
     Stock.high := Stock.high b;
     Stock.low := Stock.low b;
     Stock.close := Stock.close b;
     Stock.volume := fillna zero (Stock.volume b);
     Stock.extraction_timestamp := Stock.extraction_timestamp b |}.

(** Step 2: rows without a close go, a missing volume becomes 0. *)
Definition handle_missing (df : list Stock.bar) : list Stock.bar :=
  map fill_volume (dropna Stock.close df).

(** [df.groupby('symbol')['close'].pct_change()]. *)
Definition daily_returns (df : list Stock.bar) : list num :=
  groupby_transform (map Stock.symbol df) (map Stock.close df) pct_change NaN.

(** The columns [ma_7] and [ma_30] that [_add_moving_averages] adds. *)
Definition _add_moving_averages (df : list Stock.bar) : list num * list num :=
  let ma (w : nat) :=
    groupby_transform (map Stock.symbol df) (map Stock.close df)
                      (rolling w (roll_mean 1)) NaN in
  (ma 7%nat, ma 30%nat).

(** The column [volatility_30d] that [_add_volatility] adds. *)
Definition _add_volatility (df : list Stock.bar) (daily_return : list num) : list root :=
  groupby_transform (map Stock.symbol df) daily_return
                    (rolling 30 (roll_std 1)) (Sqrt NaN).

(** One row of the frame after steps 3 and 4. *)
Definition stock_row (b : Stock.bar) (dr m7 m30 : num) (vol : root) : Stock.row :=
  let price_change := (Stock.close b - Stock.open b)%num in
  {| Stock.base := b;
     Stock.daily_return := dr;
     Stock.price_range := (Stock.high b - Stock.low b)%num;
     Stock.price_change := price_change;
     Stock.price_change_pct := (price_change / Stock.open b * hundred)%num;
     Stock.ma_7 := m7;
     Stock.ma_30 := m30;
     Stock.volatility_30d := vol;
     Stock.transformed_at := None |}.

Fixpoint stock_rows (df : list Stock.bar) (dr m7 m30 : list num) (vol : list root)
  : list Stock.row :=
  match df, dr, m7, m30, vol with
  | b :: df', d :: dr', x :: m7', y :: m30', v :: vol' =>
      stock_row b d x y v :: stock_rows df' dr' m7' m30' vol'
  | _, _, _, _, _ => []
  end.

(** Steps 3 and 4: feature engineering and technical indicators. *)
Definition engineer (df : list Stock.bar) : list Stock.row :=
  let dr := daily_returns df in
  let '(m7, m30) := _add_moving_averages df in
  let vol := _add_volatility df dr in
  stock_rows df dr m7 m30 vol.

(** Step 5: data validation. *)
Definition validate (df : list Stock.row) : list Stock.row :=
  let df := filter (fun r => (Stock.close (Stock.base r) >? zero)%num) df in
  filter (fun r => (Stock.volume (Stock.base r) >=? zero)%num) df.

Definition stamp_stock (now : Z) (r : Stock.row) : Stock.row :=
  {| Stock.base := Stock.base r;
     Stock.daily_return := Stock.daily_return r;
     Stock.price_range := Stock.price_range r;
     Stock.price_change := Stock.price_change r;
     Stock.price_change_pct := Stock.price_change_pct r;
     Stock.ma_7 := Stock.ma_7 r;
     Stock.ma_30 := Stock.ma_30 r;
     Stock.volatility_30d := Stock.volatility_30d r;
     Stock.transformed_at := Some now |}.

(** Steps 1 and 2: the frame the indicators are computed on. *)
Definition normalize (df : list Stock.raw_row) : result (list Stock.bar) :=
  bind (mapM convert_stock df) (fun df => Ok (handle_missing df)).

(** Steps 1 to 5: the frame that reaches the removal of duplicates. *)
Definition validated (df : list Stock.raw_row) : result (list Stock.row) :=
  bind (normalize df) (fun df => Ok (validate (engineer df))).

(** The whole operation.  An empty frame is returned as it came; step 6
    removes the duplicates and step 7 stamps the rows. *)
Definition transform_stock_data (now : Z) (df : list Stock.raw_row)
  : result (list Stock.row) :=
  if empty df then Ok [] else
  bind (validated df) (fun df =>
  let df := drop_duplicates Stock.key Stock.key_eqb df in
  Ok (map (stamp_stock now) df)).

(** *** transform_crypto_data *)

Definition price_bins : list num := [zero; fin 100; fin 1000; fin 10000; PInf].

Definition price_labels : list Crypto.category :=
  [Crypto.low; Crypto.medium; Crypto.high; Crypto.very_high].

Definition price_category (price_usd : num) : option Crypto.category :=
  cut price_bins price_labels price_usd.

Definition convert_crypto (r : Crypto.raw_row) : result Crypto.tick :=
  bind (to_datetime (Crypto.r_timestamp r)) (fun t =>
  Ok {| Crypto.timestamp := t;
        Crypto.crypto_id := Crypto.r_crypto_id r;
        Crypto.price_usd := to_numeric (Crypto.r_price_usd r);
        Crypto.market_cap := to_numeric (Crypto.r_market_cap r);
        Crypto.volume_24h := Crypto.r_volume_24h r;
        Crypto.change_24h := Crypto.r_change_24h r |}).

Definition crypto_row (now : Z) (t : Crypto.tick) : Crypto.row :=
  {| Crypto.data := t;
     Crypto.price_category := price_category (Crypto.price_usd t);
     Crypto.transformed_at := now |}.

(** The whole operation: conversions, rows without a price dropped, the
    price category, the time stamp. *)
Definition transform_crypto_data (now : Z) (df : list Crypto.raw_row)
  : result (list Crypto.row) :=
  if empty df then Ok [] else
  bind (mapM convert_crypto df) (fun df =>
  let df := dropna Crypto.price_usd df in
  Ok (map (crypto_row now) df)).

(** *** transform_news_data *)

Definition keywords : list string :=
  ["earnings"; "merger"; "acquisition"; "revenue"; "profit";
   "loss"; "growth"; "decline"; "bullish"; "bearish"].

(** [title.str.lower().str.contains(keyword, na=False)] on one cell. *)
Definition has_keyword (keyword : string) (title : option string) : bool :=
  match title with
  | Some t => contains keyword (lower t)
  | None => false
  end.

Definition news_row (r : News.raw_row) : News.row :=
  let title := option_map strip (News.r_title r) in
  {| News.symbol := News.r_symbol r;
     News.title := title;
     News.url := News.r_url r;
     News.source := News.r_source r;
     News.scraped_at := News.r_scraped_at r;
     News.title_length := option_map String.length title;
     News.has := map (fun keyword => ("has_" ++ keyword, has_keyword keyword title)) keywords;
     News.transformed_at := None |}.

Definition stamp_news (now : Z) (r : News.row) : News.row :=
  {| News.symbol := News.symbol r;
     News.title := News.title r;
     News.url := News.url r;
     News.source := News.source r;
     News.scraped_at := News.scraped_at r;
     News.title_length := News.title_length r;
     News.has := News.has r;
     News.transformed_at := Some now |}.

(** The whole operation; nothing in it can raise on a typed frame. *)
Definition transform_news_data (now : Z) (df : list News.raw_row) : list News.row :=
  if empty df then [] else
  let df := map news_row df in
  let df := drop_duplicates News.key News.key_eqb df in
  map (stamp_news now) df.

(** *** transform_portfolio_data *)

Definition microseconds_per_day : Z := 86400000000.

(** [(now - purchase_date).dt.days]: the days field of a timedelta, which
    Python normalises with a floor division. *)
Definition days_between (now : Z) (purchase_date : option Z) : option Z :=
  option_map (fun t => ((now - t) / microseconds_per_day)%Z) purchase_date.

Definition portfolio_row (now_metrics now_metadata : Z) (r : Portfolio.raw_row)
  : result Portfolio.row :=
  bind (to_datetime (Portfolio.r_purchase_date r)) (fun d =>
  let quantity := to_numeric (Portfolio.r_quantity r) in
  let purchase_price := to_numeric (Portfolio.r_purchase_price r) in
  Ok {| Portfolio.user_id := Portfolio.r_user_id r;
        Portfolio.symbol := Portfolio.r_symbol r;
        Portfolio.quantity := quantity;
        Portfolio.purchase_price := purchase_price;
        Portfolio.purchase_date := d;
        Portfolio.asset_type := Portfolio.r_asset_type r;
        Portfolio.created_at := Portfolio.r_created_at r;
        Portfolio.cost_basis := (quantity * purchase_price)%num;
        Portfolio.holding_days := days_between now_metrics d;
        Portfolio.transformed_at := now_metadata |}).

(** The clock is read twice: for [holding_days] and for [transformed_at]. *)
Definition transform_portfolio_data (now_metrics now_metadata : Z)
                                    (df : list Portfolio.raw_row)
  : result (list Portfolio.row) :=
  if empty df then Ok [] else
  mapM (portfolio_row now_metrics now_metadata) df.

End DataTransformer.

(* ------------------------------------------------------------------ *)
(** ** The extractors *)

(** What a request gives: [requests.get], [raise_for_status] and the
    parsing of the body either raise, or hand over the parsed body. *)
Module Http.

Inductive response (A : Type) : Type :=
| Failed
| Body (data : A).

Arguments Failed {A}.
Arguments Body {A} data.

End Http.

(** [src/extract/stock_api.py], class [StockDataExtractor]. *)
Module StockDataExtractor.

Import Num Pandas Http.

Open Scope string_scope.
Open Scope list_scope.

(** One entry of ['Time Series (Daily)']: the date it is filed under and
    its five values, in the order of the API. *)
Record entry : Type := {
  e_date : raw_date;
  e_open : raw;
  e_high : raw;
  e_low : raw;
  e_close : raw;
  e_volume : raw
}.

(** The JSON body: the time series, when its key is there. *)
Definition body : Type := option (list entry).

(** [pd.to_numeric(col)], cell by cell, with the default [errors='raise']:
    a number or a missing value stays, a text that is no number raises. *)
Definition to_numeric_strict (c : raw) : result raw :=
  match c with
  | RNum q => Ok (RNum q)
  | RNone => Ok RNone
  | RBad => Raise ValueError
  end.

(** A parsed date as a cell of the frame that is handed on. *)
Definition date_cell (d : option Z) : raw_date :=
  match d with
  | Some t => DVal t
  | None => DNaT
  end.

(** One row of the frame.  A cell that raises aborts the whole call, so
    the order in which the columns are converted is not observable. *)
Definition record (now : Z) (symbol : string) (e : entry) : result Stock.raw_row :=
  bind (to_datetime (e_date e)) (fun d =>
  bind (to_numeric_strict (e_open e)) (fun o =>
  bind (to_numeric_strict (e_high e)) (fun h =>
  bind (to_numeric_strict (e_low e)) (fun l =>
  bind (to_numeric_strict (e_close e)) (fun c =>
  bind (to_numeric_strict (e_volume e)) (fun v =>
  Ok {| Stock.r_date := date_cell d;
        Stock.r_symbol := symbol;
        Stock.r_open := o;
        Stock.r_high := h;
        Stock.r_low := l;
        Stock.r_close := c;
        Stock.r_volume := v;
        Stock.r_extraction_timestamp := now |})))))).

(** [get_daily_prices]: the empty frame when the request fails, when the
    body has no time series, or when anything raises on the way. *)
Definition get_daily_prices (now : Z) (symbol : string) (resp : response body)
  : list Stock.raw_row :=
  match resp with
  | Failed => []
  | Body None => []
  | Body (Some time_series) =>
      match mapM (record now symbol) time_series with
      | Ok df => df
      | Raise _ => []
      end
  end.

(** One turn of the loop of [get_multiple_stocks]: the symbol asked for,
    what the clock shows and what the API answers. *)
Record call : Type := {
  c_symbol : string;
  c_now : Z;
  c_response : response body
}.

Definition get_multiple_stocks (calls : list call) : list Stock.raw_row :=
  let all_data :=
    filter (fun df => negb (empty df))
           (map (fun c => get_daily_prices (c_now c) (c_symbol c) (c_response c)) calls) in
  if empty all_data then [] else concat all_data.

End StockDataExtractor.

(** [src/extract/crypto_api.py], class [CryptoDataExtractor]. *)
Module CryptoDataExtractor.

Import Num Pandas Http.

Open Scope string_scope.
Open Scope list_scope.

(** The values the API gives for one coin; a key may be absent. *)
Record values : Type := {
  usd : option raw;
  usd_market_cap : option raw;
  usd_24h_vol : option raw;
  usd_24h_change : option raw
}.

(** [values.get(key, 0)]. *)
Definition get (v : option raw) : raw :=
  match v with
  | Some c => c
  | None => RNum 0
  end.

(** The loop over [data.items()]; [clock i] is what the clock shows in
    turn [i]. *)
Fixpoint records (clock : nat -> Z) (i : nat) (data : list (string * values))
  : list Crypto.raw_row :=
  match data with
  | [] => []
  | (crypto_id, v) :: rest =>
      {| Crypto.r_timestamp := DVal (clock i);
         Crypto.r_crypto_id := crypto_id;
         Crypto.r_price_usd := get (usd v);
         Crypto.r_market_cap := get (usd_market_cap v);
         Crypto.r_volume_24h := get (usd_24h_vol v);
         Crypto.r_change_24h := get (usd_24h_change v) |}
      :: records clock (S i) rest
  end.

Definition get_current_prices (clock : nat -> Z) (resp : response (list (string * values)))
  : list Crypto.raw_row :=
  match resp with
  | Failed => []
  | Body data => records clock 0 data
  end.

End CryptoDataExtractor.

(** [src/extract/news_scraper.py], class [NewsScraper]. *)
Module NewsScraper.

Import Pandas Http.

Open Scope string_scope.
Open Scope list_scope.

(** An element of a page: what [get_text()] gives, and its [href]
    attribute when it has one. *)
Record tag : Type := {
  text : string;
  href : option string
}.

(** [item.get('href', '')]. *)
Definition get_href (item : tag) : string :=
  match href item with
  | Some link => link
  | None => ""
  end.

(** Truth of a string: it is not empty. *)
Definition truthy (s : string) : bool := negb (String.eqb s "").

(** The three places of the Yahoo page where headlines are looked for. *)
Record yahoo_page : Type := {
  headings : list tag;               (* h3 of class Mb(5px) *)
  subtle_links : list tag;           (* a of class subtle-link *)
  news_stream : option (list tag)    (* the links of the news section *)
}.

Definition news_items (page : yahoo_page) : list tag :=
  if negb (empty (headings page)) then headings page
  else if negb (empty (subtle_links page)) then subtle_links page
  else match news_stream page with
       | Some links => links
       | None => []
       end.

(** The body of the loop of [scrape_yahoo_finance] and of
    [_scrape_alternative_source]: the article an item gives, if any. *)
Definition article (site source symbol : string) (now : Z) (item : tag)
  : option News.raw_row :=
  let title := strip (text item) in
  if (String.length title <? 20)%nat then None else
  let link := get_href item in
  let link := if truthy link && negb (startswith "http" link) then (site ++ link)%string else link in
  if truthy title && truthy link
  then Some {| News.r_symbol := symbol;
               News.r_title := Some title;
               News.r_url := link;
               News.r_source := source;
               News.r_scraped_at := now |}
  else None.

(** The body of the loop of [scrape_finviz_news]: a row of the news table
    with the first link in it, if any. *)
Definition finviz_article (symbol : string) (now : Z) (row : option tag)
  : option News.raw_row :=
  match row with
  | Some link_tag =>
      let title := strip (text link_tag) in
      let link := get_href link_tag in
      if truthy title && truthy link
      then Some {| News.r_symbol := symbol;
                   News.r_title := Some title;
                   News.r_url := link;
                   News.r_source := "Finviz";
                   News.r_scraped_at := now |}
      else None
  | None => None
  end.

(** A loop that appends what its body gives; [clock i] is what the clock
    shows in turn [i]. *)
Fixpoint collect {A : Type} (body : Z -> A -> option News.raw_row) (clock : nat -> Z)
                 (i : nat) (items : list A) : list News.raw_row :=
  match items with
  | [] => []
  | item :: rest =>
      match body (clock i) item with
      | Some a => a :: collect body clock (S i) rest
      | None => collect body clock (S i) rest
      end
  end.

Definition _scrape_alternative_source (clock : nat -> Z) (symbol : string)
                                      (marketwatch : response (list tag))
  : list News.raw_row :=
  match marketwatch with
  | Failed => []
  | Body news_items =>
      collect (article "https://www.marketwatch.com" "MarketWatch" symbol) clock 0
              (firstn 10 news_items)
  end.

Definition scrape_yahoo_finance (clock : nat -> Z) (symbol : string)
                                (yahoo : response yahoo_page)
                                (marketwatch : response (list tag))
  : list News.raw_row :=
  match yahoo with
  | Failed => _scrape_alternative_source clock symbol marketwatch
  | Body page =>
      let articles :=
        collect (article "https://finance.yahoo.com" "Yahoo Finance" symbol) clock 0
                (firstn 10 (news_items page)) in
      if (List.length articles =? 0)%nat
      then _scrape_alternative_source clock symbol marketwatch
      else articles
  end.

Definition scrape_finviz_news (clock : nat -> Z) (symbol : string)
                              (finviz : response (option (list (option tag))))
  : list News.raw_row :=
  match finviz with
  | Failed => []
  | Body None => []
  | Body (Some rows) => collect (finviz_article symbol) clock 0 (firstn 10 rows)
  end.

(** One turn of the loop of [scrape_multiple_symbols]: the symbol and what
    the three sites answer when they are asked. *)
Record turn : Type := {
  t_symbol : string;
  t_clock : nat -> Z;
  t_yahoo : response yahoo_page;
  t_marketwatch : response (list tag);
  t_finviz : response (option (list (option tag)))
}.

Definition scrape_symbol (t : turn) : list News.raw_row :=
  let df := scrape_yahoo_finance (t_clock t) (t_symbol t) (t_yahoo t) (t_marketwatch t) in
  if empty df then scrape_finviz_news (t_clock t) (t_symbol t) (t_finviz t) else df.

Definition scrape_multiple_symbols (turns : list turn) : list News.raw_row :=
  let all_news := filter (fun df => negb (empty df)) (map scrape_symbol turns) in
  if empty all_news then [] else concat all_news.

End NewsScraper.

(* ------------------------------------------------------------------ *)
(** ** The words of the specification *)

Module Reference.

Import Num Pandas.

Open Scope list_scope.

(** The last [n] values of a series, or all of them when there are fewer. *)
Definition lastn {A : Type} (n : nat) (l : list A) : list A :=
  skipn (List.length l - n) l.

(** The values of a series that are numbers. *)
Definition numbers (l : list num) : list num := filter isfinite l.

(** The mean of a series. *)
Definition mean (l : list num) : num := (sum l / of_nat (List.length l))%num.

(** The sample variance of a series: the squared distances from the mean,
    summed and divided by one less than their number. *)
Definition variance (l : list num) : num :=
  (sum (map (fun x => sq (x - mean l)) l) / of_nat (List.length l - 1))%num.

(** The standard deviation of a series. *)
Definition stdev (l : list num) : root := Sqrt (variance l).

(** Dates in order; a missing date is in order with nothing. *)
Definition date_lt (a b : option Z) : Prop :=
  match a, b with
  | Some x, Some y => (x < y)%Z
  | _, _ => False
  end.

Definition date_le (a b : option Z) : Prop :=
  match a, b with
  | Some x, Some y => (x <= y)%Z
  | _, _ => False
  end.

(** A stock frame is date-ordered within each symbol: of two rows of one
    symbol, the one that comes first in the frame has the earlier date, or
    the same date. *)
Definition date_ordered (df : list Stock.bar) : Prop :=
  forall i j a b,
    (i < j)%nat -> nth_error df i = Some a -> nth_error df j = Some b ->
    Stock.symbol a = Stock.symbol b ->
    date_le (Stock.date a) (Stock.date b).

Definition close_of (r : Stock.row) : num := Stock.close (Stock.base r).

(** A keyword occurs in a title, whatever the case of its letters. *)
Definition occurs_ignoring_case (keyword title : string) : Prop :=
  exists pre w suf, title = (pre ++ w ++ suf)%string /\ lower w = keyword.

(** The raw rows whose required field reads as a number. *)
Definition close_present (raw : Stock.raw_row) : bool :=
  match Stock.r_close raw with RNum _ => true | _ => false end.

Definition price_present (raw : Crypto.raw_row) : bool :=
  match Crypto.r_price_usd raw with RNum _ => true | _ => false end.

End Reference.

(* ------------------------------------------------------------------ *)
(** ** Sample frames *)

Module Samples.

Import Num Pandas DataTransformer.

Open Scope string_scope.
Open Scope list_scope.

Definition raw_tick (id : string) (price : Q) : Crypto.raw_row :=
  {| Crypto.r_timestamp := DVal 0;
     Crypto.r_crypto_id := id;
     Crypto.r_price_usd := RNum price;
     Crypto.r_market_cap := RNone;
     Crypto.r_volume_24h := RNone;
     Crypto.r_change_24h := RNone |}.

(** The three boundary prices of the specification. *)
Definition boundary_frame : list Crypto.raw_row :=
  [raw_tick "a" 100.0; raw_tick "b" 99.99; raw_tick "c" 10000.0].

Definition unreadable_bar : Stock.raw_row :=
  {| Stock.r_date := DBad;
     Stock.r_symbol := "AAPL";
     Stock.r_open := RNum 150;
     Stock.r_high := RNum 151;
     Stock.r_low := RNum 149;
     Stock.r_close := RNum 150;
     Stock.r_volume := RNum 1000;
     Stock.r_extraction_timestamp := 0 |}.

Definition holding (sym : string) (quantity price : Q) (purchased : Z) : Portfolio.raw_row :=
  {| Portfolio.r_user_id := 1;
     Portfolio.r_symbol := sym;
     Portfolio.r_quantity := RNum quantity;
     Portfolio.r_purchase_price := RNum price;
     Portfolio.r_purchase_date := DVal purchased;
     Portfolio.r_asset_type := "crypto";
     Portfolio.r_created_at := 0 |}.

(** Noon of some day, and the midnight that started it. *)
Definition noon : Z := 20000 * microseconds_per_day + 43200000000.
Definition midnight : Z := 20000 * microseconds_per_day.

Definition article (sym title : string) : News.raw_row :=
  {| News.r_symbol := sym;
     News.r_title := Some title;
     News.r_url := "https://finance.example/a";
     News.r_source := "Yahoo Finance";
     News.r_scraped_at := 0 |}.

Definition profitability : News.raw_row :=
  article "AAPL" "Company reports record profitability".

Definition bar (day : Z) (sym : string) (close : Q) : Stock.raw_row :=
  {| Stock.r_date := DVal day;
     Stock.r_symbol := sym;
     Stock.r_open := RNum close;
     Stock.r_high := RNum close;
     Stock.r_low := RNum close;
     Stock.r_close := RNum close;
     Stock.r_volume := RNum 1000;
     Stock.r_extraction_timestamp := 0 |}.

(** Two days of one symbol. *)
Definition two_days : list Stock.raw_row := [bar 1 "AAPL" 100; bar 2 "AAPL" 110].

(** Three days of one symbol. *)
Definition three_days : list Stock.raw_row :=
  [bar 1 "AAPL" 100; bar 2 "AAPL" 110; bar 3 "AAPL" 99].

(** A bar that opened at 0 and closed at 150. *)
Definition opened_at_zero : Stock.raw_row :=
  {| Stock.r_date := DVal 1;
     Stock.r_symbol := "AAPL";
     Stock.r_open := RNum 0;
     Stock.r_high := RNum 151;
     Stock.r_low := RNum 0;
     Stock.r_close := RNum 150;
     Stock.r_volume := RNum 1000;
     Stock.r_extraction_timestamp := 0 |}.

(** One day delivered twice, then the next day. *)
Definition duplicate_day : list Stock.raw_row :=
  [bar 1 "AAPL" 100; bar 1 "AAPL" 105; bar 2 "AAPL" 120].

(** A day with a negative close between two good days. *)
Definition negative_day : list Stock.raw_row :=
  [bar 1 "AAPL" 100; bar 2 "AAPL" (-5); bar 3 "AAPL" 120].

(** The end-to-end scenario of the specification: one day delivered twice,
    with closes 100.0 and 105.0. *)
Definition same_day_twice : list Stock.raw_row :=
  [bar 1 "AAPL" 100.0; bar 1 "AAPL" 105.0].

Definition headline (source : string) : News.raw_row :=
  {| News.r_symbol := "AAPL";
     News.r_title := Some "Apple posts record revenue";
     News.r_url := "https://finance.example/apple";
     News.r_source := source;
     News.r_scraped_at := 0 |}.

(** One headline scraped from two sources. *)
Definition same_headline_twice : list News.raw_row :=
  [headline "first feed"; headline "second feed"].

(** A stock frame with a missing close, a missing volume, an unreadable
    close and an unreadable open. *)
Definition patchy_bars : list Stock.raw_row :=
  [ {| Stock.r_date := DVal 1; Stock.r_symbol := "AAPL"; Stock.r_open := RNum 10;
       Stock.r_high := RNum 12; Stock.r_low := RNum 9; Stock.r_close := RNone;
       Stock.r_volume := RNum 5; Stock.r_extraction_timestamp := 0 |};
    {| Stock.r_date := DVal 2; Stock.r_symbol := "AAPL"; Stock.r_open := RNum 10;
       Stock.r_high := RNum 12; Stock.r_low := RNum 9; Stock.r_close := RNum 11;
       Stock.r_volume := RNone; Stock.r_extraction_timestamp := 0 |};
    {| Stock.r_date := DVal 3; Stock.r_symbol := "AAPL"; Stock.r_open := RNum 10;
       Stock.r_high := RNum 12; Stock.r_low := RNum 9; Stock.r_close := RBad;
       Stock.r_volume := RNum 5; Stock.r_extraction_timestamp := 0 |};
    {| Stock.r_date := DVal 4; Stock.r_symbol := "AAPL"; Stock.r_open := RBad;
       Stock.r_high := RNum 12; Stock.r_low := RNum 9; Stock.r_close := RNum 12;
       Stock.r_volume := RBad; Stock.r_extraction_timestamp := 0 |} ].

Definition patchy_ticks : list Crypto.raw_row :=
  [ {| Crypto.r_timestamp := DVal 1; Crypto.r_crypto_id := "bitcoin";
       Crypto.r_price_usd := RNone; Crypto.r_market_cap := RNum 5;
       Crypto.r_volume_24h := RNone; Crypto.r_change_24h := RNone |};
    {| Crypto.r_timestamp := DVal 1; Crypto.r_crypto_id := "ethereum";
       Crypto.r_price_usd := RNum 2500; Crypto.r_market_cap := RBad;
       Crypto.r_volume_24h := RBad; Crypto.r_change_24h := RNone |} ].

(** A holding whose quantity cannot be read. *)
Definition patchy_holdings : list Portfolio.raw_row :=
  [ {| Portfolio.r_user_id := 1; Portfolio.r_symbol := "MSFT";
       Portfolio.r_quantity := RBad; Portfolio.r_purchase_price := RNum 380.00;
       Portfolio.r_purchase_date := DVal midnight; Portfolio.r_asset_type := "stock";
       Portfolio.r_created_at := 0 |} ].

End Samples.

(* ------------------------------------------------------------------ *)
(** ** More words for the properties of the transformer *)

Module Terms.

Import Num Pandas DataTransformer.

Open Scope string_scope.
Open Scope list_scope.

(** The key of a bar in the removal of duplicates. *)
Definition bar_key (b : Stock.bar) : string * option Z :=
  (Stock.symbol b, Stock.date b).

(** A bar that passes the validation. *)
Definition valid_bar (b : Stock.bar) : bool :=
  (Stock.close b >? zero)%num && (Stock.volume b >=? zero)%num.

(** The key a raw news row gets: the trimmed title and the symbol. *)
Definition headline_key (raw : News.raw_row) : option string * string :=
  (option_map strip (News.r_title raw), News.r_symbol raw).

(** The price categories in ascending order. *)
Definition category_rank (c : Crypto.category) : nat :=
  match c with
  | Crypto.low => 0
  | Crypto.medium => 1
  | Crypto.high => 2
  | Crypto.very_high => 3
  end.

Fixpoint all_space (s : string) : bool :=
  match s with
  | EmptyString => true
  | String c r => isspace c && all_space r
  end.

Definition starts_with_space (s : string) : bool :=
  match s with
  | EmptyString => false
  | String c _ => isspace c
  end.

Fixpoint ends_with_space (s : string) : bool :=
  match s with
  | EmptyString => false
  | String c EmptyString => isspace c
  | String _ r => ends_with_space r
  end.

(** The rational a finite value stands for; 0 for the special values. *)
Definition value (x : num) : Q :=
  match x with
  | Fin q => q
  | _ => 0
  end.

(** The rows of one symbol. *)
Definition raw_of_symbol (s : string) (raw : Stock.raw_row) : bool :=
  String.eqb s (Stock.r_symbol raw).

Definition of_symbol (s : string) (b : Stock.bar) : bool :=
  String.eqb s (Stock.symbol b).

Definition row_of_symbol (s : string) (r : Stock.row) : bool :=
  of_symbol s (Stock.base r).

(** A row of the frame after steps 3 and 4 is known by its bar and its four
    group-wise columns. *)
Definition built (r : Stock.row) : Prop :=
  r = stock_row (Stock.base r) (Stock.daily_return r) (Stock.ma_7 r) (Stock.ma_30 r)
                (Stock.volatility_30d r).

(** A transform of a series whose values do not depend on what comes later
    in the series. *)
Definition causal {V B : Type} (f : list V -> list B) : Prop :=
  forall g h, firstn (List.length g) (f (g ++ h)) = f g.

(** Steps 3 to 7 of [transform_stock_data]: what it makes of the frame of
    converted rows, whatever floats the frame holds, the infinities
    included. *)
Definition after_conversion (now : Z) (norm : list Stock.bar) : list Stock.row :=
  map (stamp_stock now)
      (drop_duplicates Stock.key Stock.key_eqb (validate (engineer norm))).

(** Two infinities of one sign: their difference is [NaN]. *)
Definition same_infinity (x y : num) : bool :=
  match x, y with
  | PInf, PInf | NInf, NInf => true
  | _, _ => false
  end.

(** An infinity and a zero: their product is [NaN]. *)
Definition infinity_times_zero (x y : num) : bool :=
  isinf x && is_zero y || is_zero x && isinf y.

(** A cell as an extractor hands it on: a number or a missing value. *)
Definition typed (c : raw) : bool :=
  match c with
  | RBad => false
  | _ => true
  end.

(** An entry of a time series of which the date and the five values can be
    read. *)
Definition readable (e : StockDataExtractor.entry) : bool :=
  match StockDataExtractor.e_date e with DBad => false | _ => true end
  && typed (StockDataExtractor.e_open e) && typed (StockDataExtractor.e_high e)
  && typed (StockDataExtractor.e_low e) && typed (StockDataExtractor.e_close e)
  && typed (StockDataExtractor.e_volume e).

End Terms.

(* ------------------------------------------------------------------ *)
(** ** Sample answers of the sites *)

Module Answers.

Import Num Pandas Http Samples.

Open Scope string_scope.
Open Scope list_scope.

(** Two symbols in one frame. *)
Definition two_symbols : list Stock.raw_row :=
  [bar 1 "AAPL" 100; bar 1 "MSFT" 300; bar 2 "AAPL" 110].

(** A converted row with closing price [close]. *)
Definition converted (day : Z) (close : num) : Stock.bar :=
  {| Stock.date := Some day;
     Stock.symbol := "AAPL";
     Stock.open := close;
     Stock.high := close;
     Stock.low := fin 9;
     Stock.close := close;
     Stock.volume := fin 1000;
     Stock.extraction_timestamp := 0 |}.

(** A day that closed at infinity, then a day that closed at 10. *)
Definition infinite_then_ten : list Stock.bar :=
  [converted 1 PInf; converted 2 (fin 10)].

(** A row of the Finviz news table. *)
Definition finviz_row : NewsScraper.tag :=
  {| NewsScraper.text := " Apple up ";
     NewsScraper.href := Some "/news/1" |}.

(** A symbol for which Yahoo and MarketWatch do not answer. *)
Definition finviz_only : NewsScraper.turn :=
  {| NewsScraper.t_symbol := "AAPL";
     NewsScraper.t_clock := fun _ => 0%Z;
     NewsScraper.t_yahoo := Failed;
     NewsScraper.t_marketwatch := Failed;
     NewsScraper.t_finviz := Body (Some [Some finviz_row]) |}.

(** A link of the Yahoo page. *)
Definition yahoo_link : NewsScraper.tag :=
  {| NewsScraper.text := "  Apple posts record revenue ";
     NewsScraper.href := Some "/news/apple-posts-record-revenue" |}.

(** A symbol for which Yahoo answers with one link. *)
Definition yahoo_answers : NewsScraper.turn :=
  {| NewsScraper.t_symbol := "AAPL";
     NewsScraper.t_clock := fun _ => 0%Z;
     NewsScraper.t_yahoo :=
       Body {| NewsScraper.headings := [];
               NewsScraper.subtle_links := [yahoo_link];
               NewsScraper.news_stream := None |};
     NewsScraper.t_marketwatch := Failed;
     NewsScraper.t_finviz := Failed |}.

End Answers.

(* ------------------------------------------------------------------ *)
(** ** Facts about the number model *)

Module NumFacts.

Import Num.

Lemma fin_eq (a b : Q) : a == b -> fin a = fin b.
Proof. intros H. unfold fin. f_equal. now apply Qred_complete. Qed.

Lemma ltb_Fin (a b : Q) : (Fin a <? Fin b)%num = true <-> a < b.
Proof. unfold ltb. rewrite Qlt_alt. destruct (a ?= b); intuition congruence. Qed.

Lemma leb_Fin (a b : Q) : (Fin a <=? Fin b)%num = true <-> a <= b.
Proof. unfold leb. rewrite Qle_alt. destruct (a ?= b); intuition congruence. Qed.

Lemma eqv_refl (x : num) : (x =~ x)%num.
Proof. destruct x; simpl; auto. reflexivity. Qed.

Lemma eqv_sym (x y : num) : (x =~ y)%num -> (y =~ x)%num.
Proof. destruct x, y; simpl; auto. intros H; now symmetry. Qed.

Lemma eqv_trans (x y z : num) : (x =~ y)%num -> (y =~ z)%num -> (x =~ z)%num.
Proof.
  destruct x, y, z; simpl; auto; try contradiction.
  intros H1 H2. now rewrite H1.
Qed.

Lemma eqv_fin (a b : Q) : (fin a =~ Fin b)%num <-> a == b.
Proof. unfold fin; simpl. now rewrite Qred_correct. Qed.

Lemma isna_false_cases (x : num) :
  isna x = false -> x = PInf \/ x = NInf \/ exists q, x = Fin q.
Proof. destruct x; simpl; intros; eauto; discriminate. Qed.

End NumFacts.

(** Splits every comparison of rationals in the goal, closing the cases the
    context rules out. *)
Ltac qcases :=
  repeat (match goal with
          | |- context [Qcompare ?a ?b] => destruct (Qcompare_spec a b)
          end; try (exfalso; lra)).

(* ------------------------------------------------------------------ *)
(** ** Facts about the pandas operations *)

Module ResultFacts.

Import Num Pandas.

Section MapM.

Variables A B : Type.
Variable f : A -> result B.

Lemma mapM_Forall2 (l : list A) (l' : list B) :
  mapM f l = Ok l' -> Forall2 (fun x y => f x = Ok y) l l'.
Proof.
  revert l'. induction l as [|x t IH]; simpl; intros l' H.
  - injection H as <-. constructor.
  - destruct (f x) as [y|e] eqn:Hx; simpl in H; [|discriminate].
    destruct (mapM f t) as [ys|e] eqn:Ht; simpl in H; [|discriminate].
    injection H as <-. constructor; auto.
Qed.

Lemma mapM_total (l : list A) :
  (forall x, In x l -> exists y, f x = Ok y) -> exists l', mapM f l = Ok l'.
Proof.
  induction l as [|x t IH]; simpl; intros H.
  - eauto.
  - destruct (H x) as [y Hy]; auto. rewrite Hy. simpl.
    destruct IH as [ys Hys]; auto. rewrite Hys. simpl. eauto.
Qed.

Lemma mapM_raise (l : list A) (x : A) (e : error) :
  In x l -> f x = Raise e -> mapM f l = Raise ValueError.
Proof.
  induction l as [|y t IH]; simpl; intros Hin Hx.
  - contradiction.
  - destruct (f y) as [b|[]] eqn:Hy; simpl; auto.
    destruct Hin as [->|Hin]; [congruence|].
    rewrite IH; auto.
Qed.

Lemma mapM_length (l : list A) (l' : list B) :
  mapM f l = Ok l' -> List.length l' = List.length l.
Proof.
  intros H. apply mapM_Forall2 in H. symmetry. eapply Forall2_length; eauto.
Qed.

End MapM.

Lemma Forall2_In_r {A B : Type} (R : A -> B -> Prop) (l : list A) (l' : list B) (y : B) :
  Forall2 R l l' -> In y l' -> exists x, In x l /\ R x y.
Proof.
  induction 1 as [|a b l l' HR HF IH]; simpl; intros Hin.
  - contradiction.
  - destruct Hin as [<-|Hin]; eauto.
    destruct (IH Hin) as [x [Hx HRx]]. eauto.
Qed.

Lemma Forall2_In_l {A B : Type} (R : A -> B -> Prop) (l : list A) (l' : list B) (x : A) :
  Forall2 R l l' -> In x l -> exists y, In y l' /\ R x y.
Proof.
  induction 1 as [|a b l l' HR HF IH]; simpl; intros Hin.
  - contradiction.
  - destruct Hin as [<-|Hin]; eauto.
    destruct (IH Hin) as [y [Hy HRy]]. eauto.
Qed.

End ResultFacts.

(* ------------------------------------------------------------------ *)
(** ** Crypto: the price buckets *)

Module CryptoSpec.

Import Num Pandas DataTransformer ResultFacts Reference Samples.

(** The bucket of a price: bins are open on the left and closed on the
    right, and a price that is not above 0 has no bucket. *)
Lemma price_category_cases (p : num) :
  (price_category p = Some Crypto.low <-> (zero < p /\ p <= fin 100)%num) /\
  (price_category p = Some Crypto.medium <-> (fin 100 < p /\ p <= fin 1000)%num) /\
  (price_category p = Some Crypto.high <-> (fin 1000 < p /\ p <= fin 10000)%num) /\
  (price_category p = Some Crypto.very_high <-> (fin 10000 < p)%num) /\
  (price_category p = None <-> (zero <? p)%num = false).
Proof.
  unfold price_category, cut, price_bins, price_labels, lt, le.
  destruct p as [ | | |q]; try (vm_compute; intuition congruence).
  change zero with (Fin 0). change (fin 100) with (Fin 100).
  change (fin 1000) with (Fin 1000). change (fin 10000) with (Fin 10000).
  cbn [searchsorted_left isna orb ltb leb].
  qcases; cbn; repeat split; intros; try congruence; try lra.
Qed.

Lemma crypto_rows (now : Z) (df : list Crypto.raw_row) (out : list Crypto.row) (r : Crypto.row) :
  transform_crypto_data now df = Ok out -> In r out ->
  exists raw, In raw df /\ convert_crypto raw = Ok (Crypto.data r) /\
              isna (Crypto.price_usd (Crypto.data r)) = false /\
              r = crypto_row now (Crypto.data r).
Proof.
  unfold transform_crypto_data. destruct df as [|x df]; simpl empty; cbv iota.
  - intros H; injection H as <-. contradiction.
  - destruct (mapM convert_crypto (x :: df)) as [ticks|e] eqn:Hm; simpl bind; [|discriminate].
    intros H Hin; injection H as <-.
    apply in_map_iff in Hin. destruct Hin as [t [<- Ht]].
    unfold dropna in Ht. apply filter_In in Ht. destruct Ht as [Ht Hna].
    apply mapM_Forall2 in Hm.
    destruct (Forall2_In_r _ Hm Ht) as [raw [Hraw Hc]].
    exists raw. simpl. repeat split; auto.
    now apply negb_true_iff.
Qed.

Lemma crypto_total (now : Z) (df : list Crypto.raw_row) :
  (forall raw, In raw df -> Crypto.r_timestamp raw <> DBad) ->
  exists out, transform_crypto_data now df = Ok out.
Proof.
  intros Hd. unfold transform_crypto_data.
  destruct (empty df); [eauto|].
  destruct (mapM_total convert_crypto df) as [ticks Ht].
  - intros raw Hraw. unfold convert_crypto.
    specialize (Hd raw Hraw).
    destruct (Crypto.r_timestamp raw); simpl; eauto. congruence.
  - rewrite Ht. simpl. eauto.
Qed.

(** C3 (as amended): the crypto transform returns a frame whenever the
    timestamps are readable, and in every row of it [price_category] buckets
    [price_usd] with left-exclusive, right-inclusive boundaries: low on
    (0,100], medium on (100,1000], high on (1000,10000], very_high above
    10000, and no category for a price that is not above 0.  The prices
    100.0 and 99.99 both give low, and 10000.0 gives high. *)
Theorem price_category_right_closed (now : Z) (df : list Crypto.raw_row) :
  (forall raw, In raw df -> Crypto.r_timestamp raw <> DBad) ->
  (exists out, transform_crypto_data now df = Ok out /\
     forall r, In r out ->
       let p := Crypto.price_usd (Crypto.data r) in
       (Crypto.price_category r = Some Crypto.low <-> (zero < p /\ p <= fin 100)%num) /\
       (Crypto.price_category r = Some Crypto.medium <-> (fin 100 < p /\ p <= fin 1000)%num) /\
       (Crypto.price_category r = Some Crypto.high <-> (fin 1000 < p /\ p <= fin 10000)%num) /\
       (Crypto.price_category r = Some Crypto.very_high <-> (fin 10000 < p)%num) /\
       (Crypto.price_category r = None <-> (p <= zero)%num)) /\
  option_map (map Crypto.price_category) (to_option (transform_crypto_data now boundary_frame))
    = Some [Some Crypto.low; Some Crypto.low; Some Crypto.high].
Proof.
  intros Hd. split; [|reflexivity].
  destruct (crypto_total now df Hd) as [out Hout].
  exists out. split; [exact Hout|].
  intros r Hin p.
  destruct (@crypto_rows now df out r Hout Hin) as [raw [_ [_ [Hna Hr]]]].
  assert (Hc : Crypto.price_category r = price_category p) by (rewrite Hr; reflexivity).
  rewrite Hc.
  destruct (price_category_cases p) as [H1 [H2 [H3 [H4 H5]]]].
  repeat split; try (apply H1 || apply H2 || apply H3 || apply H4); auto.
  - intros HN. apply H5 in HN. fold p in Hna. unfold le.
    destruct p as [ | | |q]; try discriminate; auto.
    change zero with (Fin 0) in *. apply NumFacts.leb_Fin.
    apply not_true_iff_false in HN. rewrite NumFacts.ltb_Fin in HN. lra.
  - intros HN. apply H5. fold p in Hna. unfold le in HN.
    destruct p as [ | | |q]; try discriminate; auto.
    change zero with (Fin 0) in *. apply NumFacts.leb_Fin in HN.
    apply not_true_iff_false. rewrite NumFacts.ltb_Fin. lra.
Qed.

(** The theorem at the three boundary prices. *)
Lemma price_category_right_closed_witness :
  option_map (map Crypto.price_category) (to_option (transform_crypto_data 0 boundary_frame))
    = Some [Some Crypto.low; Some Crypto.low; Some Crypto.high].
Proof.
  refine (proj2 (price_category_right_closed 0 boundary_frame _)).
  intros raw [<-|[<-|[<-|[]]]]; discriminate.
Defined.

(** C3 as the specification states it fails: 100.0 is put in low, not in
    medium, and 10000.0 in high, not in very_high. *)
Lemma price_category_not_left_closed :
  option_map (map Crypto.price_category) (to_option (transform_crypto_data 0 boundary_frame))
    <> Some [Some Crypto.medium; Some Crypto.low; Some Crypto.very_high] /\
  price_category (fin 100.0) = Some Crypto.low /\
  price_category (fin 10000.0) = Some Crypto.high /\
  price_category (fin 0) = None.
Proof. repeat split; try reflexivity. vm_compute. discriminate. Qed.

End CryptoSpec.

(* ------------------------------------------------------------------ *)
(** ** Empty and unreadable input *)

Module StructuralSpec.

Import Num Pandas DataTransformer ResultFacts Reference Samples.

Lemma nonempty_not_empty {A : Type} (df : list A) (r : A) : In r df -> empty df = false.
Proof. destruct df; simpl; [contradiction|reflexivity]. Qed.

(** C6 (as amended): an empty dataset is no failure: each of the four
    transforms returns it as it came.  What is surfaced to the caller is a
    date that cannot be read, in a non-empty stock, crypto or portfolio
    frame: the operation raises instead of returning a frame. *)
Theorem empty_returned_unreadable_raises (now now' : Z) :
  (transform_stock_data now [] = Ok [] /\
   transform_crypto_data now [] = Ok [] /\
   transform_news_data now [] = [] /\
   transform_portfolio_data now now' [] = Ok []) /\
  (forall df r, In r df -> Stock.r_date r = DBad ->
     transform_stock_data now df = Raise ValueError) /\
  (forall df r, In r df -> Crypto.r_timestamp r = DBad ->
     transform_crypto_data now df = Raise ValueError) /\
  (forall df r, In r df -> Portfolio.r_purchase_date r = DBad ->
     transform_portfolio_data now now' df = Raise ValueError).
Proof.
  split; [repeat split|]. repeat split.
  - intros df r Hin Hd. unfold transform_stock_data, validated, normalize.
    rewrite (nonempty_not_empty _ _ Hin).
    rewrite (@mapM_raise _ _ convert_stock df r ValueError Hin); [reflexivity|].
    unfold convert_stock. rewrite Hd. reflexivity.
  - intros df r Hin Hd. unfold transform_crypto_data.
    rewrite (nonempty_not_empty _ _ Hin).
    rewrite (@mapM_raise _ _ convert_crypto df r ValueError Hin); [reflexivity|].
    unfold convert_crypto. rewrite Hd. reflexivity.
  - intros df r Hin Hd. unfold transform_portfolio_data.
    rewrite (nonempty_not_empty _ _ Hin).
    apply (@mapM_raise _ _ (portfolio_row now now') df r ValueError Hin).
    unfold portfolio_row. rewrite Hd. reflexivity.
Qed.

(** The theorem on a one-row stock frame whose date is no date. *)
Lemma empty_returned_unreadable_raises_witness :
  transform_stock_data 0 [unreadable_bar] = Raise ValueError.
Proof.
  apply (proj1 (proj2 (empty_returned_unreadable_raises 0 0)) [unreadable_bar] unreadable_bar).
  - left. reflexivity.
  - reflexivity.
Defined.

(** C6 as the specification states it fails on the empty dataset: no
    transform raises, each returns the empty frame. *)
Lemma empty_frame_is_no_failure :
  transform_stock_data 0 [] <> Raise ValueError /\
  transform_crypto_data 0 [] <> Raise ValueError /\
  transform_portfolio_data 0 0 [] <> Raise ValueError /\
  transform_stock_data 0 [] = Ok [] /\
  transform_crypto_data 0 [] = Ok [] /\
  transform_news_data 0 [] = [] /\
  transform_portfolio_data 0 0 [] = Ok [].
Proof. repeat split; discriminate. Qed.

End StructuralSpec.

(* ------------------------------------------------------------------ *)
(** ** Portfolio: cost basis and holding days *)

Module PortfolioSpec.

Import Num Pandas DataTransformer ResultFacts Reference Samples.

Open Scope Z_scope.

Lemma portfolio_total (now now' : Z) (df : list Portfolio.raw_row) :
  (forall raw, In raw df -> Portfolio.r_purchase_date raw <> DBad) ->
  exists out, transform_portfolio_data now now' df = Ok out /\
              Forall2 (fun raw r => portfolio_row now now' raw = Ok r) df out.
Proof.
  intros Hd. unfold transform_portfolio_data.
  destruct df as [|x df]; simpl empty; cbv iota.
  - exists []. split; [reflexivity|constructor].
  - destruct (mapM_total (portfolio_row now now') (x :: df)) as [out Hout].
    + intros raw Hraw. unfold portfolio_row.
      specialize (Hd raw Hraw).
      destruct (Portfolio.r_purchase_date raw); simpl; eauto. congruence.
    + exists out. split; [exact Hout|]. now apply mapM_Forall2.
Qed.

Lemma days_floor (now t : Z) :
  let d := (now - t) / microseconds_per_day in
  d * microseconds_per_day <= now - t < (d + 1) * microseconds_per_day /\
  (t <= now -> d = Z.quot (now - t) microseconds_per_day) /\
  (now < t -> (now - t) mod microseconds_per_day <> 0 ->
   d = Z.quot (now - t) microseconds_per_day - 1) /\
  (0 <= now - t < microseconds_per_day -> d = 0).
Proof.
  assert (Hpos : 0 < microseconds_per_day) by reflexivity.
  intros d. subst d. repeat split.
  - rewrite Z.mul_comm. apply Z.mul_div_le. exact Hpos.
  - rewrite Z.mul_comm. apply Z.mul_succ_div_gt. exact Hpos.
  - intros Hle. symmetry. apply Z.quot_div_nonneg; lia.
  - intros Hlt Hm.
    replace (now - t) with (- (t - now)) in * by lia.
    rewrite Z.quot_opp_l by lia.
    rewrite Z.quot_div_nonneg by lia.
    apply Z.div_opp_l_nz; [lia|].
    intros E. apply Hm. apply Z.mod_opp_l_z; [lia|exact E].
  - intros Hday. apply Z.div_small. exact Hday.
Qed.

(** C8 (as amended): the portfolio transform returns a frame whenever the
    purchase dates are readable, one row per input row, and in each row
    [cost_basis] is [quantity * purchase_price] and [holding_days] is the
    floor, not the truncation, of the time from [purchase_date] to the
    instant the clock was read, in days.  For a purchase that is not in the
    future the floor is the elapsed time truncated, and 0 for a purchase
    made less than a day ago; for a purchase in the future that is not a
    whole number of days ahead it is one less than the truncation.  A
    missing purchase date gives a missing [holding_days]. *)
Theorem cost_basis_and_holding_days
  (now now' : Z) (df : list Portfolio.raw_row) :
  (forall raw, In raw df -> Portfolio.r_purchase_date raw <> DBad) ->
  exists out, transform_portfolio_data now now' df = Ok out /\
    Forall2 (fun raw r =>
      Portfolio.quantity r = to_numeric (Portfolio.r_quantity raw) /\
      Portfolio.purchase_price r = to_numeric (Portfolio.r_purchase_price raw) /\
      Portfolio.cost_basis r = (Portfolio.quantity r * Portfolio.purchase_price r)%num /\
      (forall q p : Q,
         Portfolio.r_quantity raw = RNum q -> Portfolio.r_purchase_price raw = RNum p ->
         Portfolio.cost_basis r = fin (q * p)) /\
      (forall t : Z, Portfolio.r_purchase_date raw = DVal t ->
         exists d : Z,
           Portfolio.holding_days r = Some d /\
           d * microseconds_per_day <= now - t < (d + 1) * microseconds_per_day /\
           (t <= now -> d = Z.quot (now - t) microseconds_per_day) /\
           (now < t -> (now - t) mod microseconds_per_day <> 0 ->
            d = Z.quot (now - t) microseconds_per_day - 1) /\
           (0 <= now - t < microseconds_per_day -> d = 0)) /\
      (Portfolio.r_purchase_date raw = DNaT -> Portfolio.holding_days r = None))
    df out.
Proof.
  intros Hd. destruct (portfolio_total now now' df Hd) as [out [Hout Hrows]].
  exists out. split; [exact Hout|].
  eapply Forall2_impl; [|exact Hrows].
  intros raw r Hr. unfold portfolio_row in Hr.
  destruct (Portfolio.r_purchase_date raw) as [t| |] eqn:Hdate; simpl in Hr;
    [| |discriminate]; injection Hr as <-; simpl.
  - repeat split.
    + intros q p -> ->. simpl. unfold fin. f_equal.
      apply Qred_complete. now rewrite !Qred_correct.
    + intros t' Ht'. injection Ht' as <-.
      exists ((now - t) / microseconds_per_day). split; [reflexivity|].
      apply days_floor.
    + discriminate.
  - repeat split.
    + intros q p -> ->. simpl. unfold fin. f_equal.
      apply Qred_complete. now rewrite !Qred_correct.
    + discriminate.
Qed.

(** The theorem on the holding of the specification: 2 units at 2500.00,
    bought at the midnight before the clock is read at noon. *)
Lemma cost_basis_and_holding_days_witness :
  exists out, transform_portfolio_data noon noon [holding "ethereum" 2 2500.00 midnight] = Ok out /\
    Forall2 (fun raw r =>
      Portfolio.quantity r = to_numeric (Portfolio.r_quantity raw) /\
      Portfolio.purchase_price r = to_numeric (Portfolio.r_purchase_price raw) /\
      Portfolio.cost_basis r = (Portfolio.quantity r * Portfolio.purchase_price r)%num /\
      (forall q p : Q,
         Portfolio.r_quantity raw = RNum q -> Portfolio.r_purchase_price raw = RNum p ->
         Portfolio.cost_basis r = fin (q * p)) /\
      (forall t : Z, Portfolio.r_purchase_date raw = DVal t ->
         exists d : Z,
           Portfolio.holding_days r = Some d /\
           d * microseconds_per_day <= noon - t < (d + 1) * microseconds_per_day /\
           (t <= noon -> d = Z.quot (noon - t) microseconds_per_day) /\
           (noon < t -> (noon - t) mod microseconds_per_day <> 0 ->
            d = Z.quot (noon - t) microseconds_per_day - 1) /\
           (0 <= noon - t < microseconds_per_day -> d = 0)) /\
      (Portfolio.r_purchase_date raw = DNaT -> Portfolio.holding_days r = None))
    [holding "ethereum" 2 2500.00 midnight] out.
Proof.
  apply (cost_basis_and_holding_days noon noon [holding "ethereum" 2 2500.00 midnight]).
  intros raw [<-|[]]. discriminate.
Defined.

(** The two values of the specification's example, computed. *)
Example ethereum_holding :
  option_map (map (fun r => (Portfolio.cost_basis r, Portfolio.holding_days r)))
             (to_option (transform_portfolio_data noon noon
                           [holding "ethereum" 2 2500.00 midnight]))
  = Some [(fin 5000.00, Some 0)].
Proof. reflexivity. Qed.

(** C8 as the specification states it fails for a purchase in the future:
    for a purchase date half a day ahead of the clock [holding_days] is -1,
    where the elapsed time truncated is 0. *)
Lemma future_purchase_is_not_truncated :
  option_map (map Portfolio.holding_days)
             (to_option (transform_portfolio_data midnight midnight
                           [holding "ethereum" 2 2500.00 noon]))
  = Some [Some (-1)] /\
  Z.quot (midnight - noon) microseconds_per_day = 0.
Proof. split; reflexivity. Qed.

(** A purchase date half a day ahead of the clock: the floor is -1. *)
Example future_purchase :
  option_map (map Portfolio.holding_days)
             (to_option (transform_portfolio_data midnight midnight
                           [holding "ethereum" 2 2500.00 noon]))
  = Some [Some (-1)].
Proof. reflexivity. Qed.

End PortfolioSpec.

(* ------------------------------------------------------------------ *)
(** ** Facts about drop_duplicates *)

Module DuplicateFacts.

Import Pandas.

Open Scope list_scope.

Section KeepFirst.

Variables A K : Type.
Variable key : A -> K.
Variable key_eqb : K -> K -> bool.
Hypothesis key_eqb_eq : forall a b, key_eqb a b = true <-> a = b.

Lemma seen_spec (k : K) (seen : list K) :
  existsb (key_eqb k) seen = true <-> In k seen.
Proof.
  rewrite existsb_exists. split.
  - intros [x [Hx Hk]]. apply key_eqb_eq in Hk. now subst.
  - intros Hin. exists k. split; [exact Hin|]. now apply key_eqb_eq.
Qed.

Lemma seen_false (k : K) (seen : list K) :
  existsb (key_eqb k) seen = false <-> ~ In k seen.
Proof. rewrite <- seen_spec. now destruct (existsb (key_eqb k) seen). Qed.

(** A row that is kept is the first row of the frame with its key. *)
Lemma drop_from_first (seen : list K) (df : list A) (r : A) :
  In r (drop_from key key_eqb seen df) ->
  ~ In (key r) seen /\
  exists l1 l2, df = l1 ++ r :: l2 /\ ~ In (key r) (map key l1).
Proof.
  revert seen. induction df as [|x rest IH]; simpl; intros seen Hin.
  - contradiction.
  - destruct (existsb (key_eqb (key x)) seen) eqn:Hx.
    + destruct (IH _ Hin) as [Hs [l1 [l2 [-> Hl1]]]].
      split; [exact Hs|].
      exists (x :: l1), l2. split; [reflexivity|].
      simpl. intros [Heq|Hk]; [|tauto].
      apply seen_spec in Hx. congruence.
    + apply seen_false in Hx. destruct Hin as [<-|Hin].
      * split; [exact Hx|]. exists [], rest. split; [reflexivity|]. simpl. tauto.
      * destruct (IH _ Hin) as [Hs [l1 [l2 [-> Hl1]]]].
        simpl in Hs. split; [tauto|].
        exists (x :: l1), l2. split; [reflexivity|].
        simpl. intros [Heq|Hk]; [|tauto]. apply Hs. now left.
Qed.

(** The first row of the frame with a key that was not seen is kept. *)
Lemma drop_from_keeps_first (seen : list K) (l1 l2 : list A) (r : A) :
  ~ In (key r) seen -> ~ In (key r) (map key l1) ->
  In r (drop_from key key_eqb seen (l1 ++ r :: l2)).
Proof.
  revert seen. induction l1 as [|x l1 IH]; simpl; intros seen Hs Hl1.
  - apply seen_false in Hs. rewrite Hs. now left.
  - destruct (existsb (key_eqb (key x)) seen) eqn:Hx.
    + apply IH; tauto.
    + right. apply IH; simpl; intuition congruence.
Qed.

Lemma drop_from_keys (seen : list K) (df : list A) (k : K) :
  In k (map key (drop_from key key_eqb seen df)) <->
  In k (map key df) /\ ~ In k seen.
Proof.
  revert seen. induction df as [|x rest IH]; simpl; intros seen.
  - tauto.
  - destruct (existsb (key_eqb (key x)) seen) eqn:Hx.
    + apply seen_spec in Hx. rewrite IH. intuition congruence.
    + apply seen_false in Hx. simpl. rewrite IH. simpl.
      split.
      * intros [<-|[Hin Hn]]; [auto|]. simpl in Hn. tauto.
      * intros [[<-|Hin] Hn]; [auto|].
        destruct (existsb (key_eqb (key x)) [k]) eqn:Hk.
        -- apply seen_spec in Hk. simpl in Hk. left. intuition congruence.
        -- apply seen_false in Hk. simpl in Hk. right. intuition congruence.
Qed.

Lemma drop_from_NoDup (seen : list K) (df : list A) :
  NoDup (map key (drop_from key key_eqb seen df)).
Proof.
  revert seen. induction df as [|x rest IH]; simpl; intros seen.
  - constructor.
  - destruct (existsb (key_eqb (key x)) seen) eqn:Hx; [apply IH|].
    simpl. constructor; [|apply IH].
    rewrite drop_from_keys. simpl. tauto.
Qed.

Lemma drop_duplicates_NoDup (df : list A) :
  NoDup (map key (drop_duplicates key key_eqb df)).
Proof. apply drop_from_NoDup. Qed.

Lemma drop_duplicates_first (df : list A) (r : A) :
  In r (drop_duplicates key key_eqb df) ->
  exists l1 l2, df = l1 ++ r :: l2 /\ ~ In (key r) (map key l1).
Proof. intros Hin. now apply drop_from_first in Hin. Qed.

Lemma drop_duplicates_keeps_first (l1 l2 : list A) (r : A) :
  ~ In (key r) (map key l1) ->
  In r (drop_duplicates key key_eqb (l1 ++ r :: l2)).
Proof. intros H. apply drop_from_keeps_first; auto. Qed.

Lemma drop_duplicates_In (df : list A) (r : A) :
  In r (drop_duplicates key key_eqb df) -> In r df.
Proof.
  intros Hin. destruct (drop_duplicates_first _ _ Hin) as [l1 [l2 [-> _]]].
  apply in_or_app. right. now left.
Qed.

End KeepFirst.

Lemma stock_key_eqb_eq (a b : string * option Z) :
  Stock.key_eqb a b = true <-> a = b.
Proof.
  destruct a as [s d], b as [s' d']. unfold Stock.key_eqb. simpl.
  rewrite andb_true_iff, String.eqb_eq.
  destruct d as [x|], d' as [y|]; try rewrite Z.eqb_eq;
    (split; [intros [-> H]; congruence | intros H; injection H; intros; subst; try discriminate; auto]).
Qed.

Lemma news_key_eqb_eq (a b : option string * string) :
  News.key_eqb a b = true <-> a = b.
Proof.
  destruct a as [t s], b as [t' s']. unfold News.key_eqb. simpl.
  rewrite andb_true_iff, String.eqb_eq.
  destruct t as [x|], t' as [y|]; try rewrite String.eqb_eq;
    (split; [intros [H ->]; congruence | intros H; injection H; intros; subst; try discriminate; auto]).
Qed.

End DuplicateFacts.

(* ------------------------------------------------------------------ *)
(** ** Facts about text *)

Module TextFacts.

Import Pandas.

Open Scope string_scope.

Lemma append_assoc (a b c : string) : (a ++ b) ++ c = a ++ (b ++ c).
Proof. induction a as [|x a IH]; simpl; [reflexivity|now rewrite IH]. Qed.

Lemma startswith_spec (pat s : string) :
  startswith pat s = true <-> exists suf, s = pat ++ suf.
Proof.
  revert s. induction pat as [|a pat IH]; intros s; simpl.
  - split; [intros _; now exists s|reflexivity].
  - destruct s as [|b s].
    + split; [discriminate|intros [suf H]; discriminate].
    + rewrite andb_true_iff, Ascii.eqb_eq, IH. split.
      * intros [-> [suf ->]]. now exists suf.
      * intros [suf H]. injection H as -> ->. split; [reflexivity|now exists suf].
Qed.

(** [contains] finds the pattern exactly when it occurs as a substring. *)
Lemma contains_spec (pat s : string) :
  contains pat s = true <-> exists pre suf, s = pre ++ pat ++ suf.
Proof.
  split.
  - induction s as [|c s IH]; simpl; rewrite orb_true_iff; intros [H|H].
    + apply startswith_spec in H. destruct H as [suf ->]. now exists "", suf.
    + discriminate.
    + apply startswith_spec in H. destruct H as [suf ->]. now exists "", suf.
    + destruct (IH H) as [pre [suf ->]]. now exists (String c pre), suf.
  - intros [pre [suf ->]]. induction pre as [|c pre IH]; simpl.
    + assert (H : startswith pat (pat ++ suf) = true)
        by (apply startswith_spec; now exists suf).
      destruct (pat ++ suf); simpl; rewrite H; reflexivity.
    + rewrite IH. apply orb_true_r.
Qed.

Lemma lower_append (a b : string) : lower (a ++ b) = lower a ++ lower b.
Proof. induction a as [|x a IH]; simpl; [reflexivity|now rewrite IH]. Qed.

(** A split of the lowered text comes from a split of the text. *)
Lemma lower_split (t a b : string) :
  lower t = a ++ b ->
  exists a' b', t = a' ++ b' /\ lower a' = a /\ lower b' = b.
Proof.
  revert t. induction a as [|x a IH]; simpl; intros t H.
  - now exists "", t.
  - destruct t as [|c t]; simpl in H; [discriminate|].
    injection H as <- H. destruct (IH t H) as [a' [b' [-> [<- <-]]]].
    now exists (String c a'), b'.
Qed.

End TextFacts.

(* ------------------------------------------------------------------ *)
(** ** News: the keyword columns *)

Module NewsSpec.

Import Pandas DataTransformer TextFacts DuplicateFacts Reference Samples.

Open Scope string_scope.
Open Scope list_scope.

Lemma has_keyword_spec (keyword title : string) :
  has_keyword keyword (Some title) = true <-> occurs_ignoring_case keyword title.
Proof.
  unfold has_keyword, occurs_ignoring_case. rewrite contains_spec. split.
  - intros [pre [suf H]].
    destruct (lower_split _ _ _ H) as [pre' [rest [-> [<- H2]]]].
    destruct (lower_split _ _ _ H2) as [w [suf' [-> [<- <-]]]].
    now exists pre', w, suf'.
  - intros [pre [w [suf [-> <-]]]].
    exists (lower pre), (lower suf). now rewrite !lower_append.
Qed.

(** The loop over [keywords] makes one column per keyword. *)
Lemma lookup_has (f : string -> bool) (keyword : string) :
  In keyword keywords ->
  News.lookup ("has_" ++ keyword)
              (map (fun k => (("has_" ++ k)%string, f k)) keywords) = Some (f keyword).
Proof.
  unfold keywords.
  intros [<-|[<-|[<-|[<-|[<-|[<-|[<-|[<-|[<-|[<-|[]]]]]]]]]]]; reflexivity.
Qed.

Lemma news_rows (now : Z) (df : list News.raw_row) (r : News.row) :
  In r (transform_news_data now df) ->
  exists raw, In raw df /\ r = stamp_news now (news_row raw).
Proof.
  unfold transform_news_data. destruct (empty df); [contradiction|].
  intros Hin. apply in_map_iff in Hin. destruct Hin as [x [<- Hx]].
  apply (drop_duplicates_In News.key News.key_eqb news_key_eqb_eq) in Hx.
  apply in_map_iff in Hx. destruct Hx as [raw [<- Hraw]].
  now exists raw.
Qed.

(** C9: in every row of the transformed news frame and for every keyword of
    the vocabulary, the column [has_<keyword>] exists and is true exactly when
    the keyword occurs in the title as a substring, whatever the case of the
    title's letters; a row without title has every column false. *)
Theorem has_keyword_iff_substring
  (now : Z) (df : list News.raw_row) (r : News.row) (keyword : string) :
  In r (transform_news_data now df) -> In keyword keywords ->
  exists b, News.column ("has_" ++ keyword) r = Some b /\
            (b = true <-> exists t, News.title r = Some t /\ occurs_ignoring_case keyword t).
Proof.
  intros Hr Hk. destruct (news_rows _ _ _ Hr) as [raw [_ ->]].
  exists (has_keyword keyword (News.title (news_row raw))). split.
  - exact (@lookup_has (fun k => has_keyword k (option_map strip (News.r_title raw)))
                       keyword Hk).
  - simpl. destruct (News.r_title raw) as [t|]; simpl.
    + change (contains keyword (lower (strip t)) = true)
        with (has_keyword keyword (Some (strip t)) = true).
      rewrite has_keyword_spec. split.
      * intros H. now exists (strip t).
      * intros [t' [Ht' H]]. now injection Ht' as <-.
    + split; [discriminate|]. intros [t [Ht _]]. discriminate.
Qed.

(** The theorem on the title of the specification: "profit" occurs in
    "profitability". *)
Lemma has_keyword_iff_substring_witness :
  exists b,
    News.column "has_profit" (stamp_news 0 (news_row profitability)) = Some b /\
    (b = true <->
     exists t, News.title (stamp_news 0 (news_row profitability)) = Some t /\
               occurs_ignoring_case "profit" t).
Proof.
  apply (@has_keyword_iff_substring 0 [profitability]
           (stamp_news 0 (news_row profitability)) "profit").
  - left. reflexivity.
  - unfold keywords. simpl. tauto.
Defined.

Example has_profit_profitability :
  map (News.column "has_profit") (transform_news_data 0 [profitability]) = [Some true] /\
  map (News.column "has_loss") (transform_news_data 0 [profitability]) = [Some false].
Proof. split; reflexivity. Qed.

Example has_keyword_ignores_case :
  map (News.column "has_merger")
      (transform_news_data 0 [article "MSFT" "  MERGER talks: Big Deal  "]) = [Some true].
Proof. reflexivity. Qed.

End NewsSpec.

(* ------------------------------------------------------------------ *)
(** ** Facts about group-wise transforms and rolling windows *)

Module GroupFacts.

Import Num Pandas.

Open Scope list_scope.

Section Groups.

Variables V B : Type.

Lemma group_count_cons (k x : string) (l : list string) :
  group_count k (x :: l) = ((if String.eqb k x then 1 else 0) + group_count k l)%nat.
Proof. unfold group_count. simpl. now destruct (String.eqb k x). Qed.

Lemma scatter_length (res : string -> list B) (d : B) (before keys : list string) :
  List.length (scatter res d before keys) = List.length keys.
Proof.
  revert before. induction keys as [|k rest IH]; simpl; intros before; [reflexivity|].
  now rewrite IH.
Qed.

(** The row after [ka] gets the element of its group's result whose position
    is the number of rows of the group before it. *)
Lemma scatter_at (res : string -> list B) (d : B) (before ka : list string)
                 (k : string) (kb : list string) :
  nth_error (scatter res d before (ka ++ k :: kb)) (List.length ka)
  = Some (nth (group_count k before + group_count k ka) (res k) d).
Proof.
  revert before. induction ka as [|x ka IH]; intros before.
  - simpl. unfold group_count at 2. simpl. now rewrite Nat.add_0_r.
  - simpl. rewrite IH. do 2 f_equal.
    rewrite !group_count_cons. lia.
Qed.

Lemma group_values_app (k : string) (ka kb : list string) (va vb : list V) :
  List.length ka = List.length va ->
  group_values k (ka ++ kb) (va ++ vb) = group_values k ka va ++ group_values k kb vb.
Proof.
  revert va. induction ka as [|x ka IH]; intros [|v va] Hlen; try discriminate.
  - reflexivity.
  - simpl in Hlen. injection Hlen as Hlen.
    unfold group_values in *. simpl.
    destruct (String.eqb k x); simpl; now rewrite IH.
Qed.

Lemma group_values_same (k : string) (kb : list string) (v : V) (vb : list V) :
  group_values k (k :: kb) (v :: vb) = v :: group_values k kb vb.
Proof. unfold group_values. simpl. now rewrite String.eqb_refl. Qed.

Lemma group_values_length (k : string) (keys : list string) (vals : list V) :
  List.length keys = List.length vals ->
  List.length (group_values k keys vals) = group_count k keys.
Proof.
  revert vals. induction keys as [|x keys IH]; intros [|v vals] Hlen; try discriminate.
  - reflexivity.
  - simpl in Hlen. injection Hlen as Hlen.
    rewrite group_count_cons. unfold group_values in *. simpl.
    destruct (String.eqb k x); simpl; now rewrite IH.
Qed.

Lemma groupby_transform_length (keys : list string) (vals : list V)
                               (f : list V -> list B) (d : B) :
  List.length (groupby_transform keys vals f d) = List.length keys.
Proof. apply scatter_length. Qed.

(** The value a group-wise transform puts at a row: with [g] the values of
    the row's group before it and [h] those after it, the element of
    [f (g ++ v :: h)] that stands after [g]. *)
Lemma groupby_transform_at (ka : list string) (k : string) (kb : list string)
                           (va : list V) (v : V) (vb : list V)
                           (f : list V -> list B) (d : B) :
  List.length ka = List.length va ->
  nth_error (groupby_transform (ka ++ k :: kb) (va ++ v :: vb) f d) (List.length ka)
  = Some (nth (List.length (group_values k ka va))
              (f (group_values k ka va ++ v :: group_values k kb vb)) d).
Proof.
  intros Hlen. unfold groupby_transform. rewrite scatter_at.
  rewrite group_values_app by exact Hlen.
  rewrite group_values_same, group_values_length by exact Hlen.
  reflexivity.
Qed.

End Groups.

Lemma group_values_map {R V : Type} (key : R -> string) (val : R -> V)
                       (k : string) (rows : list R) :
  group_values k (map key rows) (map val rows)
  = map val (filter (fun r => String.eqb k (key r)) rows).
Proof.
  unfold group_values. induction rows as [|r rows IH]; simpl; [reflexivity|].
  destruct (String.eqb k (key r)); simpl; now rewrite IH.
Qed.

Lemma map2_at {A B C : Type} (f : A -> B -> C) (a : list A) (x : A) (a' : list A)
              (b : list B) (y : B) (b' : list B) (d : C) :
  List.length a = List.length b ->
  nth (List.length a) (map2 f (a ++ x :: a') (b ++ y :: b')) d = f x y.
Proof.
  revert b. induction a as [|u a IH]; intros [|w b] Hlen; try discriminate.
  - reflexivity.
  - simpl in Hlen. injection Hlen as Hlen. simpl. now apply IH.
Qed.

Lemma div_NaN (x : num) : (x / NaN)%num = NaN.
Proof. now destruct x. Qed.

(** The first value of a series has no percentage change. *)
Lemma pct_change_first (v : num) (h : list num) :
  nth 0 (pct_change (v :: h)) NaN = NaN.
Proof. unfold pct_change. simpl. now rewrite div_NaN. Qed.

(** A later value is compared with the value just before it. *)
Lemma pct_change_next (g : list num) (p v : num) (h : list num) :
  nth (List.length (g ++ [p])) (pct_change ((g ++ [p]) ++ v :: h)) NaN
  = (v / p - one)%num.
Proof.
  unfold pct_change.
  assert (Hs : shift ((g ++ [p]) ++ v :: h) = (NaN :: g) ++ p :: removelast (v :: h)).
  { rewrite <- app_assoc. simpl app at 2.
    unfold shift. destruct (g ++ p :: v :: h) eqn:E.
    - destruct g; discriminate.
    - rewrite <- E. rewrite removelast_app by discriminate.
      change (p :: v :: h) with ([p] ++ v :: h).
      rewrite removelast_app by discriminate. reflexivity. }
  rewrite Hs.
  apply (map2_at (fun cur prev => (cur / prev - one)%num) (g ++ [p]) v h (NaN :: g)).
  rewrite length_app. simpl. lia.
Qed.

Lemma rolling_length {B : Type} (w : nat) (agg : list num -> B) (xs : list num) :
  List.length (rolling w agg xs) = List.length xs.
Proof. unfold rolling. now rewrite length_map, length_seq. Qed.

End GroupFacts.

(* ------------------------------------------------------------------ *)
(** ** Facts about rolling windows *)

Module RollingFacts.

Import Num Pandas Reference.

Open Scope list_scope.

Lemma lastn_min {A : Type} (w : nat) (l : list A) :
  lastn (Nat.min (List.length l) w) l = lastn w l.
Proof. unfold lastn. f_equal. lia. Qed.

Lemma lastn_all {A : Type} (w : nat) (l : list A) :
  (List.length l <= w)%nat -> lastn w l = l.
Proof.
  intros H. unfold lastn. replace (List.length l - w)%nat with 0%nat by lia. reflexivity.
Qed.

Lemma lastn_length {A : Type} (w : nat) (l : list A) :
  List.length (lastn w l) = Nat.min (List.length l) w.
Proof. unfold lastn. rewrite length_skipn. lia. Qed.

(** The window that ends at the value after [g] holds the last [w] values
    of the series up to and including that value. *)
Lemma window_at (w : nat) (g : list num) (v : num) (h : list num) :
  window w (g ++ v :: h) (List.length g) = lastn w (g ++ [v]).
Proof.
  unfold window, lastn.
  assert (Hf : firstn (S (List.length g)) (g ++ v :: h) = g ++ [v]).
  { rewrite firstn_app, firstn_all2 by lia.
    replace (S (List.length g) - List.length g)%nat with 1%nat by lia. reflexivity. }
  rewrite Hf, length_app. f_equal. cbn [List.length]. lia.
Qed.

Lemma rolling_at {B : Type} (w : nat) (agg : list num -> B)
                 (g : list num) (v : num) (h : list num) (d : B) :
  nth (List.length g) (rolling w agg (g ++ v :: h)) d = agg (lastn w (g ++ [v])).
Proof.
  apply nth_error_nth. unfold rolling.
  rewrite nth_error_map, nth_error_seq.
  assert (Hlt : (List.length g <? List.length (g ++ v :: h))%nat = true).
  { apply Nat.ltb_lt. rewrite length_app. simpl. lia. }
  rewrite Hlt. simpl. now rewrite window_at.
Qed.

(** The window routines see exactly the numbers of the window. *)
Lemma observations_numbers (win : list num) : observations win = numbers win.
Proof.
  unfold observations, prep_values, numbers.
  induction win as [|x win IH]; simpl; [reflexivity|].
  destruct x; simpl; now rewrite IH.
Qed.

Lemma numbers_all (l : list num) :
  Forall (fun x => isfinite x = true) l -> numbers l = l.
Proof.
  unfold numbers. induction 1 as [|x l Hx _ IH]; simpl; [reflexivity|].
  now rewrite Hx, IH.
Qed.

(** With at least one number in the window, the rolling mean is the mean of
    the numbers. *)
Lemma roll_mean_mean (win : list num) :
  numbers win <> [] -> roll_mean 1 win = mean (numbers win).
Proof.
  intros Hne. unfold roll_mean, mean. rewrite observations_numbers.
  destruct (numbers win) as [|x l]; [congruence|]. reflexivity.
Qed.

Lemma roll_mean_none (win : list num) :
  numbers win = [] -> roll_mean 1 win = NaN.
Proof.
  intros He. unfold roll_mean. rewrite observations_numbers, He. reflexivity.
Qed.

Lemma mean_single (q : Q) : mean [Fin q] = fin q.
Proof.
  unfold mean, sum. cbn [fold_left List.length].
  change (of_nat 1) with (Fin 1).
  change (zero + Fin q)%num with (fin (Qred 0 + q)).
  change (fin (Qred 0 + q) / Fin 1)%num with (fin (Qred (Qred 0 + q) / 1)).
  apply NumFacts.fin_eq. rewrite !Qred_correct. field.
Qed.

(** The variance of a single number is [0 / 0]. *)
Lemma variance_single (q : Q) : variance [Fin q] = NaN.
Proof.
  unfold variance. rewrite mean_single. cbn [map List.length Nat.sub].
  change (Fin q - fin q)%num with (fin (q + Qred (- Qred q))).
  assert (Hz : fin (q + Qred (- Qred q)) = zero).
  { apply NumFacts.fin_eq. rewrite !Qred_correct. ring. }
  rewrite Hz. reflexivity.
Qed.

(** The rolling standard deviation is the standard deviation of the numbers
    of the window; with fewer than two numbers both are missing. *)
Lemma roll_std_stdev (win : list num) :
  roll_std 1 win = stdev (numbers win).
Proof.
  unfold roll_std, stdev, roll_var. f_equal.
  rewrite observations_numbers.
  assert (Hfin : Forall (fun x => isfinite x = true) (numbers win)).
  { unfold numbers. apply Forall_forall. intros x Hx.
    apply filter_In in Hx. tauto. }
  destruct (numbers win) as [|x [|y l]].
  - reflexivity.
  - inversion Hfin as [|? ? Hx _]; subst.
    destruct x as [ | | |q]; try discriminate.
    simpl. symmetry. apply variance_single.
  - reflexivity.
Qed.

Lemma roll_std_few (win : list num) :
  (List.length (numbers win) <= 1)%nat -> roll_std 1 win = Sqrt NaN.
Proof.
  intros H. unfold roll_std, roll_var. rewrite observations_numbers.
  destruct (numbers win) as [|x [|y l]]; simpl in *; try reflexivity. lia.
Qed.

End RollingFacts.

(* ------------------------------------------------------------------ *)
(** ** Facts about the stock pipeline *)

Module StockFacts.

Import Num Pandas DataTransformer ResultFacts GroupFacts Reference RollingFacts.

Open Scope list_scope.

Lemma to_numeric_cases (c : raw) :
  to_numeric c = NaN \/ exists q, to_numeric c = Fin q.
Proof. destruct c; simpl; eauto. right. now exists (Qred q). Qed.

Lemma convert_stock_readable (raw : Stock.raw_row) :
  Stock.r_date raw <> DBad -> exists b, convert_stock raw = Ok b.
Proof.
  intros H. unfold convert_stock.
  destruct (Stock.r_date raw); simpl; eauto. congruence.
Qed.

Lemma convert_stock_inv (raw : Stock.raw_row) (b : Stock.bar) :
  convert_stock raw = Ok b ->
  to_datetime (Stock.r_date raw) = Ok (Stock.date b) /\
  Stock.symbol b = Stock.r_symbol raw /\
  Stock.open b = to_numeric (Stock.r_open raw) /\
  Stock.high b = to_numeric (Stock.r_high raw) /\
  Stock.low b = to_numeric (Stock.r_low raw) /\
  Stock.close b = to_numeric (Stock.r_close raw) /\
  Stock.volume b = to_numeric (Stock.r_volume raw) /\
  Stock.extraction_timestamp b = Stock.r_extraction_timestamp raw.
Proof.
  unfold convert_stock.
  destruct (to_datetime (Stock.r_date raw)) as [d|e]; simpl; [|discriminate].
  intros H. injection H as <-. simpl. repeat split; reflexivity.
Qed.

Lemma normalize_inv (df : list Stock.raw_row) (norm : list Stock.bar) :
  normalize df = Ok norm ->
  exists bars, mapM convert_stock df = Ok bars /\ norm = handle_missing bars.
Proof.
  unfold normalize. destruct (mapM convert_stock df) as [bars|e]; simpl; [|discriminate].
  intros H. injection H as <-. now exists bars.
Qed.

Lemma normalize_total (df : list Stock.raw_row) :
  (forall raw, In raw df -> Stock.r_date raw <> DBad) ->
  exists norm, normalize df = Ok norm.
Proof.
  intros Hd. unfold normalize.
  destruct (mapM_total convert_stock df) as [bars Hb].
  - intros raw Hraw. apply convert_stock_readable. now apply Hd.
  - rewrite Hb. simpl. eauto.
Qed.

(** A row of the normalized frame comes from a raw row with a readable
    close; its close is a number and so is its volume. *)
Lemma normalize_rows (df : list Stock.raw_row) (norm : list Stock.bar) (b : Stock.bar) :
  normalize df = Ok norm -> In b norm ->
  exists raw b0,
    In raw df /\ convert_stock raw = Ok b0 /\ b = fill_volume b0 /\
    isfinite (Stock.close b) = true /\ isfinite (Stock.volume b) = true.
Proof.
  intros Hn Hin. destruct (normalize_inv _ Hn) as [bars [Hb ->]].
  unfold handle_missing in Hin. apply in_map_iff in Hin.
  destruct Hin as [b0 [<- Hb0]]. unfold dropna in Hb0.
  apply filter_In in Hb0. destruct Hb0 as [Hb0 Hna].
  apply mapM_Forall2 in Hb.
  destruct (Forall2_In_r _ Hb Hb0) as [raw [Hraw Hc]].
  exists raw, b0. repeat split; auto.
  - simpl. destruct (convert_stock_inv _ Hc) as [_ [_ [_ [_ [_ [Hcl _]]]]]].
    rewrite Hcl in *. destruct (to_numeric_cases (Stock.r_close raw)) as [E|[q E]];
      rewrite E in *; [discriminate|reflexivity].
  - simpl. destruct (convert_stock_inv _ Hc) as [_ [_ [_ [_ [_ [_ [Hv _]]]]]]].
    rewrite Hv. destruct (to_numeric_cases (Stock.r_volume raw)) as [E|[q E]];
      rewrite E; reflexivity.
Qed.

(** The frame after steps 3 and 4 is the normalized frame with five more
    columns. *)
Lemma stock_rows_columns (df : list Stock.bar) (dr m7 m30 : list num) (vol : list root) :
  List.length dr = List.length df -> List.length m7 = List.length df ->
  List.length m30 = List.length df -> List.length vol = List.length df ->
  map Stock.base (stock_rows df dr m7 m30 vol) = df /\
  map Stock.daily_return (stock_rows df dr m7 m30 vol) = dr /\
  map Stock.ma_7 (stock_rows df dr m7 m30 vol) = m7 /\
  map Stock.ma_30 (stock_rows df dr m7 m30 vol) = m30 /\
  map Stock.volatility_30d (stock_rows df dr m7 m30 vol) = vol.
Proof.
  revert dr m7 m30 vol.
  induction df as [|b df IH]; intros [|d dr] [|x m7] [|y m30] [|v vol];
    simpl; intros H1 H2 H3 H4; try discriminate; auto.
  injection H1 as H1. injection H2 as H2. injection H3 as H3. injection H4 as H4.
  destruct (IH dr m7 m30 vol H1 H2 H3 H4) as [E1 [E2 [E3 [E4 E5]]]].
  rewrite E1, E2, E3, E4, E5. auto.
Qed.

Lemma stock_rows_In (df : list Stock.bar) (dr m7 m30 : list num) (vol : list root)
                    (r : Stock.row) :
  In r (stock_rows df dr m7 m30 vol) ->
  r = stock_row (Stock.base r) (Stock.daily_return r) (Stock.ma_7 r) (Stock.ma_30 r)
                (Stock.volatility_30d r).
Proof.
  revert dr m7 m30 vol.
  induction df as [|b df IH]; intros [|d dr] [|x m7] [|y m30] [|v vol];
    simpl; try contradiction.
  intros [<-|Hin]; [reflexivity|]. eapply IH; eauto.
Qed.

Lemma engineer_columns (norm : list Stock.bar) :
  map Stock.base (engineer norm) = norm /\
  map Stock.daily_return (engineer norm) = daily_returns norm /\
  map Stock.ma_7 (engineer norm) = fst (_add_moving_averages norm) /\
  map Stock.ma_30 (engineer norm) = snd (_add_moving_averages norm) /\
  map Stock.volatility_30d (engineer norm) = _add_volatility norm (daily_returns norm).
Proof.
  unfold engineer, _add_moving_averages, _add_volatility, daily_returns. simpl fst. simpl snd.
  apply stock_rows_columns; rewrite groupby_transform_length, length_map; reflexivity.
Qed.

Lemma engineer_In (norm : list Stock.bar) (r : Stock.row) :
  In r (engineer norm) ->
  In (Stock.base r) norm /\
  r = stock_row (Stock.base r) (Stock.daily_return r) (Stock.ma_7 r) (Stock.ma_30 r)
                (Stock.volatility_30d r).
Proof.
  intros Hin. split.
  - destruct (engineer_columns norm) as [E _]. rewrite <- E. now apply in_map.
  - unfold engineer in Hin. simpl in Hin. eapply stock_rows_In; eauto.
Qed.

Lemma nth_error_map_mid {A B : Type} (f : A -> B) (pre : list A) (r : A) (post : list A) :
  nth_error (map f (pre ++ r :: post)) (List.length pre) = Some (f r).
Proof.
  rewrite nth_error_map, nth_error_app2, Nat.sub_diag by lia. reflexivity.
Qed.

(** The value a group-wise transform of the stock frame puts at a row, read
    off the rows of the frame: [g] are the values of the rows of the same
    symbol before it, [h] of those after it. *)
Lemma stock_group_at {V B : Type} (val : Stock.row -> V) (f : list V -> list B) (d : B)
                     (pre : list Stock.row) (r : Stock.row) (post : list Stock.row) :
  let same := fun x => String.eqb (Stock.symbol (Stock.base r)) (Stock.symbol (Stock.base x)) in
  let g := map val (filter same pre) in
  let h := map val (filter same post) in
  nth_error (groupby_transform (map Stock.symbol (map Stock.base (pre ++ r :: post)))
                               (map val (pre ++ r :: post)) f d)
            (List.length pre)
  = Some (nth (List.length g) (f (g ++ val r :: h)) d).
Proof.
  intros same g h.
  rewrite map_map, !map_app. simpl map.
  set (sym := fun x => Stock.symbol (Stock.base x)).
  assert (Hlen : List.length (map sym pre) = List.length (map val pre))
    by now rewrite !length_map.
  replace (List.length pre) with (List.length (map sym pre)) by apply length_map.
  rewrite (groupby_transform_at _ (sym r) _ _ (val r) _ f d Hlen).
  rewrite !(group_values_map sym val). reflexivity.
Qed.

(** The indicators of a row of the frame after steps 3 and 4.  [earlier]
    are the rows of the same symbol that stand before it in the frame. *)
Lemma engineer_at (norm : list Stock.bar) (pre : list Stock.row) (r : Stock.row)
                  (post : list Stock.row) :
  engineer norm = pre ++ r :: post ->
  let same := fun x => String.eqb (Stock.symbol (Stock.base r)) (Stock.symbol (Stock.base x)) in
  let close := fun x => Stock.close (Stock.base x) in
  let earlier := filter same pre in
  Stock.daily_return r
    = nth (List.length earlier)
          (pct_change (map close earlier ++ close r :: map close (filter same post))) NaN /\
  Stock.ma_7 r = roll_mean 1 (lastn 7 (map close (earlier ++ [r]))) /\
  Stock.ma_30 r = roll_mean 1 (lastn 30 (map close (earlier ++ [r]))) /\
  Stock.volatility_30d r = roll_std 1 (lastn 30 (map Stock.daily_return (earlier ++ [r]))).
Proof.
  intros He same close earlier.
  destruct (engineer_columns norm) as [Eb [Ed [E7 [E30 Ev]]]].
  assert (Hnorm : norm = map Stock.base (pre ++ r :: post)) by now rewrite <- He.
  assert (Hclose : map Stock.close norm = map close (pre ++ r :: post))
    by (rewrite Hnorm, map_map; reflexivity).
  assert (Some_inj : forall (T : Type) (a b : T), Some a = Some b -> a = b)
    by (intros T a b H; now injection H).
  repeat split; apply Some_inj.
  - rewrite <- (nth_error_map_mid Stock.daily_return pre r post), <- He, Ed.
    unfold daily_returns. rewrite Hclose, Hnorm.
    rewrite (stock_group_at close pct_change NaN pre r post).
    unfold earlier. now rewrite length_map.
  - rewrite <- (nth_error_map_mid Stock.ma_7 pre r post), <- He, E7.
    unfold _add_moving_averages. simpl fst. rewrite Hclose, Hnorm.
    rewrite (stock_group_at close (rolling 7 (roll_mean 1)) NaN pre r post).
    rewrite rolling_at. unfold earlier. now rewrite map_app.
  - rewrite <- (nth_error_map_mid Stock.ma_30 pre r post), <- He, E30.
    unfold _add_moving_averages. simpl snd. rewrite Hclose, Hnorm.
    rewrite (stock_group_at close (rolling 30 (roll_mean 1)) NaN pre r post).
    rewrite rolling_at. unfold earlier. now rewrite map_app.
  - rewrite <- (nth_error_map_mid Stock.volatility_30d pre r post), <- He, Ev.
    unfold _add_volatility. rewrite <- Ed, He. rewrite Hnorm at 1.
    rewrite (stock_group_at Stock.daily_return (rolling 30 (roll_std 1)) (Sqrt NaN) pre r post).
    rewrite rolling_at. unfold earlier. now rewrite map_app.
Qed.

(** The whole transform, once the conversions have raised nothing. *)
Lemma transform_stock_eq (now : Z) (df : list Stock.raw_row) (norm : list Stock.bar) :
  normalize df = Ok norm ->
  transform_stock_data now df
  = Ok (map (stamp_stock now)
            (drop_duplicates Stock.key Stock.key_eqb (validate (engineer norm)))).
Proof.
  intros Hn. unfold transform_stock_data, validated.
  destruct df as [|x df].
  - injection Hn as <-. reflexivity.
  - simpl empty. cbv iota. rewrite Hn. reflexivity.
Qed.

Lemma validate_In (e : list Stock.row) (r : Stock.row) :
  In r (validate e) <->
  In r e /\ (zero < Stock.close (Stock.base r))%num /\
            (zero <= Stock.volume (Stock.base r))%num.
Proof.
  unfold validate, lt, le, gtb, geb. rewrite !filter_In. tauto.
Qed.

(** Every row of the output is a row of the frame after steps 3 and 4 that
    passed the validation, with its time stamp. *)
Lemma stock_out_rows (now : Z) (norm : list Stock.bar) (r' : Stock.row) :
  In r' (map (stamp_stock now)
             (drop_duplicates Stock.key Stock.key_eqb (validate (engineer norm)))) ->
  exists r, In r (engineer norm) /\ r' = stamp_stock now r /\
            (zero < Stock.close (Stock.base r))%num /\
            (zero <= Stock.volume (Stock.base r))%num.
Proof.
  intros Hin. apply in_map_iff in Hin. destruct Hin as [r [<- Hr]].
  apply (DuplicateFacts.drop_duplicates_In Stock.key Stock.key_eqb
           DuplicateFacts.stock_key_eqb_eq) in Hr.
  apply validate_In in Hr. exists r. tauto.
Qed.

End StockFacts.

(* ------------------------------------------------------------------ *)
(** ** Stock: the daily return *)

Module DailyReturnSpec.

Import Num Pandas DataTransformer ResultFacts GroupFacts Reference RollingFacts StockFacts Samples.

Open Scope list_scope.

Lemma filter_none {A : Type} (f : A -> bool) (l : list A) :
  (forall x, In x l -> f x = false) -> filter f l = [].
Proof.
  induction l as [|x l IH]; simpl; intros H; [reflexivity|].
  rewrite (H x) by now left. apply IH. intros y Hy. apply H. now right.
Qed.

Lemma In_firstn_nth {A : Type} (l : list A) (i : nat) (x : A) :
  In x (firstn i l) -> exists j, (j < i)%nat /\ nth_error l j = Some x.
Proof.
  intros H. apply In_nth_error in H. destruct H as [j Hj].
  rewrite nth_error_firstn in Hj.
  destruct (j <? i)%nat eqn:E; [|discriminate].
  exists j. split; [now apply Nat.ltb_lt|exact Hj].
Qed.

Lemma In_between_nth {A : Type} (l : list A) (a b : nat) (x : A) :
  In x (skipn a (firstn b l)) ->
  exists n, (a <= n < b)%nat /\ nth_error l n = Some x.
Proof.
  intros H. apply In_nth_error in H. destruct H as [n Hn].
  rewrite nth_error_skipn, nth_error_firstn in Hn.
  destruct (a + n <? b)%nat eqn:E; [|discriminate].
  apply Nat.ltb_lt in E. exists (a + n)%nat. split; [lia|exact Hn].
Qed.

Lemma date_lt_not_le (a b : option Z) : date_lt a b -> date_le b a -> False.
Proof. destruct a, b; simpl; try tauto. lia. Qed.

Lemma engineer_base_nth (norm : list Stock.bar) (i : nat) (r : Stock.row) :
  nth_error (engineer norm) i = Some r -> nth_error norm i = Some (Stock.base r).
Proof.
  intros H. destruct (engineer_columns norm) as [E _].
  rewrite <- E, nth_error_map, H. reflexivity.
Qed.

(** The first row of a symbol in the frame has no daily return. *)
Lemma daily_return_first (norm : list Stock.bar) (pre : list Stock.row) (r : Stock.row)
                         (post : list Stock.row) :
  engineer norm = pre ++ r :: post ->
  filter (fun x => String.eqb (Stock.symbol (Stock.base r)) (Stock.symbol (Stock.base x))) pre = [] ->
  Stock.daily_return r = NaN.
Proof.
  intros He Hf. destruct (engineer_at _ _ _ _ He) as [Hd _].
  rewrite Hd, Hf. simpl. unfold pct_change. simpl. now rewrite div_NaN.
Qed.

(** A later row is compared with the row of its symbol just before it. *)
Lemma daily_return_next (norm : list Stock.bar) (pre : list Stock.row) (r : Stock.row)
                        (post : list Stock.row) (g : list Stock.row) (p : Stock.row) :
  engineer norm = pre ++ r :: post ->
  filter (fun x => String.eqb (Stock.symbol (Stock.base r)) (Stock.symbol (Stock.base x))) pre
    = g ++ [p] ->
  Stock.daily_return r
  = (Stock.close (Stock.base r) / Stock.close (Stock.base p) - one)%num.
Proof.
  intros He Hf. destruct (engineer_at _ _ _ _ He) as [Hd _].
  rewrite Hd, Hf, map_app. simpl map.
  rewrite <- (length_map (fun x => Stock.close (Stock.base x)) (g ++ [p])), map_app.
  simpl map. apply pct_change_next.
Qed.

(** On numbers, the series over its shift minus one is the change over the
    previous value. *)
Lemma pct_formula (c p : Q) :
  (Fin c / Fin p - one =~ (Fin c - Fin p) / Fin p)%num.
Proof.
  change (Fin c - Fin p)%num with (Fin (Qred (c + Qred (- p)))).
  set (X := Qred (c + Qred (- p))).
  assert (HX : X == c - p) by (unfold X; rewrite !Qred_correct; ring).
  unfold div. destruct (Qcompare_spec p 0) as [Hp|Hp|Hp].
  - assert (HXc : X == c) by (rewrite HX, Hp; ring).
    unfold signed_inf. rewrite HXc.
    destruct (c ?= 0)%Q; exact I.
  - change (fin (c / p) - one)%num with (fin (Qred (c / p) + Qred (- Qred 1))).
    unfold fin, eqv. rewrite !Qred_correct, HX. field. lra.
  - change (fin (c / p) - one)%num with (fin (Qred (c / p) + Qred (- Qred 1))).
    unfold fin, eqv. rewrite !Qred_correct, HX. field. lra.
Qed.



End DailyReturnSpec.

(* ------------------------------------------------------------------ *)
(** ** Stock: moving averages and volatility *)

Module RollingSpec.

Import Num Pandas DataTransformer ResultFacts GroupFacts Reference RollingFacts StockFacts Samples.
Import DailyReturnSpec.

Open Scope list_scope.

Lemma lastn_Forall {A : Type} (P : A -> Prop) (w : nat) (l : list A) :
  Forall P l -> Forall P (lastn w l).
Proof.
  intros H. unfold lastn.
  rewrite <- (firstn_skipn (List.length l - w) l) in H.
  now apply Forall_app in H.
Qed.

Lemma filter_singleton {A : Type} (f : A -> bool) (l : list A) (x : A) :
  filter f l = [x] ->
  exists l1 l2, l = l1 ++ x :: l2 /\ filter f l1 = [] /\ f x = true.
Proof.
  induction l as [|y l IH]; simpl; [discriminate|].
  destruct (f y) eqn:E.
  - intros H. injection H as -> _. now exists [], l.
  - intros H. destruct (IH H) as [l1 [l2 [-> [H1 H2]]]].
    exists (y :: l1), l2. simpl. rewrite E. auto.
Qed.

(** The close of a normalized row is a number in lowest terms. *)
Lemma normalize_close_fin (df : list Stock.raw_row) (norm : list Stock.bar) (b : Stock.bar) :
  normalize df = Ok norm -> In b norm -> exists q, Stock.close b = fin q.
Proof.
  intros Hn Hin.
  destruct (@normalize_rows df norm b Hn Hin) as [raw [b0 [_ [Hc [-> [Hf _]]]]]].
  simpl in *. destruct (convert_stock_inv _ Hc) as [_ [_ [_ [_ [_ [Hcl _]]]]]].
  rewrite Hcl in *. destruct (Stock.r_close raw) as [q| |]; try discriminate.
  now exists q.
Qed.

Lemma mean_single_fin (q : Q) : mean [fin q] = fin q.
Proof.
  unfold fin at 1. rewrite mean_single. apply NumFacts.fin_eq. apply Qred_correct.
Qed.

(** The moving average of a row: the mean of the last [w] closes of its
    symbol, the row's own close included. *)
Lemma moving_average_mean (w : nat) (closes : list num) :
  (0 < w)%nat -> closes <> [] ->
  Forall (fun x => isfinite x = true) closes ->
  roll_mean 1 (lastn w closes) = mean (lastn (Nat.min (List.length closes) w) closes).
Proof.
  intros Hw Hne Hfin. rewrite lastn_min.
  assert (Hn : numbers (lastn w closes) = lastn w closes)
    by (apply numbers_all; now apply lastn_Forall).
  rewrite roll_mean_mean; rewrite Hn; [reflexivity|].
  intros E. apply (f_equal (@List.length num)) in E.
  rewrite lastn_length in E.
  assert (Hpos : (0 < List.length closes)%nat)
    by (destruct closes; [congruence|cbn [List.length]; lia]).
  cbn [List.length] in E. lia.
Qed.



End RollingSpec.

(* ------------------------------------------------------------------ *)
(** ** Stock: the derived price change *)

Module PriceChangeSpec.

Import Num Pandas DataTransformer ResultFacts Reference StockFacts Samples.

Open Scope list_scope.

(** A positive price over a zero price, times 100, is an infinity. *)
Lemma pct_over_zero (c o : Q) :
  0 < c -> o == 0 -> ((Fin c - Fin o) / Fin o * hundred)%num = PInf.
Proof.
  intros Hc Ho.
  change (Fin c - Fin o)%num with (Fin (Qred (c + Qred (- o)))).
  set (X := Qred (c + Qred (- o))).
  assert (HX : 0 < X) by (unfold X; rewrite !Qred_correct, Ho; lra).
  unfold div. apply Qeq_alt in Ho. rewrite Ho.
  unfold signed_inf. apply Qgt_alt in HX. rewrite HX. reflexivity.
Qed.

(** C2 (as amended): the stock transform returns a frame whenever the
    dates are readable, whatever the prices: a division by zero raises
    nothing.  In every row of the output [price_change_pct] is
    [(close - open) / open * 100] in float arithmetic, and in a row with
    [open == 0] that value is an infinity, not a missing value. *)
Theorem price_change_pct_zero_open (now : Z) (df : list Stock.raw_row) :
  (forall raw, In raw df -> Stock.r_date raw <> DBad) ->
  exists out,
    transform_stock_data now df = Ok out /\
    forall r, In r out ->
      Stock.price_change_pct r
      = ((Stock.close (Stock.base r) - Stock.open (Stock.base r))
         / Stock.open (Stock.base r) * hundred)%num /\
      (is_zero (Stock.open (Stock.base r)) = true ->
       isinf (Stock.price_change_pct r) = true /\
       isna (Stock.price_change_pct r) = false).
Proof.
  intros Hd. destruct (normalize_total df Hd) as [norm Hn].
  eexists. split; [apply transform_stock_eq, Hn|].
  intros r' Hr'. destruct (stock_out_rows _ _ _ Hr') as [r [Hr [-> [Hpos _]]]].
  destruct (engineer_In _ _ Hr) as [Hb Hrow].
  assert (Hpct : Stock.price_change_pct r
                 = ((Stock.close (Stock.base r) - Stock.open (Stock.base r))
                    / Stock.open (Stock.base r) * hundred)%num)
    by (rewrite Hrow at 1; reflexivity).
  simpl. split; [exact Hpct|].
  intros Hz. rewrite Hpct.
  destruct (Stock.open (Stock.base r)) as [ | | |o]; try discriminate.
  simpl in Hz. apply Qeq_bool_iff in Hz.
  unfold lt in Hpos.
  destruct (Stock.close (Stock.base r)) as [ | | |c]; try discriminate.
  - change (PInf - Fin o)%num with PInf. unfold div.
    apply Qeq_alt in Hz. rewrite Hz. split; reflexivity.
  - change zero with (Fin 0) in Hpos. apply NumFacts.ltb_Fin in Hpos.
    rewrite (pct_over_zero Hpos Hz). split; reflexivity.
Qed.

(** The theorem on the bar that opened at 0. *)
Lemma price_change_pct_zero_open_witness :
  exists out,
    transform_stock_data 0 [opened_at_zero] = Ok out /\
    forall r, In r out ->
      Stock.price_change_pct r
      = ((Stock.close (Stock.base r) - Stock.open (Stock.base r))
         / Stock.open (Stock.base r) * hundred)%num /\
      (is_zero (Stock.open (Stock.base r)) = true ->
       isinf (Stock.price_change_pct r) = true /\
       isna (Stock.price_change_pct r) = false).
Proof.
  apply (price_change_pct_zero_open 0 [opened_at_zero]).
  intros raw [<-|[]]. discriminate.
Defined.

(** C2 as the specification states it fails: the bar that opened at 0 is in
    the output, and its [price_change_pct] is [+inf], which is no missing
    value. *)
Lemma zero_open_gives_infinity :
  option_map (map (fun r => (Stock.open (Stock.base r), Stock.price_change_pct r)))
             (to_option (transform_stock_data 0 [opened_at_zero]))
    = Some [(zero, PInf)] /\
  isna PInf = false.
Proof. split; reflexivity. Qed.

End PriceChangeSpec.

(* ------------------------------------------------------------------ *)
(** ** Stock: indicators and the rows that are dropped after them *)

Module StaleIndicatorSpec.

Import Num Pandas DataTransformer Reference Samples.
Import DailyReturnSpec.

Open Scope list_scope.

(** C10: the indicators are computed before the validation and the removal
    of duplicates.  In both frames the middle row is absent from the output,
    yet the last output row's [ma_7] and [ma_30] are means over its close,
    its [daily_return] is the change from its close, and its
    [volatility_30d] is a deviation of returns to and from its close; the
    indicators computed on the rows of the output alone are different. *)
Theorem indicators_include_dropped_rows :
  (exists out r,
     transform_stock_data 0 duplicate_day = Ok out /\
     map close_of out = [fin 100; fin 120] /\
     last out r = r /\ In r out /\
     Stock.ma_7 r = mean [fin 100; fin 105; fin 120] /\
     Stock.ma_30 r = mean [fin 100; fin 105; fin 120] /\
     Stock.daily_return r = ((fin 120 - fin 105) / fin 105)%num /\
     Stock.volatility_30d r
       = stdev [((fin 105 - fin 100) / fin 100)%num; ((fin 120 - fin 105) / fin 105)%num] /\
     map Stock.ma_7 (engineer (map Stock.base out)) <> map Stock.ma_7 out /\
     map Stock.daily_return (engineer (map Stock.base out)) <> map Stock.daily_return out) /\
  (exists out r,
     transform_stock_data 0 negative_day = Ok out /\
     map close_of out = [fin 100; fin 120] /\
     last out r = r /\ In r out /\
     Stock.ma_7 r = mean [fin 100; fin (-5); fin 120] /\
     Stock.daily_return r = ((fin 120 - fin (-5)) / fin (-5))%num /\
     map Stock.ma_7 (engineer (map Stock.base out)) <> map Stock.ma_7 out).
Proof.
  split.
  - do 2 eexists. split; [reflexivity|].
    split; [reflexivity|]. split; [reflexivity|].
    split; [right; left; reflexivity|].
    repeat split; try reflexivity; vm_compute; discriminate.
  - do 2 eexists. split; [reflexivity|].
    split; [reflexivity|]. split; [reflexivity|].
    split; [right; left; reflexivity|].
    repeat split; try reflexivity; vm_compute; discriminate.
Qed.

End StaleIndicatorSpec.

(* ------------------------------------------------------------------ *)
(** ** The removal of duplicates *)

Module DuplicateSpec.

Import Num Pandas DataTransformer ResultFacts Reference StockFacts DuplicateFacts Samples.
Import DailyReturnSpec.

Open Scope list_scope.

Lemma filter_filter {A : Type} (p q : A -> bool) (l : list A) :
  filter q (filter p l) = filter (fun x => p x && q x) l.
Proof.
  induction l as [|x l IH]; simpl; [reflexivity|].
  destruct (p x); simpl; [destruct (q x)|]; now rewrite IH.
Qed.

(** The validated frame holds the valid rows of the normalized frame, in
    their order. *)
Lemma validate_base (norm : list Stock.bar) :
  map Stock.base (validate (engineer norm))
  = filter (fun b => (Stock.close b >? zero)%num && (Stock.volume b >=? zero)%num) norm.
Proof.
  unfold validate. rewrite filter_filter.
  destruct (engineer_columns norm) as [E _]. rewrite <- E at 2.
  now rewrite filter_map_swap.
Qed.

Lemma transform_news_eq (now : Z) (df : list News.raw_row) :
  transform_news_data now df
  = map (stamp_news now) (drop_duplicates News.key News.key_eqb (map news_row df)).
Proof. destruct df; reflexivity. Qed.

Lemma stock_key_stamp (now : Z) (l : list Stock.row) :
  map Stock.key (map (stamp_stock now) l) = map Stock.key l.
Proof. rewrite map_map. reflexivity. Qed.

Lemma news_key_stamp (now : Z) (l : list News.row) :
  map News.key (map (stamp_news now) l) = map News.key l.
Proof. rewrite map_map. reflexivity. Qed.

(** C1 (as amended): the removal of duplicates keeps the first occurrence.
    The stock transform returns a frame whenever the dates are readable; the
    output has at most one row per (symbol, date), and of the rows that
    reach the removal of duplicates (the valid rows of the normalized input,
    in input order) it holds exactly those that are the first with their
    (symbol, date).  Likewise the news output has at most one row per
    (title, symbol), and holds exactly the first row of each. *)
Theorem duplicates_keep_first
  (now : Z) (stock : list Stock.raw_row) (news : list News.raw_row) :
  (forall raw, In raw stock -> Stock.r_date raw <> DBad) ->
  (exists norm out,
     normalize stock = Ok norm /\
     transform_stock_data now stock = Ok out /\
     map Stock.base (validate (engineer norm))
       = filter (fun b => (Stock.close b >? zero)%num && (Stock.volume b >=? zero)%num) norm /\
     NoDup (map Stock.key out) /\
     (forall r', In r' out ->
        exists l1 r l2, validate (engineer norm) = l1 ++ r :: l2 /\
                        ~ In (Stock.key r) (map Stock.key l1) /\
                        r' = stamp_stock now r) /\
     (forall l1 r l2, validate (engineer norm) = l1 ++ r :: l2 ->
                      ~ In (Stock.key r) (map Stock.key l1) ->
                      In (stamp_stock now r) out)) /\
  (NoDup (map News.key (transform_news_data now news)) /\
   (forall r', In r' (transform_news_data now news) ->
      exists l1 r l2, map news_row news = l1 ++ r :: l2 /\
                      ~ In (News.key r) (map News.key l1) /\
                      r' = stamp_news now r) /\
   (forall l1 r l2, map news_row news = l1 ++ r :: l2 ->
                    ~ In (News.key r) (map News.key l1) ->
                    In (stamp_news now r) (transform_news_data now news))).
Proof.
  intros Hd. split.
  - destruct (normalize_total stock Hd) as [norm Hn].
    exists norm. eexists. split; [exact Hn|]. split; [apply transform_stock_eq, Hn|].
    split; [apply validate_base|]. split; [|split].
    + rewrite stock_key_stamp. apply drop_duplicates_NoDup, stock_key_eqb_eq.
    + intros r' Hr'. apply in_map_iff in Hr'. destruct Hr' as [r [<- Hr]].
      destruct (drop_duplicates_first Stock.key Stock.key_eqb stock_key_eqb_eq _ _ Hr)
        as [l1 [l2 [Hv Hk]]].
      exists l1, r, l2. auto.
    + intros l1 r l2 Hv Hk. apply in_map. rewrite Hv.
      apply drop_duplicates_keeps_first; auto. apply stock_key_eqb_eq.
  - rewrite transform_news_eq. split; [|split].
    + rewrite news_key_stamp. apply drop_duplicates_NoDup, news_key_eqb_eq.
    + intros r' Hr'. apply in_map_iff in Hr'. destruct Hr' as [r [<- Hr]].
      destruct (drop_duplicates_first News.key News.key_eqb news_key_eqb_eq _ _ Hr)
        as [l1 [l2 [Hv Hk]]].
      exists l1, r, l2. auto.
    + intros l1 r l2 Hv Hk. apply in_map. rewrite Hv.
      apply drop_duplicates_keeps_first; auto. apply news_key_eqb_eq.
Qed.

(** The theorem on the end-to-end scenario: the output has no two rows with
    the same day. *)
Lemma duplicates_keep_first_witness :
  exists out,
    transform_stock_data 0 same_day_twice = Ok out /\
    NoDup (map Stock.key out) /\
    NoDup (map News.key (transform_news_data 0 same_headline_twice)).
Proof.
  destruct (duplicates_keep_first 0 same_day_twice same_headline_twice)
    as [[norm [out [_ [Hout [_ [Hnodup _]]]]]] [Hnews _]].
  - intros raw [<-|[<-|[]]]; discriminate.
  - exists out. auto.
Defined.

(** C1 as the specification states it fails: of the two rows of the same
    day the output holds the one with close 100.0, the earlier one, and not
    the later one with close 105.0; of the two scrapes of one headline it
    holds the first. *)
Lemma later_duplicate_is_dropped :
  option_map (map (fun r => Stock.close (Stock.base r)))
             (to_option (transform_stock_data 0 same_day_twice))
    = Some [fin 100.0] /\
  fin 100.0 <> fin 105.0 /\
  map News.source (transform_news_data 0 same_headline_twice) = ["first feed"%string].
Proof. repeat split; try reflexivity. vm_compute. discriminate. Qed.

End DuplicateSpec.

(* ------------------------------------------------------------------ *)
(** ** The missing-value policy of the conversions *)

Module MissingValueSpec.

Import Num Pandas DataTransformer ResultFacts Reference StockFacts Samples.

Open Scope list_scope.

Lemma Forall2_filter_map {A B C : Type} (R : A -> B -> Prop) (S : A -> C -> Prop)
                         (p : A -> bool) (p' : B -> bool) (g : B -> C)
                         (l : list A) (l' : list B) :
  Forall2 R l l' ->
  (forall a b, R a b -> p a = p' b) ->
  (forall a b, R a b -> p a = true -> S a (g b)) ->
  Forall2 S (filter p l) (map g (filter p' l')).
Proof.
  intros HF Hp HS. induction HF as [|a b l l' HR HF IH]; simpl; [constructor|].
  rewrite <- (Hp a b HR). destruct (p a) eqn:E; simpl; auto.
Qed.

Lemma stock_out_total (now : Z) (df : list Stock.raw_row) :
  (forall raw, In raw df -> Stock.r_date raw <> DBad) ->
  exists out, transform_stock_data now df = Ok out.
Proof.
  intros Hd. destruct (normalize_total df Hd) as [norm Hn].
  eexists. apply transform_stock_eq, Hn.
Qed.

(** C7 (as amended): no numeric cell makes a transform raise.  Whenever the
    dates are readable the stock, the crypto and the portfolio transform
    return a frame, whatever the numeric cells hold.  In the columns the
    transform converts (stock open, high, low, close and volume, crypto
    [price_usd] and [market_cap], portfolio quantity and purchase price) a
    cell that cannot be read becomes [NaN], like a missing one.  The
    columns [volume_24h] and [change_24h] of a crypto frame are not
    converted: a cell that cannot be read stays in the output as it came.
    The normalized stock frame is, row by row and in order, the raw rows
    whose close reads as a number: a row whose close is missing or
    unreadable is dropped, and a row is not dropped for its volume, which
    becomes 0 when it is missing or unreadable.  The crypto output is, row
    by row, the raw rows whose [price_usd] reads as a number.  The
    portfolio output keeps every row. *)
Theorem missing_values_dropped_or_filled
  (now now' : Z) (stock : list Stock.raw_row) (crypto : list Crypto.raw_row)
  (portfolio : list Portfolio.raw_row) :
  (forall raw, In raw stock -> Stock.r_date raw <> DBad) ->
  (forall raw, In raw crypto -> Crypto.r_timestamp raw <> DBad) ->
  (forall raw, In raw portfolio -> Portfolio.r_purchase_date raw <> DBad) ->
  (exists norm out,
     normalize stock = Ok norm /\
     transform_stock_data now stock = Ok out /\
     Forall2 (fun raw b =>
                Stock.symbol b = Stock.r_symbol raw /\
                to_datetime (Stock.r_date raw) = Ok (Stock.date b) /\
                Stock.open b = to_numeric (Stock.r_open raw) /\
                Stock.high b = to_numeric (Stock.r_high raw) /\
                Stock.low b = to_numeric (Stock.r_low raw) /\
                (exists q, Stock.r_close raw = RNum q /\ Stock.close b = fin q) /\
                Stock.volume b = match Stock.r_volume raw with
                                 | RNum v => fin v
                                 | _ => zero
                                 end)
             (filter close_present stock) norm) /\
  (exists out,
     transform_crypto_data now crypto = Ok out /\
     Forall2 (fun raw r =>
                Crypto.crypto_id (Crypto.data r) = Crypto.r_crypto_id raw /\
                (exists q, Crypto.r_price_usd raw = RNum q /\
                           Crypto.price_usd (Crypto.data r) = fin q) /\
                Crypto.market_cap (Crypto.data r) = to_numeric (Crypto.r_market_cap raw) /\
                Crypto.volume_24h (Crypto.data r) = Crypto.r_volume_24h raw /\
                Crypto.change_24h (Crypto.data r) = Crypto.r_change_24h raw)
             (filter price_present crypto) out) /\
  (exists out,
     transform_portfolio_data now now' portfolio = Ok out /\
     Forall2 (fun raw r =>
                Portfolio.quantity r = to_numeric (Portfolio.r_quantity raw) /\
                Portfolio.purchase_price r = to_numeric (Portfolio.r_purchase_price raw))
             portfolio out).
Proof.
  intros Hs Hc Hp. split; [|split].
  - destruct (normalize_total stock Hs) as [norm Hn].
    exists norm. eexists. split; [exact Hn|]. split; [apply transform_stock_eq, Hn|].
    destruct (normalize_inv _ Hn) as [bars [Hb ->]].
    apply mapM_Forall2 in Hb. unfold handle_missing, dropna.
    eapply Forall2_filter_map; [exact Hb| |].
    + intros raw b H. destruct (convert_stock_inv _ H) as [_ [_ [_ [_ [_ [Hcl _]]]]]].
      rewrite Hcl. unfold close_present. now destruct (Stock.r_close raw).
    + intros raw b H Hpr.
      destruct (convert_stock_inv _ H) as [Hdt [Hsy [Ho [Hh [Hl [Hcl [Hv _]]]]]]].
      simpl. rewrite Hv. repeat split; auto.
      * unfold close_present in Hpr. destruct (Stock.r_close raw) as [q| |]; try discriminate.
        exists q. auto.
      * now destruct (Stock.r_volume raw).
  - destruct (mapM_total convert_crypto crypto) as [ticks Ht].
    { intros raw Hraw. unfold convert_crypto. specialize (Hc raw Hraw).
      destruct (Crypto.r_timestamp raw); simpl; eauto. congruence. }
    assert (Hout : transform_crypto_data now crypto
                   = Ok (map (crypto_row now) (dropna Crypto.price_usd ticks))).
    { unfold transform_crypto_data. destruct crypto as [|x crypto].
      - injection Ht as <-. reflexivity.
      - simpl empty. cbv iota. rewrite Ht. reflexivity. }
    eexists. split; [exact Hout|].
    apply mapM_Forall2 in Ht. unfold dropna.
    eapply Forall2_filter_map; [exact Ht| |].
    + intros raw t H. unfold convert_crypto in H.
      destruct (to_datetime (Crypto.r_timestamp raw)); simpl in H; [|discriminate].
      injection H as <-. simpl. unfold price_present. now destruct (Crypto.r_price_usd raw).
    + intros raw t H Hpr. unfold convert_crypto in H.
      destruct (to_datetime (Crypto.r_timestamp raw)); simpl in H; [|discriminate].
      injection H as <-. simpl. repeat split.
      unfold price_present in Hpr. destruct (Crypto.r_price_usd raw) as [q| |]; try discriminate.
      exists q. auto.
  - destruct (PortfolioSpec.portfolio_total now now' portfolio Hp) as [out [Hout Hrows]].
    exists out. split; [exact Hout|].
    eapply Forall2_impl; [|exact Hrows].
    intros raw r Hr. unfold portfolio_row in Hr.
    destruct (to_datetime (Portfolio.r_purchase_date raw)); simpl in Hr; [|discriminate].
    injection Hr as <-. simpl. split; reflexivity.
Qed.

(** The theorem on three patchy frames: the transforms return, the stock
    frame keeps two of its four rows and the crypto frame one of its two. *)
Lemma missing_values_dropped_or_filled_witness :
  exists norm sout cout pout,
    normalize patchy_bars = Ok norm /\
    transform_stock_data 0 patchy_bars = Ok sout /\
    transform_crypto_data 0 patchy_ticks = Ok cout /\
    transform_portfolio_data 0 0 patchy_holdings = Ok pout /\
    List.length norm = 2%nat /\ List.length cout = 1%nat /\ List.length pout = 1%nat.
Proof.
  destruct (missing_values_dropped_or_filled 0 0 patchy_bars patchy_ticks patchy_holdings)
    as [[norm [sout [Hn [Hs Hrows]]]] [[cout [Hc Hticks]] [pout [Hp Hhold]]]].
  - intros raw [<-|[<-|[<-|[<-|[]]]]]; discriminate.
  - intros raw [<-|[<-|[]]]; discriminate.
  - intros raw [<-|[]]; discriminate.
  - exists norm, sout, cout, pout. repeat split; auto.
    + apply Forall2_length in Hrows. now rewrite <- Hrows.
    + apply Forall2_length in Hticks. now rewrite <- Hticks.
    + apply Forall2_length in Hhold. now rewrite <- Hhold.
Defined.

(** C7 as the specification states it fails on a column the transform does
    not convert: of the patchy crypto frame the row of ethereum comes out,
    its unreadable [market_cap] is made a missing value, and its unreadable
    [volume_24h] is not: it is in the output as it came. *)
Lemma unreadable_volume_24h_is_kept :
  option_map (map (fun r => (Crypto.crypto_id (Crypto.data r),
                             Crypto.market_cap (Crypto.data r),
                             Crypto.volume_24h (Crypto.data r))))
             (to_option (transform_crypto_data 0 patchy_ticks))
  = Some [("ethereum"%string, NaN, RBad)] /\
  RBad <> RNone.
Proof. split; [reflexivity|discriminate]. Qed.

(** The patchy stock frame, normalized: the rows of days 2 and 4 stay, with
    volume 0, and the unreadable open of day 4 is missing. *)
Example patchy_bars_normalized :
  option_map (map (fun b => (Stock.date b, Stock.open b, Stock.close b, Stock.volume b)))
             (to_option (normalize patchy_bars))
  = Some [(Some 2%Z, fin 10, fin 11, zero); (Some 4%Z, NaN, fin 12, zero)].
Proof. reflexivity. Qed.

End MissingValueSpec.

(* ------------------------------------------------------------------ *)
(** ** More facts about the pipeline *)

Module OutputFacts.

Import Num Pandas DataTransformer ResultFacts Reference StockFacts DuplicateFacts Terms.

Open Scope list_scope.

(** The transform returned a frame: the conversions raised nothing. *)
Lemma transform_stock_inv (now : Z) (df : list Stock.raw_row) (out : list Stock.row) :
  transform_stock_data now df = Ok out ->
  exists norm,
    normalize df = Ok norm /\
    out = map (stamp_stock now)
              (drop_duplicates Stock.key Stock.key_eqb (validate (engineer norm))).
Proof.
  unfold transform_stock_data, validated. destruct df as [|x df].
  - simpl. intros H. injection H as <-. now exists [].
  - simpl empty. cbv iota.
    destruct (normalize (x :: df)) as [norm|e]; simpl; [|discriminate].
    intros H. injection H as <-. now exists norm.
Qed.

Section DropMap.

Variables A B K : Type.
Variable g : A -> B.
Variable key : B -> K.
Variable key_eqb : K -> K -> bool.

(** Removing duplicates commutes with forgetting columns the key does not
    read. *)
Lemma drop_from_map (seen : list K) (l : list A) :
  map g (drop_from (fun a => key (g a)) key_eqb seen l)
  = drop_from key key_eqb seen (map g l).
Proof.
  revert seen. induction l as [|x l IH]; intros seen; simpl; [reflexivity|].
  destruct (existsb (key_eqb (key (g x))) seen); simpl; now rewrite IH.
Qed.

Lemma drop_from_length (seen : list K) (l : list B) :
  (List.length (drop_from key key_eqb seen l) <= List.length l)%nat.
Proof.
  revert seen. induction l as [|x l IH]; intros seen; simpl; [lia|].
  destruct (existsb (key_eqb (key x)) seen); simpl.
  - specialize (IH seen). lia.
  - specialize (IH (key x :: seen)). lia.
Qed.

Hypothesis key_eqb_eq : forall a b, key_eqb a b = true <-> a = b.

(** A frame without duplicate keys loses nothing. *)
Lemma drop_from_NoDup_id (seen : list K) (l : list B) :
  NoDup (map key l) -> (forall x, In x l -> ~ In (key x) seen) ->
  drop_from key key_eqb seen l = l.
Proof.
  revert seen. induction l as [|x l IH]; intros seen Hnd Hs; simpl; [reflexivity|].
  inversion Hnd as [|? ? Hx Hnd']; subst.
  assert (E : existsb (key_eqb (key x)) seen = false).
  { apply (seen_false key_eqb key_eqb_eq). apply Hs. now left. }
  rewrite E. f_equal. apply IH; auto.
  intros y Hy [Hk|Hk].
  - apply Hx. rewrite Hk. now apply in_map.
  - apply (Hs y); auto. now right.
Qed.

End DropMap.

Section DropMapKey.

Variables A K : Type.
Variable key : A -> K.
Variable key_eqb : K -> K -> bool.

Lemma drop_from_by_key (seen : list K) (l : list A) :
  map key (drop_from key key_eqb seen l)
  = drop_from (fun k => k) key_eqb seen (map key l).
Proof.
  revert seen. induction l as [|x l IH]; intros seen; [reflexivity|].
  cbn [map drop_from]. destruct (existsb (key_eqb (key x)) seen); cbn [map]; now rewrite IH.
Qed.

End DropMapKey.

Section DropFilter.

Variables A K : Type.
Variable key : A -> K.
Variable key_eqb : K -> K -> bool.
Variable q : K -> bool.

(** Removing duplicates commutes with a selection that reads the key
    only. *)
Lemma drop_from_filter (seen seen' : list K) (l : list A) :
  (forall k, q k = true -> existsb (key_eqb k) seen = existsb (key_eqb k) seen') ->
  (forall k k', key_eqb k k' = true -> q k = q k') ->
  filter (fun a => q (key a)) (drop_from key key_eqb seen l)
  = drop_from key key_eqb seen' (filter (fun a => q (key a)) l).
Proof.
  intros Hs Hq. revert seen seen' Hs. induction l as [|x l IH]; intros seen seen' Hs;
    [reflexivity|].
  cbn [drop_from filter]. destruct (q (key x)) eqn:Q.
  - cbn [drop_from]. rewrite <- (Hs _ Q).
    destruct (existsb (key_eqb (key x)) seen); [now apply IH|].
    cbn [filter]. rewrite Q. f_equal. apply IH.
    intros k Hk. cbn [existsb]. now rewrite (Hs k Hk).
  - destruct (existsb (key_eqb (key x)) seen); [now apply IH|].
    cbn [filter]. rewrite Q. apply IH.
    intros k Hk. cbn [existsb]. rewrite (Hs k Hk).
    destruct (key_eqb k (key x)) eqn:E; [|reflexivity].
    rewrite (Hq _ _ E) in Hk. congruence.
Qed.

End DropFilter.

Lemma drop_from_app {A K : Type} (key : A -> K) (key_eqb : K -> K -> bool)
                    (seen : list K) (l1 l2 : list A) :
  exists seen', drop_from key key_eqb seen (l1 ++ l2)
                = drop_from key key_eqb seen l1 ++ drop_from key key_eqb seen' l2.
Proof.
  revert seen. induction l1 as [|x l1 IH]; intros seen.
  - now exists seen.
  - cbn [app drop_from]. destruct (existsb (key_eqb (key x)) seen).
    + apply IH.
    + destruct (IH (key x :: seen)) as [seen' ->]. now exists seen'.
Qed.

(** Every row of the frame after steps 3 to 7 is a row of the frame after
    steps 3 and 4 that passed the validation, with its time stamp. *)
Lemma after_conversion_rows (now : Z) (norm : list Stock.bar) (r' : Stock.row) :
  In r' (after_conversion now norm) ->
  exists r, In r (engineer norm) /\ r' = stamp_stock now r /\
            (zero < Stock.close (Stock.base r))%num /\
            (zero <= Stock.volume (Stock.base r))%num.
Proof. apply stock_out_rows. Qed.

(** A difference is missing when a term is, or when the terms are two
    infinities of one sign. *)
Lemma sub_isna (x y : num) :
  isna (x - y)%num = isna x || isna y || same_infinity x y.
Proof. destruct x, y; reflexivity. Qed.

(** A product is missing when a factor is, or when the factors are an
    infinity and a zero. *)
Lemma mul_isna (x y : num) :
  isna (x * y)%num = isna x || isna y || infinity_times_zero x y.
Proof.
  assert (Z : forall b, isna (signed_inf true b) = Qeq_bool b 0 /\
                        isna (signed_inf false b) = Qeq_bool b 0).
  { intros b. unfold signed_inf.
    destruct (Qcompare_spec b 0) as [H|H|H]; destruct (Qeq_bool b 0) eqn:E;
      try (split; reflexivity); exfalso.
    - apply Qeq_bool_neq in E. contradiction.
    - apply Qeq_bool_iff in E. lra.
    - apply Qeq_bool_iff in E. lra. }
  destruct x as [ | | |a], y as [ | | |b]; try reflexivity; unfold infinity_times_zero;
    cbn [mul isna isinf is_zero andb orb];
    rewrite ?andb_true_r, ?andb_false_r, ?orb_false_r; cbn [andb orb];
    first [reflexivity | apply (proj1 (Z _)) | apply (proj2 (Z _))].
Qed.

Lemma pct_is_number_or_infinity (c o : Q) :
  0 < c -> isna ((Fin c - Fin o) / Fin o * hundred)%num = false.
Proof.
  intros Hc. destruct (Qcompare_spec o 0) as [Hz|Hz|Hz].
  - now rewrite (PriceChangeSpec.pct_over_zero Hc Hz).
  - change (Fin c - Fin o)%num with (Fin (Qred (c + Qred (- o)))).
    unfold div. rewrite (proj1 (Qlt_alt o 0) Hz). reflexivity.
  - change (Fin c - Fin o)%num with (Fin (Qred (c + Qred (- o)))).
    unfold div. rewrite (proj1 (Qgt_alt o 0) Hz). reflexivity.
Qed.

(** With a close above 0 the percentage is missing exactly when the open is
    no finite number. *)
Lemma pct_isna (c o : num) :
  (zero < c)%num ->
  isna ((c - o) / o * hundred)%num = negb (isfinite o).
Proof.
  unfold lt. destruct c as [ | | |c]; try discriminate; intros Hc.
  - destruct o as [ | | |o]; try reflexivity.
    change (PInf - Fin o)%num with PInf. unfold div.
    destruct (o ?= 0)%Q; reflexivity.
  - destruct o as [ | | |o]; try reflexivity.
    change zero with (Fin 0) in Hc. apply NumFacts.ltb_Fin in Hc.
    now apply pct_is_number_or_infinity.
Qed.

Lemma filter_comm {A : Type} (p q : A -> bool) (l : list A) :
  filter p (filter q l) = filter q (filter p l).
Proof.
  induction l as [|x l IH]; [reflexivity|]. cbn [filter].
  destruct (p x) eqn:P, (q x) eqn:Q; cbn [filter]; rewrite ?P, ?Q, IH; reflexivity.
Qed.

Lemma filter_idem {A : Type} (p : A -> bool) (l : list A) :
  filter p (filter p l) = filter p l.
Proof.
  induction l as [|x l IH]; [reflexivity|]. cbn [filter].
  destruct (p x) eqn:E; cbn [filter]; rewrite ?E, IH; reflexivity.
Qed.

Lemma validate_filter (p : Stock.row -> bool) (l : list Stock.row) :
  validate (filter p l) = filter p (validate l).
Proof.
  unfold validate. rewrite (filter_comm p). f_equal. apply filter_comm.
Qed.

Lemma mapM_filter {A B : Type} (f : A -> result B) (p : A -> bool) (q : B -> bool)
                  (l : list A) (l' : list B) :
  (forall x y, f x = Ok y -> p x = q y) ->
  mapM f l = Ok l' -> mapM f (filter p l) = Ok (filter q l').
Proof.
  intros Hpq. revert l'. induction l as [|x l IH]; intros l' H; cbn [mapM] in H.
  - injection H as <-. reflexivity.
  - destruct (f x) as [y|e] eqn:Hx; cbn [bind] in H; [|discriminate].
    destruct (mapM f l) as [ys|e] eqn:Hl; cbn [bind] in H; [|discriminate].
    injection H as <-. cbn [filter]. rewrite <- (Hpq x y Hx).
    destruct (p x); [|now apply IH].
    cbn [mapM]. rewrite Hx. cbn [bind]. rewrite (IH ys eq_refl). reflexivity.
Qed.

Lemma mapM_app {A B : Type} (f : A -> result B) (l1 l2 : list A) (l' : list B) :
  mapM f (l1 ++ l2) = Ok l' ->
  exists a b, mapM f l1 = Ok a /\ mapM f l2 = Ok b /\ l' = a ++ b.
Proof.
  revert l'. induction l1 as [|x l1 IH]; intros l' H.
  - exists [], l'. auto.
  - cbn [app mapM] in *. destruct (f x) as [y|e]; cbn [bind] in *; [|discriminate].
    destruct (mapM f (l1 ++ l2)) as [ys|e]; cbn [bind] in *; [|discriminate].
    injection H as <-. destruct (IH ys eq_refl) as [a [b [-> [Hb ->]]]].
    exists (y :: a), b. auto.
Qed.

Lemma normalize_app (df extra : list Stock.raw_row) (norm' : list Stock.bar) :
  normalize (df ++ extra) = Ok norm' ->
  exists norm more, normalize df = Ok norm /\ norm' = norm ++ more.
Proof.
  intros Hn. destruct (normalize_inv _ Hn) as [bars [Hb ->]].
  destruct (mapM_app _ _ _ Hb) as [a [b [Ha [_ ->]]]].
  exists (handle_missing a), (handle_missing b). split.
  - unfold normalize. now rewrite Ha.
  - unfold handle_missing, dropna. now rewrite filter_app, map_app.
Qed.

Lemma normalize_of_symbol (s : string) (df : list Stock.raw_row) (norm : list Stock.bar) :
  normalize df = Ok norm ->
  normalize (filter (raw_of_symbol s) df) = Ok (filter (of_symbol s) norm).
Proof.
  intros Hn. destruct (normalize_inv _ Hn) as [bars [Hb ->]].
  unfold normalize.
  rewrite (@mapM_filter _ _ convert_stock (raw_of_symbol s) (of_symbol s) df bars); auto.
  - cbn [bind]. f_equal. unfold handle_missing, dropna.
    rewrite filter_map_swap. f_equal. apply filter_comm.
  - intros x y Hxy. destruct (convert_stock_inv _ Hxy) as [_ [Hs _]].
    unfold raw_of_symbol, of_symbol. now rewrite Hs.
Qed.

Lemma close_present_spec (raw : Stock.raw_row) (b : Stock.bar) :
  convert_stock raw = Ok b -> close_present raw = negb (isna (Stock.close b)).
Proof.
  intros H. destruct (convert_stock_inv _ H) as [_ [_ [_ [_ [_ [-> _]]]]]].
  unfold close_present. now destruct (Stock.r_close raw).
Qed.

End OutputFacts.

(* ------------------------------------------------------------------ *)
(** ** Stock: what the output rows are *)

Module StockOutputSpec.

Import Num Pandas DataTransformer ResultFacts Reference Samples Terms StockFacts DuplicateFacts.
Import OutputFacts Answers.

Open Scope list_scope.

(** X1: every row that comes out of steps 3 to 7, whatever floats the
    converted frame holds, is a converted row with a close above 0 and a
    volume of at least 0, so that neither is missing (either may be an
    infinity), and carries the time stamp.  The output of
    [transform_stock_data] is such a frame ([transform_stock_inv]). *)
Theorem output_rows_are_valid (now : Z) (norm : list Stock.bar) (r : Stock.row) :
  In r (after_conversion now norm) ->
  In (Stock.base r) norm /\
  (zero < Stock.close (Stock.base r))%num /\
  (zero <= Stock.volume (Stock.base r))%num /\
  isna (Stock.close (Stock.base r)) = false /\
  isna (Stock.volume (Stock.base r)) = false /\
  Stock.transformed_at r = Some now.
Proof.
  intros Hin. destruct (after_conversion_rows _ _ _ Hin) as [r0 [Hr0 [-> [Hc Hv]]]].
  destruct (engineer_In _ _ Hr0) as [Hb _].
  cbn [stamp_stock Stock.base Stock.transformed_at].
  repeat split; auto.
  - unfold lt in Hc. now destruct (Stock.close (Stock.base r0)).
  - unfold le in Hv. now destruct (Stock.volume (Stock.base r0)).
Qed.

(** The theorem on a day that closed at infinity. *)
Lemma output_rows_are_valid_witness :
  In (converted 1 PInf) infinite_then_ten /\
  (zero < PInf)%num /\ (zero <= fin 1000)%num /\
  isna PInf = false /\ isna (fin 1000) = false /\
  Some 7%Z = Some 7%Z.
Proof.
  exact (@output_rows_are_valid 7 infinite_then_ten _ (or_introl eq_refl)).
Defined.

(** X2: which rows come out is decided by the normalized bars alone: the bars
    of the output are the valid bars, without the later ones of a
    (symbol, date), in input order.  When no two valid bars share their
    (symbol, date), every valid bar comes out.  The output never has more
    rows than the input. *)
Theorem output_bars (now : Z) (df : list Stock.raw_row) (out : list Stock.row) :
  transform_stock_data now df = Ok out ->
  exists norm,
    normalize df = Ok norm /\
    map Stock.base out
      = drop_duplicates bar_key Stock.key_eqb (filter valid_bar norm) /\
    (NoDup (map bar_key (filter valid_bar norm)) ->
     map Stock.base out = filter valid_bar norm) /\
    (List.length out <= List.length df)%nat.
Proof.
  intros Ht. destruct (transform_stock_inv _ _ Ht) as [norm [Hn ->]].
  exists norm. split; [exact Hn|].
  assert (Hb : map Stock.base
                 (map (stamp_stock now)
                    (drop_duplicates Stock.key Stock.key_eqb (validate (engineer norm))))
               = drop_duplicates bar_key Stock.key_eqb (filter valid_bar norm)).
  { rewrite map_map. unfold drop_duplicates.
    change (fun x => Stock.base (stamp_stock now x)) with Stock.base.
    change Stock.key with (fun a => bar_key (Stock.base a)).
    rewrite (drop_from_map Stock.base bar_key Stock.key_eqb [] (validate (engineer norm))).
    now rewrite DuplicateSpec.validate_base. }
  split; [exact Hb|]. split.
  - intros Hnd. rewrite Hb. unfold drop_duplicates.
    apply (drop_from_NoDup_id bar_key Stock.key_eqb stock_key_eqb_eq); auto.
  - rewrite <- (length_map Stock.base), Hb.
    destruct (normalize_inv _ Hn) as [bars [Hm ->]].
    apply mapM_length in Hm. unfold drop_duplicates.
    pose proof (drop_from_length bar_key Stock.key_eqb []
                  (filter valid_bar (handle_missing bars))) as L1.
    pose proof (filter_length_le valid_bar (handle_missing bars)) as L2.
    unfold handle_missing, dropna in *. rewrite length_map in L2.
    pose proof (filter_length_le (fun r => negb (isna (Stock.close r))) bars) as L3.
    lia.
Qed.

Lemma output_bars_witness :
  exists norm,
    normalize two_days = Ok norm /\
    (NoDup (map bar_key (filter valid_bar norm)) ->
     option_map (map Stock.base) (to_option (transform_stock_data 0 two_days))
       = Some (filter valid_bar norm)).
Proof.
  destruct (@output_bars 0 two_days _ eq_refl) as [norm [Hn [_ [H _]]]].
  exists norm. split; [exact Hn|]. intros Hnd. simpl to_option. simpl option_map.
  f_equal. exact (H Hnd).
Defined.



(** X4: a row whose close cannot be read has no effect at all: without these
    rows the transform returns the same frame. *)
Theorem rows_without_close_are_ignored (now : Z) (df : list Stock.raw_row)
                                       (out : list Stock.row) :
  transform_stock_data now df = Ok out ->
  transform_stock_data now (filter close_present df) = Ok out.
Proof.
  intros Ht. destruct (transform_stock_inv _ _ Ht) as [norm [Hn ->]].
  apply transform_stock_eq.
  destruct (normalize_inv _ Hn) as [bars [Hb ->]].
  unfold normalize.
  rewrite (@mapM_filter _ _ convert_stock close_present
             (fun b => negb (isna (Stock.close b))) df bars close_present_spec Hb).
  cbn [bind]. unfold handle_missing, dropna. now rewrite filter_idem.
Qed.

Lemma rows_without_close_are_ignored_witness :
  transform_stock_data 0 (filter close_present patchy_bars)
  = transform_stock_data 0 patchy_bars.
Proof.
  exact (@rows_without_close_are_ignored 0 patchy_bars _ eq_refl).
Defined.

End StockOutputSpec.

(* ------------------------------------------------------------------ *)
(** ** Stock: the symbols do not mix *)

Module GatherFacts.

Import Num Pandas DataTransformer GroupFacts StockFacts Terms.

Open Scope list_scope.

Section Gather.

Variables V B : Type.

Lemma skipn_nth (d : B) (n : nat) (l : list B) :
  (n < List.length l)%nat -> skipn n l = nth n l d :: skipn (S n) l.
Proof.
  revert l. induction n as [|n IH]; intros [|x l] H; simpl in *; try lia.
  - reflexivity.
  - apply IH. lia.
Qed.

(** The values a scatter puts at the rows of one group are a stretch of
    the group's result. *)
Lemma gather_scatter (res : string -> list B) (d : B) (s : string)
                     (before keys : list string) :
  (group_count s before + group_count s keys <= List.length (res s))%nat ->
  group_values s keys (scatter res d before keys)
  = firstn (group_count s keys) (skipn (group_count s before) (res s)).
Proof.
  revert before. induction keys as [|k rest IH]; intros before Hlen.
  - reflexivity.
  - rewrite group_count_cons in *. unfold group_values in *. cbn [scatter combine filter fst].
    destruct (String.eqb s k) eqn:E.
    + apply String.eqb_eq in E. subst k. cbn [map snd].
      rewrite IH by (rewrite group_count_cons, String.eqb_refl; lia).
      rewrite group_count_cons, String.eqb_refl.
      rewrite (skipn_nth d (n := group_count s before)) by lia.
      reflexivity.
    + rewrite IH by (rewrite group_count_cons, E; lia).
      rewrite group_count_cons, E. reflexivity.
Qed.

(** Read back group by group, a group-wise transform is the transform of
    the group. *)
Lemma gather_transform (keys : list string) (vals : list V) (f : list V -> list B)
                       (d : B) (s : string) :
  (forall l, List.length (f l) = List.length l) ->
  List.length keys = List.length vals ->
  group_values s keys (groupby_transform keys vals f d) = f (group_values s keys vals).
Proof.
  intros Hf Hlen. unfold groupby_transform.
  assert (L : List.length (f (group_values s keys vals)) = group_count s keys)
    by (rewrite Hf; now apply group_values_length).
  rewrite gather_scatter by (cbn; lia).
  cbn [group_count filter List.length skipn]. rewrite <- L. apply firstn_all.
Qed.

(** The values of a frame that holds one group only. *)
Lemma group_values_all (s : string) (keys : list string) (vals : list B) :
  Forall (fun k => String.eqb s k = true) keys ->
  List.length keys = List.length vals ->
  group_values s keys vals = vals.
Proof.
  intros Hk. revert vals. induction Hk as [|k keys Hs _ IH]; intros [|v vals] Hlen;
    try discriminate; [reflexivity|].
  injection Hlen as Hlen. unfold group_values in *. cbn [combine filter fst].
  rewrite Hs. cbn [map snd]. now rewrite IH.
Qed.

(** On a frame that holds one group only, a group-wise transform is the
    transform of the column. *)
Lemma transform_one_group (keys : list string) (vals : list V) (f : list V -> list B)
                          (d : B) (s : string) :
  (forall l, List.length (f l) = List.length l) ->
  List.length keys = List.length vals ->
  Forall (fun k => String.eqb s k = true) keys ->
  groupby_transform keys vals f d = f vals.
Proof.
  intros Hf Hlen Hk.
  rewrite <- (@group_values_all s keys (groupby_transform keys vals f d)) by
    (auto; now rewrite groupby_transform_length).
  rewrite gather_transform by auto. f_equal.
  clear Hf. revert vals Hlen. induction Hk as [|k keys Hs _ IH]; intros [|v vals] Hlen;
    try discriminate; [reflexivity|].
  injection Hlen as Hlen. unfold group_values in *. cbn [combine filter fst].
  rewrite Hs. cbn [map snd]. now rewrite IH.
Qed.

End Gather.

Lemma shift_length (xs : list num) : List.length (shift xs) = List.length xs.
Proof.
  destruct xs as [|x xs]; [reflexivity|].
  unfold shift. cbn [List.length]. f_equal.
  rewrite removelast_firstn_len, length_firstn. cbn [List.length]. lia.
Qed.

Lemma map2_length {A B C : Type} (f : A -> B -> C) (l : list A) (m : list B) :
  List.length l = List.length m -> List.length (map2 f l m) = List.length l.
Proof.
  revert m. induction l as [|x l IH]; intros [|y m] H; try discriminate; [reflexivity|].
  injection H as H. cbn [map2 List.length]. now rewrite IH.
Qed.

Lemma pct_change_length (xs : list num) : List.length (pct_change xs) = List.length xs.
Proof. unfold pct_change. apply map2_length. now rewrite shift_length. Qed.

Lemma rows_by_columns (l m : list Stock.row) :
  Forall built l -> Forall built m ->
  map Stock.base l = map Stock.base m ->
  map Stock.daily_return l = map Stock.daily_return m ->
  map Stock.ma_7 l = map Stock.ma_7 m ->
  map Stock.ma_30 l = map Stock.ma_30 m ->
  map Stock.volatility_30d l = map Stock.volatility_30d m ->
  l = m.
Proof.
  intros Hl. revert m. induction Hl as [|x l Hx _ IH]; intros m Hm; destruct Hm as [|y m Hy Hm];
    cbn [map]; intros E1 E2 E3 E4 E5; try discriminate; [reflexivity|].
  injection E1 as B1 E1. injection E2 as B2 E2. injection E3 as B3 E3.
  injection E4 as B4 E4. injection E5 as B5 E5.
  f_equal; [|now apply IH].
  rewrite Hx, Hy. now rewrite B1, B2, B3, B4, B5.
Qed.

Lemma engineer_built (norm : list Stock.bar) : Forall built (engineer norm).
Proof. apply Forall_forall. intros r Hr. exact (proj2 (engineer_In _ _ Hr)). Qed.

End GatherFacts.

Module SymbolSpec.

Import Num Pandas DataTransformer ResultFacts GroupFacts StockFacts DuplicateFacts.
Import GatherFacts OutputFacts Terms Samples Answers.

Open Scope list_scope.

Section OneSymbol.

Variable s : string.
Variable norm : list Stock.bar.

Lemma mine_keys : Forall (fun k => String.eqb s k = true) (map Stock.symbol (filter (of_symbol s) norm)).
Proof.
  apply Forall_map, Forall_forall. intros b Hb. apply filter_In in Hb. apply Hb.
Qed.

(** A group-wise column of the whole frame, read at the rows of [s], is the
    transform of the values of [s]. *)
Lemma column_of_symbol {B : Type} (val : Stock.row -> B) (vals : list num)
                       (f : list num -> list B) (d : B) :
  (forall l, List.length (f l) = List.length l) ->
  List.length vals = List.length norm ->
  map val (engineer norm) = groupby_transform (map Stock.symbol norm) vals f d ->
  map val (filter (row_of_symbol s) (engineer norm))
  = f (group_values s (map Stock.symbol norm) vals).
Proof.
  intros Hf Hlen Hcol. unfold row_of_symbol, of_symbol.
  rewrite <- (group_values_map (fun r => Stock.symbol (Stock.base r)) val s (engineer norm)).
  rewrite Hcol, <- map_map. destruct (engineer_columns norm) as [-> _].
  apply gather_transform; auto. now rewrite length_map.
Qed.

(** The same column of the frame of the rows of [s] alone. *)
Lemma column_alone {B : Type} (vals : list num) (f : list num -> list B) (d : B) :
  (forall l, List.length (f l) = List.length l) ->
  List.length vals = List.length (filter (of_symbol s) norm) ->
  groupby_transform (map Stock.symbol (filter (of_symbol s) norm)) vals f d = f vals.
Proof.
  intros Hf Hlen. apply (@transform_one_group _ _ _ _ f d s); auto.
  - now rewrite length_map.
  - apply mine_keys.
Qed.

Lemma closes_of_symbol :
  group_values s (map Stock.symbol norm) (map Stock.close norm)
  = map Stock.close (filter (of_symbol s) norm).
Proof. apply group_values_map. Qed.

Lemma returns_of_symbol :
  group_values s (map Stock.symbol norm) (daily_returns norm)
  = pct_change (map Stock.close (filter (of_symbol s) norm)).
Proof.
  unfold daily_returns. rewrite gather_transform, closes_of_symbol; auto.
  - apply pct_change_length.
  - now rewrite !length_map.
Qed.

Lemma returns_alone :
  daily_returns (filter (of_symbol s) norm) = pct_change (map Stock.close (filter (of_symbol s) norm)).
Proof.
  unfold daily_returns. apply column_alone.
  - apply pct_change_length.
  - now rewrite length_map.
Qed.

End OneSymbol.

Lemma engineer_of_symbol (s : string) (norm : list Stock.bar) :
  filter (row_of_symbol s) (engineer norm) = engineer (filter (of_symbol s) norm).
Proof.
  destruct (engineer_columns norm) as [Eb [Ed [E7 [E30 Ev]]]].
  destruct (engineer_columns (filter (of_symbol s) norm)) as [Fb [Fd [F7 [F30 Fv]]]].
  assert (Hroll : forall (B : Type) w (agg : list num -> B) l,
            List.length (rolling w agg l) = List.length l)
    by (intros; apply rolling_length).
  apply rows_by_columns.
  - apply incl_Forall with (l1 := engineer norm); [|apply engineer_built].
    intros r Hr. apply filter_In in Hr. apply Hr.
  - apply engineer_built.
  - rewrite Fb. unfold row_of_symbol.
    rewrite <- (filter_map_swap (of_symbol s) Stock.base). now rewrite Eb.
  - rewrite Fd, returns_alone.
    rewrite (@column_of_symbol s norm _ Stock.daily_return (map Stock.close norm)
               pct_change NaN); auto using pct_change_length, length_map.
    now rewrite closes_of_symbol.
  - rewrite F7. unfold _add_moving_averages. cbn [fst].
    rewrite column_alone by (auto using length_map).
    rewrite (@column_of_symbol s norm _ Stock.ma_7 (map Stock.close norm)
               (rolling 7 (roll_mean 1)) NaN); auto using length_map.
    now rewrite closes_of_symbol.
  - rewrite F30. unfold _add_moving_averages. cbn [snd].
    rewrite column_alone by (auto using length_map).
    rewrite (@column_of_symbol s norm _ Stock.ma_30 (map Stock.close norm)
               (rolling 30 (roll_mean 1)) NaN); auto using length_map.
    now rewrite closes_of_symbol.
  - rewrite Fv. unfold _add_volatility.
    rewrite column_alone;
      [|auto|unfold daily_returns; now rewrite groupby_transform_length, length_map].
    rewrite (@column_of_symbol s norm _ Stock.volatility_30d (daily_returns norm)
               (rolling 30 (roll_std 1)) (Sqrt NaN)); auto.
    + now rewrite returns_of_symbol, returns_alone.
    + unfold daily_returns. now rewrite groupby_transform_length, length_map.
Qed.

(** X5: the indicators of a symbol do not depend on the rows of the other
    symbols: the rows of [s] in the frame after steps 3 and 4 are the frame
    that the rows of [s] alone give. *)
Theorem symbols_are_independent (s : string) (norm : list Stock.bar) :
  filter (row_of_symbol s) (engineer norm) = engineer (filter (of_symbol s) norm).
Proof. apply engineer_of_symbol. Qed.

(** X6: transforming the rows of one symbol alone gives the rows of that symbol
    in the output of the whole frame: no row of the output depends on a row
    of another symbol. *)
Theorem output_of_one_symbol (now : Z) (s : string) (df : list Stock.raw_row)
                             (out : list Stock.row) :
  transform_stock_data now df = Ok out ->
  transform_stock_data now (filter (raw_of_symbol s) df)
  = Ok (filter (row_of_symbol s) out).
Proof.
  intros Ht. destruct (transform_stock_inv _ _ Ht) as [norm [Hn ->]].
  rewrite (@transform_stock_eq now _ _ (@normalize_of_symbol s _ _ Hn)). f_equal.
  rewrite <- engineer_of_symbol.
  rewrite (filter_map_swap (row_of_symbol s) (stamp_stock now)). f_equal.
  unfold drop_duplicates.
  change (fun x => row_of_symbol s (stamp_stock now x))
    with (fun r => String.eqb s (fst (Stock.key r))).
  change (row_of_symbol s) with (fun r => String.eqb s (fst (Stock.key r))).
  rewrite (@drop_from_filter _ _ Stock.key Stock.key_eqb (fun k => String.eqb s (fst k))
             [] [] (validate (engineer norm))).
  - f_equal. rewrite validate_filter. reflexivity.
  - reflexivity.
  - intros k k' E. apply stock_key_eqb_eq in E. now subst.
Qed.

(** The theorem on a frame with two symbols, for one of them. *)
Lemma output_of_one_symbol_witness :
  transform_stock_data 0 (filter (raw_of_symbol "AAPL") two_symbols)
  = Ok (filter (row_of_symbol "AAPL")
          (match transform_stock_data 0 two_symbols with
           | Ok out => out
           | Raise _ => []
           end)).
Proof.
  exact (@output_of_one_symbol 0 "AAPL" two_symbols _ eq_refl).
Defined.

End SymbolSpec.

(* ------------------------------------------------------------------ *)
(** ** Stock: no indicator looks ahead *)

Module CausalFacts.

Import Num Pandas DataTransformer GroupFacts StockFacts GatherFacts Terms.

Open Scope list_scope.

Section Prefix.

Variables V B : Type.

Lemma scatter_app (res : string -> list B) (d : B) (before ka kb : list string) :
  scatter res d before (ka ++ kb)
  = scatter res d before ka ++ scatter res d (rev ka ++ before) kb.
Proof.
  revert before. induction ka as [|k ka IH]; intros before; [reflexivity|].
  cbn [app scatter rev]. rewrite IH, <- app_assoc. reflexivity.
Qed.

(** A scatter reads of each group's result only the positions of the rows
    it walks. *)
Lemma scatter_ext (res res' : string -> list B) (d : B) (before keys : list string) :
  (forall k i, (i < group_count k before + group_count k keys)%nat ->
               nth i (res k) d = nth i (res' k) d) ->
  scatter res d before keys = scatter res' d before keys.
Proof.
  revert before. induction keys as [|k rest IH]; intros before H; [reflexivity|].
  cbn [scatter]. f_equal.
  - apply H. rewrite group_count_cons, String.eqb_refl. lia.
  - apply IH. intros k' i Hi. apply H.
    rewrite !group_count_cons in *. lia.
Qed.

Lemma groupby_transform_prefix (ka kb : list string) (va vb : list V)
                               (f : list V -> list B) (d : B) :
  causal f -> List.length ka = List.length va ->
  firstn (List.length ka) (groupby_transform (ka ++ kb) (va ++ vb) f d)
  = groupby_transform ka va f d.
Proof.
  intros Hf Hlen. unfold groupby_transform. rewrite scatter_app.
  rewrite firstn_app, scatter_length, Nat.sub_diag, firstn_O, app_nil_r.
  rewrite firstn_all2 by (rewrite scatter_length; lia).
  apply scatter_ext. intros k i Hi.
  rewrite group_values_app by exact Hlen.
  rewrite <- (Hf (group_values k ka va) (group_values k kb vb)).
  rewrite group_values_length by exact Hlen.
  rewrite nth_firstn.
  replace (i <? group_count k ka)%nat with true; [reflexivity|].
  symmetry. apply Nat.ltb_lt. cbn in Hi. exact Hi.
Qed.

End Prefix.

Lemma shift_firstn (xs : list num) : shift xs = firstn (List.length xs) (NaN :: xs).
Proof.
  destruct xs as [|x xs]; [reflexivity|].
  unfold shift. rewrite removelast_firstn_len. reflexivity.
Qed.

Lemma map2_firstn {A B C : Type} (f : A -> B -> C) (n : nat) (l : list A) (m : list B) :
  firstn n (map2 f l m) = map2 f (firstn n l) (firstn n m).
Proof.
  revert l m. induction n as [|n IH]; intros [|x l] [|y m]; cbn [firstn map2]; try reflexivity.
  now rewrite IH.
Qed.

Lemma pct_change_causal : causal pct_change.
Proof.
  intros g h. unfold pct_change. rewrite map2_firstn. f_equal.
  - rewrite firstn_app, Nat.sub_diag, firstn_O, app_nil_r. apply firstn_all.
  - rewrite !shift_firstn, firstn_firstn, length_app.
    replace (Nat.min (List.length g) (List.length g + List.length h)) with (List.length g) by lia.
    change (NaN :: g ++ h) with ((NaN :: g) ++ h).
    rewrite firstn_app. cbn [List.length].
    replace (List.length g - S (List.length g))%nat with 0%nat by lia.
    now rewrite firstn_O, app_nil_r.
Qed.

Lemma rolling_causal {B : Type} (w : nat) (agg : list num -> B) : causal (rolling w agg).
Proof.
  intros g h. unfold rolling. rewrite firstn_map, length_app, seq_app.
  rewrite firstn_app, length_seq, Nat.sub_diag, firstn_O, app_nil_r.
  rewrite firstn_all2 by (rewrite length_seq; lia).
  apply map_ext_in. intros j Hj. apply in_seq in Hj. unfold window. do 2 f_equal.
  rewrite firstn_app. replace (S j - List.length g)%nat with 0%nat by lia.
  now rewrite firstn_O, app_nil_r.
Qed.

End CausalFacts.

Module LookAheadSpec.

Import Num Pandas DataTransformer ResultFacts GroupFacts StockFacts GatherFacts CausalFacts.
Import OutputFacts Terms Samples.

Open Scope list_scope.

Lemma daily_returns_prefix (a b : list Stock.bar) :
  firstn (List.length a) (daily_returns (a ++ b)) = daily_returns a.
Proof.
  unfold daily_returns. rewrite !map_app.
  rewrite <- (length_map Stock.symbol a).
  apply groupby_transform_prefix; [apply pct_change_causal|now rewrite !length_map].
Qed.

Lemma engineer_prefix (a b : list Stock.bar) :
  firstn (List.length a) (engineer (a ++ b)) = engineer a.
Proof.
  destruct (engineer_columns (a ++ b)) as [Eb [Ed [E7 [E30 Ev]]]].
  destruct (engineer_columns a) as [Fb [Fd [F7 [F30 Fv]]]].
  assert (La : List.length (map Stock.symbol a) = List.length a) by apply length_map.
  apply rows_by_columns.
  - apply incl_Forall with (l1 := engineer (a ++ b)); [|apply engineer_built].
    intros r Hr. rewrite <- (firstn_skipn (List.length a) (engineer (a ++ b))).
    apply in_or_app. now left.
  - apply engineer_built.
  - rewrite <- firstn_map, Eb, Fb.
    rewrite firstn_app, Nat.sub_diag, firstn_O, app_nil_r. apply firstn_all.
  - rewrite <- firstn_map, Ed, Fd. apply daily_returns_prefix.
  - rewrite <- firstn_map, E7, F7. unfold _add_moving_averages. cbn [fst].
    rewrite !map_app, <- La.
    apply groupby_transform_prefix; [apply rolling_causal|now rewrite !length_map].
  - rewrite <- firstn_map, E30, F30. unfold _add_moving_averages. cbn [snd].
    rewrite !map_app, <- La.
    apply groupby_transform_prefix; [apply rolling_causal|now rewrite !length_map].
  - rewrite <- firstn_map, Ev, Fv. unfold _add_volatility.
    rewrite <- (firstn_skipn (List.length a) (daily_returns (a ++ b))).
    rewrite daily_returns_prefix, map_app, <- La.
    apply groupby_transform_prefix; [apply rolling_causal|].
    unfold daily_returns. now rewrite groupby_transform_length, !length_map.
Qed.

(** X7: no indicator looks ahead: rows added at the end of the frame after
    steps 1 and 2 leave every row that was there as it was, with its
    daily return, its moving averages and its volatility. *)
Theorem indicators_do_not_look_ahead (a b : list Stock.bar) :
  firstn (List.length a) (engineer (a ++ b)) = engineer a.
Proof. apply engineer_prefix. Qed.

(** X8: rows that arrive at the end of the input change no row of the output:
    the output of the longer input starts with the output of the shorter
    one. *)
Theorem output_grows_by_appending (now : Z) (df extra : list Stock.raw_row)
                                  (out out' : list Stock.row) :
  transform_stock_data now df = Ok out ->
  transform_stock_data now (df ++ extra) = Ok out' ->
  exists rest, out' = out ++ rest.
Proof.
  intros Ht Ht'.
  destruct (transform_stock_inv _ _ Ht') as [norm' [Hn' ->]].
  destruct (normalize_app _ _ Hn') as [norm [more [Hn ->]]].
  rewrite (@transform_stock_eq now _ _ Hn) in Ht. injection Ht as <-.
  rewrite <- (firstn_skipn (List.length norm) (engineer (norm ++ more))).
  rewrite engineer_prefix.
  unfold validate. rewrite !filter_app. unfold drop_duplicates.
  match goal with
  | |- context [drop_from _ _ [] (?l1 ++ ?l2)] =>
      destruct (drop_from_app Stock.key Stock.key_eqb [] l1 l2) as [seen' ->]
  end.
  rewrite map_app. eauto.
Qed.

(** The theorem on two days of a symbol and the third day that follows. *)
Lemma output_grows_by_appending_witness :
  exists out out' rest,
    transform_stock_data 0 two_days = Ok out /\
    transform_stock_data 0 three_days = Ok out' /\
    out' = out ++ rest.
Proof.
  eexists. eexists.
  destruct (@output_grows_by_appending 0 two_days [bar 3 "AAPL" 99] _ _ eq_refl eq_refl)
    as [rest H].
  exists rest. split; [reflexivity|]. split; [reflexivity|]. exact H.
Defined.

End LookAheadSpec.

(* ------------------------------------------------------------------ *)
(** ** Stock: what the moving averages skip *)

Module MovingAverageSpec.

Import Num Pandas DataTransformer ResultFacts GroupFacts Reference RollingFacts StockFacts.
Import Samples OutputFacts Terms Answers.

Open Scope list_scope.

(** The rolling mean of a window: the mean of its finite numbers, missing
    when it has none. *)
Lemma roll_mean_numbers (win : list num) :
  roll_mean 1 win = match numbers win with
                    | [] => NaN
                    | obs => mean obs
                    end.
Proof.
  destruct (numbers win) as [|x l] eqn:E.
  - now apply roll_mean_none.
  - rewrite roll_mean_mean, E; [reflexivity|]. rewrite E. discriminate.
Qed.

Lemma numbers_last (w : nat) (l : list num) (x : num) :
  (0 < w)%nat -> isfinite x = true -> numbers (lastn w (l ++ [x])) <> [].
Proof.
  intros Hw Hx E.
  assert (Hin : In x (numbers (lastn w (l ++ [x])))).
  { unfold numbers. apply filter_In. split; [|exact Hx].
    unfold lastn. rewrite length_app. cbn [List.length].
    rewrite skipn_app.
    replace (List.length l + 1 - w - List.length l)%nat with 0%nat by lia.
    apply in_or_app. right. now left. }
  rewrite E in Hin. contradiction.
Qed.

(** X9: the moving averages skip the closes that are no finite numbers,
    whatever floats the converted frame holds: [ma_7] and [ma_30] of a row
    are the means of the finite closes among the last 7 and 30 closes of
    its symbol up to the row, and missing when there is none, as in a
    first row that closed at infinity (which passes the validation).  A
    row with a finite close always has such a close in its windows.
    Through the first seven rows of a symbol the two averages are the same
    value. *)
Theorem moving_averages_skip_infinities
    (norm : list Stock.bar) (pre : list Stock.row) (r : Stock.row) (post : list Stock.row) :
  engineer norm = pre ++ r :: post ->
  let same := fun x =>
    String.eqb (Stock.symbol (Stock.base r)) (Stock.symbol (Stock.base x)) in
  let closes := map (fun x => Stock.close (Stock.base x)) (filter same pre ++ [r]) in
  Stock.ma_7 r = match numbers (lastn 7 closes) with
                 | [] => NaN
                 | obs => mean obs
                 end /\
  Stock.ma_30 r = match numbers (lastn 30 closes) with
                  | [] => NaN
                  | obs => mean obs
                  end /\
  (isfinite (Stock.close (Stock.base r)) = true ->
   numbers (lastn 7 closes) <> [] /\ numbers (lastn 30 closes) <> []) /\
  ((List.length (filter same pre) < 7)%nat -> Stock.ma_7 r = Stock.ma_30 r).
Proof.
  intros He same closes.
  destruct (engineer_at _ _ _ _ He) as [_ [H7 [H30 _]]].
  fold same in H7, H30. fold closes in H7, H30.
  rewrite H7, H30, !roll_mean_numbers.
  split; [reflexivity|]. split; [reflexivity|]. split.
  - intros Hfin. unfold closes. rewrite map_app. cbn [map].
    split; apply numbers_last; auto; lia.
  - intros Hk.
    rewrite !lastn_all; auto; unfold closes; rewrite length_map, length_app;
      cbn [List.length]; lia.
Qed.

(** The theorem on a day that closed at infinity, then a day that closed
    at 10: the first day has no moving average, the second has 10. *)
Lemma moving_averages_skip_infinities_witness :
  (NaN = NaN /\ NaN = NaN) /\ (fin 10 = mean [fin 10] /\ fin 10 = mean [fin 10]).
Proof.
  split.
  - destruct (@moving_averages_skip_infinities infinite_then_ten [] _ _ eq_refl)
      as [H7 [H30 _]]. exact (conj H7 H30).
  - destruct (@moving_averages_skip_infinities infinite_then_ten
                [_] _ _ eq_refl) as [H7 [H30 _]]. exact (conj H7 H30).
Defined.

End MovingAverageSpec.

(* ------------------------------------------------------------------ *)
(** ** Crypto: the buckets follow the prices *)

Module CryptoOrderSpec.

Import Num Pandas DataTransformer ResultFacts Reference Samples Terms.
Import CryptoSpec.

Open Scope list_scope.

Ltac num_order :=
  unfold lt, le in *;
  repeat match goal with
         | H : _ /\ _ |- _ => destruct H
         end;
  change zero with (Fin 0) in *; change (fin 100) with (Fin 100) in *;
  change (fin 1000) with (Fin 1000) in *; change (fin 10000) with (Fin 10000) in *;
  repeat match goal with
         | H : (Fin _ <? Fin _)%num = true |- _ => apply NumFacts.ltb_Fin in H
         | H : (Fin _ <=? Fin _)%num = true |- _ => apply NumFacts.leb_Fin in H
         | H : (Fin _ <? Fin _)%num = false |- _ =>
             apply not_true_iff_false in H; rewrite NumFacts.ltb_Fin in H
         end;
  try discriminate; try lra.

(** Of two prices the higher one is never put in a lower bucket, and when
    it has no bucket the lower one has none either. *)
Lemma price_category_monotone (p q : num) :
  (p <= q)%num ->
  match price_category p, price_category q with
  | Some c1, Some c2 => (category_rank c1 <= category_rank c2)%nat
  | Some _, None => False
  | None, _ => True
  end.
Proof.
  intros Hpq.
  destruct (price_category_cases p) as [P1 [P2 [P3 [P4 P5]]]].
  destruct (price_category_cases q) as [Q1 [Q2 [Q3 [Q4 Q5]]]].
  destruct (price_category p) as [[]|] eqn:Ep; [| | | |exact I];
    destruct (price_category q) as [[]|] eqn:Eq; cbn [category_rank]; try lia;
    try (apply proj1 in P1; specialize (P1 eq_refl));
    try (apply proj1 in P2; specialize (P2 eq_refl));
    try (apply proj1 in P3; specialize (P3 eq_refl));
    try (apply proj1 in P4; specialize (P4 eq_refl));
    try (apply proj1 in Q1; specialize (Q1 eq_refl));
    try (apply proj1 in Q2; specialize (Q2 eq_refl));
    try (apply proj1 in Q3; specialize (Q3 eq_refl));
    try (apply proj1 in Q4; specialize (Q4 eq_refl));
    try (apply proj1 in Q5; specialize (Q5 eq_refl));
    exfalso; destruct p as [ | | |a], q as [ | | |b]; num_order.
Qed.

(** X10: the buckets follow the prices: of two rows of the output, the one with
    the higher price is never in a lower bucket, and when it has no bucket
    the other has none either. *)
Theorem price_category_follows_price (now : Z) (df : list Crypto.raw_row)
                                     (out : list Crypto.row) (r1 r2 : Crypto.row) :
  transform_crypto_data now df = Ok out -> In r1 out -> In r2 out ->
  (Crypto.price_usd (Crypto.data r1) <= Crypto.price_usd (Crypto.data r2))%num ->
  (forall c1 c2, Crypto.price_category r1 = Some c1 -> Crypto.price_category r2 = Some c2 ->
                 (category_rank c1 <= category_rank c2)%nat) /\
  (Crypto.price_category r2 = None -> Crypto.price_category r1 = None).
Proof.
  intros Ht H1 H2 Hle.
  destruct (@crypto_rows now df out r1 Ht H1) as [_ [_ [_ [_ E1]]]].
  destruct (@crypto_rows now df out r2 Ht H2) as [_ [_ [_ [_ E2]]]].
  assert (C1 : Crypto.price_category r1 = price_category (Crypto.price_usd (Crypto.data r1)))
    by (rewrite E1 at 1; reflexivity).
  assert (C2 : Crypto.price_category r2 = price_category (Crypto.price_usd (Crypto.data r2)))
    by (rewrite E2 at 1; reflexivity).
  rewrite C1, C2. pose proof (price_category_monotone Hle) as M.
  destruct (price_category (Crypto.price_usd (Crypto.data r1))) as [c|],
           (price_category (Crypto.price_usd (Crypto.data r2))) as [c'|];
    split; intros; try congruence; try contradiction.
Qed.

(** The theorem on the prices 99.99 and 10000 of the boundary frame. *)
Lemma price_category_follows_price_witness :
  (forall c1 c2, Some Crypto.low = Some c1 -> Some Crypto.high = Some c2 ->
                 (category_rank c1 <= category_rank c2)%nat) /\
  (Some Crypto.high = None -> Some Crypto.low = None).
Proof.
  exact (@price_category_follows_price 0 boundary_frame _ _ _ eq_refl
           (or_intror (or_introl eq_refl)) (or_intror (or_intror (or_introl eq_refl)))
           eq_refl).
Defined.

End CryptoOrderSpec.

(* ------------------------------------------------------------------ *)
(** ** News: trimmed titles *)

Module StripFacts.

Import Pandas Terms.

Open Scope string_scope.

Lemma lstrip_no_space (s : string) : starts_with_space (lstrip s) = false.
Proof.
  induction s as [|c r IH]; [reflexivity|]. cbn [lstrip].
  destruct (isspace c) eqn:E; [exact IH|]. exact E.
Qed.

Lemma lstrip_id (s : string) : starts_with_space s = false -> lstrip s = s.
Proof. destruct s as [|c r]; [reflexivity|]. cbn. now intros ->. Qed.

Lemma rstrip_no_space (s : string) : ends_with_space (rstrip s) = false.
Proof.
  induction s as [|c r IH]; [reflexivity|]. cbn [rstrip].
  destruct (rstrip r) as [|c' r'] eqn:E.
  - destruct (isspace c) eqn:Ec; [reflexivity|]. cbn. exact Ec.
  - exact IH.
Qed.

Lemma rstrip_id (s : string) : ends_with_space s = false -> rstrip s = s.
Proof.
  induction s as [|c r IH]; [reflexivity|]. cbn [ends_with_space rstrip].
  destruct r as [|c' r'].
  - cbn. now intros ->.
  - intros H. rewrite (IH H). reflexivity.
Qed.

Lemma rstrip_keeps_start (s : string) :
  starts_with_space s = false -> starts_with_space (rstrip s) = false.
Proof.
  destruct s as [|c r]; [reflexivity|]. cbn [starts_with_space rstrip]. intros E.
  destruct (rstrip r); [rewrite E|]; cbn; auto.
Qed.

Lemma rstrip_shorter (s : string) : (String.length (rstrip s) <= String.length s)%nat.
Proof.
  induction s as [|c r IH]; [reflexivity|]. cbn [rstrip].
  destruct (rstrip r); [destruct (isspace c)|]; cbn [String.length] in *; lia.
Qed.

Lemma lstrip_shorter (s : string) : (String.length (lstrip s) <= String.length s)%nat.
Proof.
  induction s as [|c r IH]; [reflexivity|]. cbn [lstrip].
  destruct (isspace c); cbn [String.length] in *; lia.
Qed.

(** What [strip] returns has no whitespace at either end, and stripping
    it again changes nothing. *)
Lemma strip_spec (s : string) :
  starts_with_space (strip s) = false /\ ends_with_space (strip s) = false /\
  strip (strip s) = strip s /\ (String.length (strip s) <= String.length s)%nat.
Proof.
  unfold strip.
  assert (H1 : starts_with_space (rstrip (lstrip s)) = false)
    by apply rstrip_keeps_start, lstrip_no_space.
  assert (H2 : ends_with_space (rstrip (lstrip s)) = false) by apply rstrip_no_space.
  repeat split; auto.
  - rewrite (lstrip_id _ H1). now apply rstrip_id.
  - pose proof (rstrip_shorter (lstrip s)). pose proof (lstrip_shorter s). lia.
Qed.

End StripFacts.

Module NewsTitleSpec.

Import Pandas DataTransformer Reference Samples Terms StripFacts DuplicateFacts OutputFacts.
Import NewsSpec.

Open Scope string_scope.
Open Scope list_scope.

(** X11: every title of the output is trimmed: it has no whitespace at either
    end, [title_length] is its length, which is at most the length of the
    title that came in, and a row without title has no [title_length]. *)
Theorem titles_are_trimmed (now : Z) (df : list News.raw_row) (r : News.row) :
  In r (transform_news_data now df) ->
  exists raw, In raw df /\
    News.symbol r = News.r_symbol raw /\
    News.title r = option_map strip (News.r_title raw) /\
    News.title_length r = option_map String.length (News.title r) /\
    forall t, News.title r = Some t ->
      starts_with_space t = false /\ ends_with_space t = false /\ strip t = t /\
      exists t0, News.r_title raw = Some t0 /\ (String.length t <= String.length t0)%nat.
Proof.
  intros Hin. destruct (news_rows now df r Hin) as [raw [Hraw ->]].
  exists raw. split; [exact Hraw|]. cbn [stamp_news news_row News.symbol News.title News.title_length].
  repeat split.
  - destruct (News.r_title raw) as [t0|]; [|discriminate].
    cbn [option_map] in H. injection H as <-. apply strip_spec.
  - destruct (News.r_title raw) as [t0|]; [|discriminate].
    cbn [option_map] in H. injection H as <-. apply strip_spec.
  - destruct (News.r_title raw) as [t0|]; [|discriminate].
    cbn [option_map] in H. injection H as <-. apply strip_spec.
  - destruct (News.r_title raw) as [t0|]; [|discriminate].
    cbn [option_map] in H. injection H as <-. exists t0. split; [reflexivity|]. apply strip_spec.
Qed.

(** The theorem on a headline that came with blanks around it. *)
Lemma titles_are_trimmed_witness :
  exists raw, In raw [article "AAPL" "  Apple posts record revenue "] /\
    "AAPL" = News.r_symbol raw /\
    Some "Apple posts record revenue" = option_map strip (News.r_title raw) /\
    Some 26%nat = option_map String.length (Some "Apple posts record revenue") /\
    forall t, Some "Apple posts record revenue" = Some t ->
      starts_with_space t = false /\ ends_with_space t = false /\ strip t = t /\
      exists t0, News.r_title raw = Some t0 /\ (String.length t <= String.length t0)%nat.
Proof.
  exact (@titles_are_trimmed 0 [article "AAPL" "  Apple posts record revenue "] _
           (or_introl eq_refl)).
Defined.

(** X12: duplicates are judged after the trimming: the (title, symbol) pairs of
    the output are the pairs of trimmed title and symbol of the input, each
    once, in the order of their first occurrence. *)
Theorem duplicates_are_judged_trimmed (now : Z) (df : list News.raw_row) :
  map News.key (transform_news_data now df)
  = drop_duplicates (fun k => k) News.key_eqb (map headline_key df) /\
  (List.length (transform_news_data now df) <= List.length df)%nat.
Proof.
  rewrite DuplicateSpec.transform_news_eq, DuplicateSpec.news_key_stamp.
  unfold drop_duplicates. rewrite drop_from_by_key, map_map.
  split; [reflexivity|].
  rewrite length_map.
  pose proof (drop_from_length News.key News.key_eqb [] (map news_row df)) as L.
  now rewrite length_map in L.
Qed.

End NewsTitleSpec.

(* ------------------------------------------------------------------ *)
(** ** Portfolio: the clock and the cost basis *)

Module PortfolioClockSpec.

Import Num Pandas DataTransformer ResultFacts Reference Samples StockFacts Terms OutputFacts.

Open Scope list_scope.
Open Scope Z_scope.

Lemma portfolio_rows (now now' : Z) (df : list Portfolio.raw_row) (out : list Portfolio.row) :
  transform_portfolio_data now now' df = Ok out ->
  Forall2 (fun raw r => portfolio_row now now' raw = Ok r) df out.
Proof.
  unfold transform_portfolio_data. destruct df as [|x df]; cbn [empty].
  - intros H. injection H as <-. constructor.
  - apply mapM_Forall2.
Qed.

Lemma portfolio_row_inv (now now' : Z) (raw : Portfolio.raw_row) (r : Portfolio.row) :
  portfolio_row now now' raw = Ok r ->
  to_datetime (Portfolio.r_purchase_date raw) = Ok (Portfolio.purchase_date r) /\
  Portfolio.quantity r = to_numeric (Portfolio.r_quantity raw) /\
  Portfolio.purchase_price r = to_numeric (Portfolio.r_purchase_price raw) /\
  Portfolio.cost_basis r = (Portfolio.quantity r * Portfolio.purchase_price r)%num /\
  Portfolio.holding_days r = days_between now (Portfolio.purchase_date r) /\
  Portfolio.transformed_at r = now'.
Proof.
  unfold portfolio_row.
  destruct (to_datetime (Portfolio.r_purchase_date raw)) as [d|e]; cbn [bind]; [|discriminate].
  intros H. injection H as <-. cbn. repeat split; reflexivity.
Qed.

(** X13: [holding_days] is missing exactly when the purchase date is, and its
    sign tells on which side of the clock the purchase lies: it is negative
    exactly for a purchase date in the future. *)
Theorem holding_days_sign (now now' : Z) (df : list Portfolio.raw_row)
                          (out : list Portfolio.row) (r : Portfolio.row) :
  transform_portfolio_data now now' df = Ok out -> In r out ->
  match Portfolio.purchase_date r with
  | Some t => exists d, Portfolio.holding_days r = Some d /\
                        (0 <= d <-> t <= now) /\ (d < 0 <-> now < t)
  | None => Portfolio.holding_days r = None
  end.
Proof.
  intros Ht Hin. apply portfolio_rows in Ht.
  destruct (Forall2_In_r _ Ht Hin) as [raw [_ Hr]].
  destruct (portfolio_row_inv _ _ _ Hr) as [_ [_ [_ [_ [Hd _]]]]].
  rewrite Hd. destruct (Portfolio.purchase_date r) as [t|]; [|reflexivity].
  cbn [days_between option_map]. eexists. split; [reflexivity|].
  assert (Hpos : 0 < microseconds_per_day) by reflexivity.
  assert (S1 : t <= now -> 0 <= (now - t) / microseconds_per_day)
    by (intros; apply Z.div_pos; lia).
  assert (S2 : now < t -> (now - t) / microseconds_per_day < 0)
    by (intros; apply Z.div_lt_upper_bound; lia).
  split; split; intros; lia.
Qed.

(** The theorem on the purchase half a day ahead of the clock. *)
Lemma holding_days_sign_witness :
  exists d, Some (-1) = Some d /\ (0 <= d <-> noon <= midnight) /\ (d < 0 <-> midnight < noon).
Proof.
  exact (@holding_days_sign midnight midnight [holding "ethereum" 2 2500.00 noon] _ _
           eq_refl (or_introl eq_refl)).
Defined.

(** X14: [holding_days] follows the clock and nothing else of a holding
    does: when the clock is read later the number of a row is not smaller,
    exactly a day later it is one more, and but for [holding_days] and
    [transformed_at] the rows are the same. *)
Theorem holding_days_follow_the_clock (now1 now2 stamp1 stamp2 : Z)
    (df : list Portfolio.raw_row) (out1 out2 : list Portfolio.row) :
  transform_portfolio_data now1 stamp1 df = Ok out1 ->
  transform_portfolio_data now2 stamp2 df = Ok out2 ->
  Forall2 (fun r1 r2 =>
             Portfolio.user_id r1 = Portfolio.user_id r2 /\
             Portfolio.symbol r1 = Portfolio.symbol r2 /\
             Portfolio.quantity r1 = Portfolio.quantity r2 /\
             Portfolio.purchase_price r1 = Portfolio.purchase_price r2 /\
             Portfolio.purchase_date r1 = Portfolio.purchase_date r2 /\
             Portfolio.asset_type r1 = Portfolio.asset_type r2 /\
             Portfolio.created_at r1 = Portfolio.created_at r2 /\
             Portfolio.cost_basis r1 = Portfolio.cost_basis r2 /\
             match Portfolio.holding_days r1, Portfolio.holding_days r2 with
             | Some d1, Some d2 =>
                 (now1 <= now2 -> d1 <= d2) /\
                 (now2 = now1 + microseconds_per_day -> d2 = d1 + 1)
             | None, None => True
             | _, _ => False
             end)
          out1 out2.
Proof.
  intros H1 H2. apply portfolio_rows in H1. apply portfolio_rows in H2.
  revert out2 H2. induction H1 as [|raw r1 df out1 Hr1 _ IH]; intros out2 H2;
    inversion H2 as [|? r2 ? out2' Hr2 H2']; subst; constructor; [|now apply IH].
  unfold portfolio_row in Hr1, Hr2.
  destruct (to_datetime (Portfolio.r_purchase_date raw)) as [[t|]|e]; cbn [bind] in *;
    try discriminate; injection Hr1 as <-; injection Hr2 as <-; cbn;
    [|repeat split; reflexivity].
  repeat split; auto.
  - intros. apply Z.div_le_mono; [reflexivity|lia].
  - intros ->. replace (now1 + microseconds_per_day - t)
      with (now1 - t + 1 * microseconds_per_day) by lia.
    apply Z.div_add. discriminate.
Qed.

(** The theorem on one holding, the clock read at midnight and at the
    next midnight. *)
Lemma holding_days_follow_the_clock_witness :
  Forall2 (fun r1 r2 =>
             Portfolio.user_id r1 = Portfolio.user_id r2 /\
             Portfolio.symbol r1 = Portfolio.symbol r2 /\
             Portfolio.quantity r1 = Portfolio.quantity r2 /\
             Portfolio.purchase_price r1 = Portfolio.purchase_price r2 /\
             Portfolio.purchase_date r1 = Portfolio.purchase_date r2 /\
             Portfolio.asset_type r1 = Portfolio.asset_type r2 /\
             Portfolio.created_at r1 = Portfolio.created_at r2 /\
             Portfolio.cost_basis r1 = Portfolio.cost_basis r2 /\
             match Portfolio.holding_days r1, Portfolio.holding_days r2 with
             | Some d1, Some d2 =>
                 (midnight <= midnight + microseconds_per_day -> d1 <= d2) /\
                 (midnight + microseconds_per_day = midnight + microseconds_per_day ->
                  d2 = d1 + 1)
             | None, None => True
             | _, _ => False
             end)
          (match transform_portfolio_data midnight 0 [holding "ethereum" 2 2500.00 0] with
           | Ok out => out | Raise _ => [] end)
          (match transform_portfolio_data (midnight + microseconds_per_day) 1
                   [holding "ethereum" 2 2500.00 0] with
           | Ok out => out | Raise _ => [] end).
Proof.
  exact (@holding_days_follow_the_clock midnight (midnight + microseconds_per_day) 0 1
           [holding "ethereum" 2 2500.00 0] _ _ eq_refl eq_refl).
Defined.



End PortfolioClockSpec.

(* ------------------------------------------------------------------ *)
(** ** Facts about the extractors *)

Module ExtractFacts.

Import Num Pandas Http.

Open Scope list_scope.

(** The frames of a loop that keeps the non-empty ones, put together. *)
Lemma gathered_In {A R : Type} (f : A -> list R) (l : list A) (r : R) :
  In r (let all := filter (fun df => negb (empty df)) (map f l) in
        if empty all then [] else concat all)
  <-> exists x, In x l /\ In r (f x).
Proof.
  cbv zeta. split.
  - intros H.
    assert (Hc : In r (concat (filter (fun df => negb (empty df)) (map f l)))).
    { destruct (empty _); [contradiction|exact H]. }
    apply in_concat in Hc. destruct Hc as [df [Hdf Hr]].
    apply filter_In in Hdf. destruct Hdf as [Hdf _].
    apply in_map_iff in Hdf. destruct Hdf as [x [<- Hx]]. eauto.
  - intros [x [Hx Hr]].
    assert (Hc : In r (concat (filter (fun df => negb (empty df)) (map f l)))).
    { apply in_concat. exists (f x). split; [|exact Hr].
      apply filter_In. split; [now apply in_map|]. destruct (f x); [contradiction|reflexivity]. }
    destruct (filter _ _) as [|d ds]; [contradiction|exact Hc].
Qed.

End ExtractFacts.

(* ------------------------------------------------------------------ *)
(** ** The stock extractor *)

Module StockExtractSpec.

Import Num Pandas Http DataTransformer ResultFacts StockFacts ExtractFacts Terms.
Import StockDataExtractor.

Open Scope string_scope.
Open Scope list_scope.

Lemma to_numeric_strict_inv (c c' : raw) :
  to_numeric_strict c = Ok c' -> c' = c /\ typed c = true.
Proof. destruct c; cbn; intros H; try discriminate; injection H as <-; auto. Qed.

Lemma record_inv (now : Z) (symbol : string) (e : entry) (r : Stock.raw_row) :
  record now symbol e = Ok r ->
  readable e = true /\
  Stock.r_symbol r = symbol /\ Stock.r_extraction_timestamp r = now /\
  to_datetime (e_date e) = to_datetime (Stock.r_date r) /\
  Stock.r_date r <> DBad /\
  Stock.r_open r = e_open e /\ Stock.r_high r = e_high e /\ Stock.r_low r = e_low e /\
  Stock.r_close r = e_close e /\ Stock.r_volume r = e_volume e.
Proof.
  unfold record, readable.
  destruct (e_date e) as [t| |]; cbn [to_datetime bind]; try discriminate;
    destruct (to_numeric_strict (e_open e)) as [o|?] eqn:Eo; cbn [bind]; try discriminate;
    destruct (to_numeric_strict (e_high e)) as [h|?] eqn:Eh; cbn [bind]; try discriminate;
    destruct (to_numeric_strict (e_low e)) as [l|?] eqn:El; cbn [bind]; try discriminate;
    destruct (to_numeric_strict (e_close e)) as [c|?] eqn:Ec; cbn [bind]; try discriminate;
    destruct (to_numeric_strict (e_volume e)) as [v|?] eqn:Ev; cbn [bind]; try discriminate;
    intros H; injection H as <-;
    apply to_numeric_strict_inv in Eo, Eh, El, Ec, Ev;
    destruct Eo as [-> ->], Eh as [-> ->], El as [-> ->], Ec as [-> ->], Ev as [-> ->];
    cbn; repeat split; discriminate.
Qed.

Lemma get_daily_prices_dates (now : Z) (symbol : string) (resp : response body)
                             (r : Stock.raw_row) :
  In r (get_daily_prices now symbol resp) ->
  Stock.r_date r <> DBad /\ Stock.r_symbol r = symbol.
Proof.
  destruct resp as [|[ts|]]; try contradiction. cbn [get_daily_prices].
  destruct (mapM (record now symbol) ts) as [df|e] eqn:Hm; [|contradiction].
  intros Hr. destruct (Forall2_In_r _ (mapM_Forall2 _ _ Hm) Hr) as [e [_ Hrec]].
  destruct (record_inv _ _ _ Hrec) as [_ [Hs [_ [_ [Hd _]]]]]. auto.
Qed.

(** X16: [get_daily_prices] is all or nothing: when every entry of the time
    series is readable the frame has one row per entry, in order, with the
    symbol asked for and the instant of the call; one date or one value
    that cannot be read, anywhere, and the call returns the empty frame.
    No cell of the frame is unreadable. *)
Theorem get_daily_prices_all_or_nothing (now : Z) (symbol : string) (time_series : list entry) :
  let df := get_daily_prices now symbol (Body (Some time_series)) in
  (forallb readable time_series = true ->
   Forall2 (fun e r =>
              to_datetime (e_date e) = to_datetime (Stock.r_date r) /\
              Stock.r_open r = e_open e /\ Stock.r_high r = e_high e /\
              Stock.r_low r = e_low e /\ Stock.r_close r = e_close e /\
              Stock.r_volume r = e_volume e)
           time_series df) /\
  (forallb readable time_series = false -> df = []) /\
  (forall r, In r df ->
     Stock.r_symbol r = symbol /\ Stock.r_extraction_timestamp r = now /\
     Stock.r_date r <> DBad /\
     typed (Stock.r_open r) = true /\ typed (Stock.r_high r) = true /\
     typed (Stock.r_low r) = true /\ typed (Stock.r_close r) = true /\
     typed (Stock.r_volume r) = true).
Proof.
  cbv zeta. unfold get_daily_prices.
  destruct (mapM (record now symbol) time_series) as [df|e] eqn:Hm.
  - pose proof (mapM_Forall2 _ _ Hm) as HF. split.
    { intros _. eapply Forall2_impl; [|exact HF].
      intros e r Hrec. destruct (record_inv _ _ _ Hrec) as [_ [_ [_ [H [_ H']]]]]. auto. }
    split.
    + intros Hbad. exfalso.
      assert (Hall : forallb readable time_series = true).
      { apply forallb_forall. intros e He.
        destruct (Forall2_In_l _ HF He) as [r [_ Hr]].
        now destruct (record_inv _ _ _ Hr). }
      congruence.
    + intros r Hr. destruct (Forall2_In_r _ HF Hr) as [e [He Hrec]].
      destruct (record_inv _ _ _ Hrec) as [Hre [H1 [H2 [_ [H3 [-> [-> [-> [-> ->]]]]]]]]].
      unfold readable in Hre. repeat (apply andb_prop in Hre; destruct Hre as [Hre ?]).
      repeat split; auto.
  - split; [|split; [reflexivity|contradiction]].
    intros Hall. exfalso.
    destruct (mapM_total (record now symbol) time_series) as [df Hdf]; [|congruence].
    intros e' He'. rewrite forallb_forall in Hall. specialize (Hall e' He').
    unfold record, readable in *.
    destruct (e_date e'), (e_open e'), (e_high e'), (e_low e'), (e_close e'), (e_volume e');
      try discriminate; cbn; eauto.
Qed.

(** X17: the transform never raises on what the extractor hands over: whatever
    the API answers, the frame of [get_multiple_stocks] goes through
    [transform_stock_data], and every row that comes out is of a symbol
    that was asked for. *)
Theorem extracted_stocks_always_transform (now : Z) (calls : list call) :
  exists out,
    transform_stock_data now (get_multiple_stocks calls) = Ok out /\
    forall r, In r out -> In (Stock.symbol (Stock.base r)) (map c_symbol calls).
Proof.
  assert (Hrows : forall raw, In raw (get_multiple_stocks calls) ->
            Stock.r_date raw <> DBad /\ In (Stock.r_symbol raw) (map c_symbol calls)).
  { intros raw Hraw. unfold get_multiple_stocks in Hraw.
    apply gathered_In in Hraw. destruct Hraw as [c [Hc Hr]].
    apply get_daily_prices_dates in Hr. destruct Hr as [Hd ->].
    split; [exact Hd|]. now apply in_map. }
  destruct (normalize_total (get_multiple_stocks calls)) as [norm Hn].
  { intros raw Hraw. now apply Hrows. }
  eexists. split; [apply transform_stock_eq, Hn|].
  intros r' Hr'. destruct (stock_out_rows _ _ _ Hr') as [r [Hr [-> _]]].
  destruct (engineer_In _ _ Hr) as [Hb _].
  destruct (@normalize_rows _ norm (Stock.base r) Hn Hb) as [raw [b0 [Hraw [Hc [E _]]]]].
  destruct (convert_stock_inv _ Hc) as [_ [Hs _]].
  change (Stock.symbol (Stock.base (stamp_stock now r))) with (Stock.symbol (Stock.base r)).
  rewrite E. cbn [fill_volume Stock.symbol]. rewrite Hs. now apply Hrows.
Qed.

End StockExtractSpec.

(* ------------------------------------------------------------------ *)
(** ** The crypto extractor *)

Module CryptoExtractSpec.

Import Num Pandas Http DataTransformer ResultFacts ExtractFacts Terms.
Import CryptoDataExtractor CryptoSpec.

Open Scope string_scope.
Open Scope list_scope.

Lemma records_In (clock : nat -> Z) (i : nat) (data : list (string * values))
                 (raw : Crypto.raw_row) :
  In raw (records clock i data) <->
  exists j id v, nth_error data j = Some (id, v) /\
    raw = {| Crypto.r_timestamp := DVal (clock (i + j)%nat);
             Crypto.r_crypto_id := id;
             Crypto.r_price_usd := get (usd v);
             Crypto.r_market_cap := get (usd_market_cap v);
             Crypto.r_volume_24h := get (usd_24h_vol v);
             Crypto.r_change_24h := get (usd_24h_change v) |}.
Proof.
  revert i. induction data as [|[id v] rest IH]; intros i; cbn [records].
  - split; [contradiction|]. intros [[|j] [? [? [H _]]]]; discriminate.
  - split.
    + intros [<-|Hin].
      * exists 0%nat, id, v. rewrite Nat.add_0_r. auto.
      * apply IH in Hin. destruct Hin as [j [id' [v' [Hj ->]]]].
        exists (S j), id', v'. rewrite Nat.add_succ_r. auto.
    + intros [[|j] [id' [v' [Hj ->]]]].
      * injection Hj as <- <-. left. now rewrite Nat.add_0_r.
      * right. apply IH. exists j, id', v'. rewrite Nat.add_succ_r. auto.
Qed.

(** X18: the transform never raises on what the crypto extractor hands over.
    A coin for which the API gives no ['usd'] value gets the price 0: its
    row is not dropped, it comes out with price 0 and without price
    category.  Every row that comes out is a coin of the answer. *)
Theorem missing_price_defaults_to_zero (now : Z) (clock : nat -> Z)
                                       (resp : response (list (string * values))) :
  exists out,
    transform_crypto_data now (get_current_prices clock resp) = Ok out /\
    (forall r, In r out ->
       exists data id v, resp = Body data /\ In (id, v) data /\
         Crypto.crypto_id (Crypto.data r) = id /\
         Crypto.price_usd (Crypto.data r) = to_numeric (get (usd v))) /\
    (forall data id v, resp = Body data -> In (id, v) data -> usd v = None ->
       exists r, In r out /\ Crypto.crypto_id (Crypto.data r) = id /\
                 Crypto.price_usd (Crypto.data r) = zero /\
                 Crypto.price_category r = None).
Proof.
  assert (Hd : forall raw, In raw (get_current_prices clock resp) ->
                           Crypto.r_timestamp raw <> DBad).
  { destruct resp as [|data]; [contradiction|]. cbn [get_current_prices].
    intros raw Hraw. apply records_In in Hraw.
    destruct Hraw as [j [id [v [_ ->]]]]. discriminate. }
  destruct (crypto_total now _ Hd) as [out Hout].
  exists out. split; [exact Hout|]. split.
  - intros r Hr. destruct (@crypto_rows now _ out r Hout Hr) as [raw [Hraw [Hc _]]].
    destruct resp as [|data]; [contradiction|]. cbn [get_current_prices] in Hraw.
    apply records_In in Hraw. destruct Hraw as [j [id [v [Hj ->]]]].
    exists data, id, v. split; [reflexivity|]. split; [eapply nth_error_In; eauto|].
    unfold convert_crypto in Hc. cbn in Hc. injection Hc as Hc. rewrite <- Hc. auto.
  - intros data id v -> Hin Hu.
    destruct (In_nth_error _ _ Hin) as [j Hj].
    set (raw := {| Crypto.r_timestamp := DVal (clock j);
                   Crypto.r_crypto_id := id;
                   Crypto.r_price_usd := get (usd v);
                   Crypto.r_market_cap := get (usd_market_cap v);
                   Crypto.r_volume_24h := get (usd_24h_vol v);
                   Crypto.r_change_24h := get (usd_24h_change v) |}).
    assert (Hraw : In raw (get_current_prices clock (Body data))).
    { cbn [get_current_prices]. apply records_In. exists j, id, v. auto. }
    unfold transform_crypto_data in Hout.
    destruct (get_current_prices clock (Body data)) as [|x df] eqn:E; [contradiction|].
    cbn [empty] in Hout.
    destruct (mapM convert_crypto (x :: df)) as [ticks|e] eqn:Hm; cbn [bind] in Hout;
      [|discriminate].
    injection Hout as <-.
    destruct (Forall2_In_l _ (mapM_Forall2 _ _ Hm) Hraw) as [t [Ht Hc]].
    unfold convert_crypto in Hc. cbn [to_datetime bind raw Crypto.r_timestamp] in Hc.
    injection Hc as Hc. exists (crypto_row now t). split; [|subst t; cbn; now rewrite Hu].
    apply in_map. unfold dropna. apply filter_In. split; [exact Ht|].
    subst t. cbn. now rewrite Hu.
Qed.

End CryptoExtractSpec.

(* ------------------------------------------------------------------ *)
(** ** The news scraper *)

Module ScraperSpec.

Import Pandas Http DataTransformer ExtractFacts Terms StripFacts TextFacts Answers.
Import NewsScraper NewsSpec.

Open Scope string_scope.
Open Scope list_scope.

Lemma collect_In {A : Type} (body : Z -> A -> option News.raw_row) (clock : nat -> Z)
                 (i : nat) (items : list A) (a : News.raw_row) :
  In a (collect body clock i items) ->
  exists j item, In item items /\ body (clock j) item = Some a.
Proof.
  revert i. induction items as [|item rest IH]; intros i; cbn [collect]; [contradiction|].
  destruct (body (clock i) item) as [a'|] eqn:E.
  - intros [<-|Hin].
    + exists i, item. split; [now left|exact E].
    + destruct (IH _ Hin) as [j [it [Hit Hb]]]. exists j, it. split; [now right|exact Hb].
  - intros Hin. destruct (IH _ Hin) as [j [it [Hit Hb]]]. exists j, it. split; [now right|exact Hb].
Qed.

Lemma collect_length {A : Type} (body : Z -> A -> option News.raw_row) (clock : nat -> Z)
                     (i : nat) (items : list A) :
  (List.length (collect body clock i items) <= List.length items)%nat.
Proof.
  revert i. induction items as [|item rest IH]; intros i; cbn [collect List.length]; [lia|].
  specialize (IH (S i)). destruct (body (clock i) item); cbn [List.length]; lia.
Qed.

Lemma top_ten {A : Type} (body : Z -> A -> option News.raw_row) (clock : nat -> Z)
              (items : list A) :
  (List.length (collect body clock 0 (firstn 10 items)) <= 10)%nat.
Proof.
  pose proof (collect_length body clock 0 (firstn 10 items)) as H.
  rewrite length_firstn in H. lia.
Qed.

Lemma startswith_app (pat s t : string) :
  startswith pat s = true -> startswith pat (s ++ t) = true.
Proof.
  revert s. induction pat as [|a pat IH]; intros [|b s]; cbn; try discriminate; auto.
  intros H. apply andb_prop in H. destruct H as [-> H]. cbn. now apply IH.
Qed.

Lemma truthy_spec (s : string) : truthy s = true <-> s <> "".
Proof.
  unfold truthy. rewrite negb_true_iff. split.
  - intros H ->. discriminate.
  - intros H. apply String.eqb_neq. exact H.
Qed.

(** What the loop body makes of an item. *)
Lemma article_inv (site source symbol : string) (now : Z) (item : tag) (a : News.raw_row) :
  startswith "http" site = true ->
  article site source symbol now item = Some a ->
  News.r_symbol a = symbol /\ News.r_source a = source /\ News.r_scraped_at a = now /\
  News.r_title a = Some (strip (text item)) /\
  (20 <= String.length (strip (text item)))%nat /\
  startswith "http" (News.r_url a) = true /\
  exists link, href item = Some link /\ link <> "" /\
    News.r_url a = if startswith "http" link then link else (site ++ link)%string.
Proof.
  intros Hsite. unfold article.
  destruct (String.length (strip (text item)) <? 20)%nat eqn:Hlen; [discriminate|].
  apply Nat.ltb_ge in Hlen.
  unfold get_href. destruct (href item) as [link|]; cbn [truthy String.eqb negb andb].
  - destruct (truthy link) eqn:Tl; cbn [andb].
    + destruct (startswith "http" link) eqn:Hh; cbn [negb].
      * rewrite Tl, andb_true_r.
        destruct (truthy (strip (text item))); [|discriminate].
        intros H. injection H as <-.
        cbn [News.r_symbol News.r_source News.r_scraped_at News.r_title News.r_url].
        repeat split; auto.
        exists link. rewrite Hh. apply truthy_spec in Tl. auto.
      * destruct (truthy (strip (text item)) && truthy (site ++ link)%string); [|discriminate].
        intros H. injection H as <-.
        cbn [News.r_symbol News.r_source News.r_scraped_at News.r_title News.r_url].
        repeat split; auto.
        -- now apply startswith_app.
        -- exists link. rewrite Hh. apply truthy_spec in Tl. auto.
    + rewrite Tl, andb_false_r. discriminate.
  - rewrite andb_false_r. discriminate.
Qed.

Lemma finviz_article_inv (symbol : string) (now : Z) (row : option tag) (a : News.raw_row) :
  finviz_article symbol now row = Some a ->
  News.r_symbol a = symbol /\ News.r_source a = "Finviz" /\
  exists link_tag, row = Some link_tag /\
    News.r_title a = Some (strip (text link_tag)) /\ strip (text link_tag) <> "" /\
    href link_tag = Some (News.r_url a) /\ News.r_url a <> "".
Proof.
  unfold finviz_article. destruct row as [link_tag|]; [|discriminate].
  destruct (truthy (strip (text link_tag))) eqn:Tt; [|discriminate].
  destruct (truthy (get_href link_tag)) eqn:Tl; [|discriminate].
  cbn [andb]. intros H. injection H as <-. cbn. repeat split.
  exists link_tag. apply truthy_spec in Tt, Tl. unfold get_href in *.
  destruct (href link_tag); [|congruence]. auto.
Qed.

(** The articles of one loop. *)
Lemma site_articles (site source symbol : string) (clock : nat -> Z) (items : list tag)
                    (a : News.raw_row) :
  startswith "http" site = true ->
  In a (collect (article site source symbol) clock 0 (firstn 10 items)) ->
  News.r_symbol a = symbol /\ News.r_source a = source /\
  exists t, News.r_title a = Some t /\ strip t = t /\ (20 <= String.length t)%nat /\
            startswith "http" (News.r_url a) = true.
Proof.
  intros Hs Hin. destruct (collect_In _ _ _ _ _ Hin) as [j [item [_ Hb]]].
  destruct (article_inv _ _ _ _ _ Hs Hb) as [H1 [H2 [_ [H3 [H4 [H5 _]]]]]].
  repeat split; auto. exists (strip (text item)). repeat split; auto. apply strip_spec.
Qed.

(** The frame of [scrape_yahoo_finance]. *)
Lemma yahoo_frame (clock : nat -> Z) (symbol : string)
    (yahoo : response yahoo_page) (marketwatch : response (list tag)) :
  let df := scrape_yahoo_finance clock symbol yahoo marketwatch in
  (List.length df <= 10)%nat /\
  (forall a, In a df ->
     News.r_symbol a = symbol /\
     exists t, News.r_title a = Some t /\ strip t = t /\ (20 <= String.length t)%nat /\
               startswith "http" (News.r_url a) = true) /\
  ((forall a, In a df -> News.r_source a = "Yahoo Finance") \/
   (forall a, In a df -> News.r_source a = "MarketWatch") /\
   df = _scrape_alternative_source clock symbol marketwatch).
Proof.
  cbv zeta.
  assert (Alt : let df := _scrape_alternative_source clock symbol marketwatch in
                (List.length df <= 10)%nat /\
                forall a, In a df ->
                  News.r_symbol a = symbol /\ News.r_source a = "MarketWatch" /\
                  exists t, News.r_title a = Some t /\ strip t = t /\
                            (20 <= String.length t)%nat /\
                            startswith "http" (News.r_url a) = true).
  { cbv zeta. unfold _scrape_alternative_source. destruct marketwatch as [|items].
    - split; [cbn; lia|contradiction].
    - split; [apply top_ten|]. intros a Ha. now apply site_articles in Ha. }
  cbv zeta in Alt. destruct Alt as [AltL AltA].
  unfold scrape_yahoo_finance. destruct yahoo as [|page].
  - split; [exact AltL|]. split.
    + intros a Ha. destruct (AltA a Ha) as [H1 [_ H2]]. auto.
    + right. split; [|reflexivity]. intros a Ha. now destruct (AltA a Ha) as [_ [H _]].
  - destruct (List.length (collect _ clock 0 (firstn 10 (news_items page))) =? 0)%nat.
    + split; [exact AltL|]. split.
      * intros a Ha. destruct (AltA a Ha) as [H1 [_ H2]]. auto.
      * right. split; [|reflexivity]. intros a Ha. now destruct (AltA a Ha) as [_ [H _]].
    + split; [apply top_ten|]. split.
      * intros a Ha. apply site_articles in Ha; [|reflexivity].
        destruct Ha as [H1 [_ H2]]. auto.
      * left. intros a Ha. apply site_articles in Ha; [|reflexivity]. tauto.
Qed.

(** X19: every article [scrape_yahoo_finance] returns is of the symbol
    asked for, has a trimmed title of at least 20 characters and an
    absolute URL; there are at most ten, and they all come from one site:
    from Yahoo, or from MarketWatch when the frame is the one of the
    alternative source. *)
Theorem scraped_articles_are_well_formed (clock : nat -> Z) (symbol : string)
    (yahoo : response yahoo_page) (marketwatch : response (list tag)) :
  let df := scrape_yahoo_finance clock symbol yahoo marketwatch in
  (List.length df <= 10)%nat /\
  (forall a, In a df ->
     News.r_symbol a = symbol /\
     exists t, News.r_title a = Some t /\ strip t = t /\ (20 <= String.length t)%nat /\
               startswith "http" (News.r_url a) = true) /\
  ((forall a, In a df -> News.r_source a = "Yahoo Finance") \/
   (forall a, In a df -> News.r_source a = "MarketWatch") /\
   df = _scrape_alternative_source clock symbol marketwatch).
Proof. apply yahoo_frame. Qed.

(** The frame of one turn of [scrape_multiple_symbols]. *)
Lemma symbol_frame (t : turn) (a : News.raw_row) :
  In a (scrape_symbol t) ->
  News.r_symbol a = t_symbol t /\
  (News.r_source a = "Finviz" <->
   scrape_yahoo_finance (t_clock t) (t_symbol t) (t_yahoo t) (t_marketwatch t) = []) /\
  (News.r_source a = "Finviz" ->
   (forall b, In b (scrape_symbol t) -> News.r_source b = "Finviz") /\
   exists title, News.r_title a = Some title /\ strip title = title /\ title <> "" /\
                 News.r_url a <> "" /\
     exists rows link_tag,
       t_finviz t = Body (Some rows) /\ In (Some link_tag) (firstn 10 rows) /\
       title = strip (text link_tag) /\ href link_tag = Some (News.r_url a)).
Proof.
  unfold scrape_symbol.
  pose proof (yahoo_frame (t_clock t) (t_symbol t) (t_yahoo t) (t_marketwatch t)) as W.
  cbv zeta in W.
  destruct (scrape_yahoo_finance (t_clock t) (t_symbol t) (t_yahoo t) (t_marketwatch t))
    as [|x df] eqn:E; cbn [empty].
  - assert (F : forall b, In b (scrape_finviz_news (t_clock t) (t_symbol t) (t_finviz t)) ->
              News.r_symbol b = t_symbol t /\ News.r_source b = "Finviz" /\
              exists title, News.r_title b = Some title /\ strip title = title /\
                            title <> "" /\ News.r_url b <> "" /\
                exists rows link_tag,
                  t_finviz t = Body (Some rows) /\ In (Some link_tag) (firstn 10 rows) /\
                  title = strip (text link_tag) /\ href link_tag = Some (News.r_url b)).
    { unfold scrape_finviz_news. destruct (t_finviz t) as [|[rows|]]; try contradiction.
      intros b Hb. destruct (collect_In _ _ _ _ _ Hb) as [j [row [Hin Hrow]]].
      destruct (finviz_article_inv _ _ _ Hrow) as [H1 [H2 [tag [-> [H3 [H4 [H6 H5]]]]]]].
      repeat split; auto. exists (strip (text tag)).
      split; [exact H3|]. split; [apply strip_spec|]. split; [exact H4|]. split; [exact H5|].
      exists rows, tag. auto. }
    intros Ha. destruct (F a Ha) as [H1 [H2 H3]].
    split; [exact H1|]. split; [tauto|]. intros _. split; [|exact H3].
    intros b Hb. now destruct (F b Hb) as [_ [H _]].
  - intros Ha. destruct W as [_ [W1 W2]]. destruct (W1 a Ha) as [H1 _].
    split; [exact H1|].
    assert (Hs : News.r_source a <> "Finviz").
    { destruct W2 as [W2|[W2 _]]; rewrite (W2 a Ha); discriminate. }
    split; [split; [contradiction|discriminate]|contradiction].
Qed.

(** X20: Finviz is the last resort: its articles are in the frame of a symbol
    only when neither Yahoo nor MarketWatch gave one, and then all the
    articles are from Finviz.  A Finviz article comes from the first link
    of one of the first ten rows of the news table: its title is the
    trimmed text of that link, which is not empty, and its URL is the
    [href] of that link as it stands on the page, not empty either. *)
Theorem finviz_is_the_last_resort (t : turn) (a : News.raw_row) :
  In a (scrape_symbol t) ->
  News.r_symbol a = t_symbol t /\
  (News.r_source a = "Finviz" <->
   scrape_yahoo_finance (t_clock t) (t_symbol t) (t_yahoo t) (t_marketwatch t) = []) /\
  (News.r_source a = "Finviz" ->
   (forall b, In b (scrape_symbol t) -> News.r_source b = "Finviz") /\
   exists title, News.r_title a = Some title /\ strip title = title /\ title <> "" /\
                 News.r_url a <> "" /\
     exists rows link_tag,
       t_finviz t = Body (Some rows) /\ In (Some link_tag) (firstn 10 rows) /\
       title = strip (text link_tag) /\ href link_tag = Some (News.r_url a)).
Proof. apply symbol_frame. Qed.

(** The theorem on a symbol for which only Finviz answers. *)
Lemma finviz_is_the_last_resort_witness :
  "AAPL" = t_symbol finviz_only /\
  ("Finviz" = "Finviz" <->
   scrape_yahoo_finance (t_clock finviz_only) (t_symbol finviz_only) (t_yahoo finviz_only)
                        (t_marketwatch finviz_only) = []) /\
  ("Finviz" = "Finviz" ->
   (forall b, In b (scrape_symbol finviz_only) -> News.r_source b = "Finviz") /\
   exists title, Some "Apple up" = Some title /\ strip title = title /\ title <> "" /\
                 "/news/1" <> "" /\
     exists rows link_tag,
       t_finviz finviz_only = Body (Some rows) /\ In (Some link_tag) (firstn 10 rows) /\
       title = strip (text link_tag) /\ href link_tag = Some "/news/1").
Proof.
  exact (@finviz_is_the_last_resort finviz_only _ (or_introl eq_refl)).
Defined.

(** X21: the titles the scraper hands over pass the transform as they are:
    for every row of the transformed frame of [scrape_multiple_symbols]
    there is a scraped article with that title, source and symbol, the
    title is there, [title_length] is its length, it is not 0, and it is
    at least 20 unless the article is from Finviz. *)
Theorem scraped_titles_pass_unchanged (now : Z) (turns : list turn) (r : News.row) :
  In r (transform_news_data now (scrape_multiple_symbols turns)) ->
  exists a title,
    In a (scrape_multiple_symbols turns) /\
    News.r_title a = Some title /\ News.title r = Some title /\
    News.symbol r = News.r_symbol a /\ News.source r = News.r_source a /\
    In (News.symbol r) (map t_symbol turns) /\
    News.title_length r = Some (String.length title) /\
    (1 <= String.length title)%nat /\
    (News.source r <> "Finviz" -> (20 <= String.length title)%nat).
Proof.
  intros Hr. destruct (news_rows _ _ _ Hr) as [a [Ha ->]].
  pose proof Ha as Ha'. unfold scrape_multiple_symbols in Ha'.
  apply gathered_In in Ha'. destruct Ha' as [t [Ht Hat]].
  destruct (symbol_frame t a Hat) as [Hsym [Hiff Hfin]].
  assert (Htitle : exists title, News.r_title a = Some title /\ strip title = title /\
                     (1 <= String.length title)%nat /\
                     (News.r_source a <> "Finviz" -> (20 <= String.length title)%nat)).
  { unfold scrape_symbol in Hat.
    pose proof (yahoo_frame (t_clock t) (t_symbol t) (t_yahoo t) (t_marketwatch t)) as W.
    cbv zeta in W.
    destruct (scrape_yahoo_finance (t_clock t) (t_symbol t) (t_yahoo t) (t_marketwatch t))
      as [|x df] eqn:E; cbn [empty] in Hat.
    - destruct Hfin as [_ [title [H1 [H2 [H3 _]]]]]; [now apply Hiff|].
      exists title. repeat split; auto.
      + destruct title; [congruence|cbn; lia].
      + intros Hn. exfalso. apply Hn. now apply Hiff.
    - destruct W as [_ [W1 _]]. destruct (W1 a Hat) as [_ [title [H1 [H2 [H3 _]]]]].
      exists title. repeat split; auto. lia. }
  destruct Htitle as [title [H1 [H2 [H3 H4]]]].
  exists a, title. cbn [stamp_news news_row News.title News.symbol News.source News.title_length].
  rewrite H1. cbn [option_map]. rewrite H2.
  repeat split; auto.
  rewrite Hsym. now apply in_map.
Qed.

(** The theorem on a symbol for which Yahoo answers with one link. *)
Lemma scraped_titles_pass_unchanged_witness :
  exists a title,
    In a (scrape_multiple_symbols [yahoo_answers]) /\
    News.r_title a = Some title /\ Some "Apple posts record revenue" = Some title /\
    "AAPL" = News.r_symbol a /\ "Yahoo Finance" = News.r_source a /\
    In "AAPL" (map t_symbol [yahoo_answers]) /\
    Some 26%nat = Some (String.length title) /\
    (1 <= String.length title)%nat /\
    ("Yahoo Finance" <> "Finviz" -> (20 <= String.length title)%nat).
Proof.
  exact (@scraped_titles_pass_unchanged 0 [yahoo_answers] _ (or_introl eq_refl)).
Defined.

End ScraperSpec.
